(** * confluence-markdown-exporter: [confluence.py] as a shallow embedding

    The Python module is translated function by function.  Remote clients,
    markdownify's base converter, the HTML parser and a few library calls
    are collaborators of the module; they are collected in the class
    [Externals] and every definition is parametric in it.  Exceptions are
    values of [exn], fallible pure code returns [result], and code that
    touches the file system, the global settings object or the console
    runs in the state-and-exception monad [M] over [World]. *)

From Stdlib Require Import ZArith DecimalString Ascii.
From stdpp Require Import gmap strings list.

Local Open Scope Z_scope.

(** ** Exceptions and results *)

(** The exception classes the module raises, catches or lets through.
    [HTTPError] carries [e.response.status_code] when a response is
    attached.  [KeyboardInterrupt] stands for the [BaseException]s that an
    [except Exception] clause does not catch. *)
Inductive exn : Type :=
  | HTTPError (response : option Z)
  | ApiError (msg : string)
  | ValueError (msg : string)
  | AttributeError (msg : string)
  | StopIteration
  | KeyError (key : string)
  | RecursionError
  | OtherException (msg : string)
  | KeyboardInterrupt.

Definition is_Exception (e : exn) : bool :=
  match e with
  | KeyboardInterrupt => false
  | _ => true
  end.

Definition is_HTTPError (e : exn) : bool :=
  match e with
  | HTTPError _ => true
  | _ => false
  end.

Inductive result (A : Type) : Type :=
  | Ok (a : A)
  | Raise (e : exn).
Arguments Ok {A} a.
Arguments Raise {A} e.

Definition bindR {A B} (r : result A) (k : A → result B) : result B :=
  match r with
  | Ok a => k a
  | Raise e => Raise e
  end.

Notation "'let?' x := r 'in' k" := (bindR r (fun x => k))
  (at level 10, x name, r at level 100, k at level 200).

(** [[f(x) for x in xs]] for a fallible [f]: the first exception wins. *)
Fixpoint mapR {A B} (f : A → result B) (xs : list A) : result (list B) :=
  match xs with
  | [] => Ok []
  | x :: xs' => let? y := f x in let? ys := mapR f xs' in Ok (y :: ys)
  end.

(** ** Python strings *)

(** [str] is modelled by [string]; a character is one [ascii] code unit. *)

Definition py_str_int (z : Z) : string := NilZero.string_of_int (Z.to_int z).

(** [\d] and [str.isdigit], restricted to the ASCII range. *)
Definition is_digit (c : ascii) : bool :=
  let n := nat_of_ascii c in (48 <=? n)%nat && (n <=? 57)%nat.

Definition is_alpha (c : ascii) : bool :=
  let n := nat_of_ascii c in
  ((65 <=? n)%nat && (n <=? 90)%nat) || ((97 <=? n)%nat && (n <=? 122)%nat).

(** [\w] restricted to the ASCII range. *)
Definition is_word (c : ascii) : bool :=
  is_alpha c || is_digit c || bool_decide (c = "_"%char).

(** [str.isspace] on the ASCII range: TAB..CR, FS..US and the space. *)
Definition py_isspace (c : ascii) : bool :=
  let n := nat_of_ascii c in
  ((9 <=? n)%nat && (n <=? 13)%nat) || ((28 <=? n)%nat && (n <=? 32)%nat).

Fixpoint lstrip (s : string) : string :=
  match s with
  | String c s' => if py_isspace c then lstrip s' else s
  | EmptyString => EmptyString
  end.

Definition py_strip (s : string) : string :=
  String.rev (lstrip (String.rev (lstrip s))).

Fixpoint startswith (p s : string) : bool :=
  match p, s with
  | EmptyString, _ => true
  | String a p', String b s' => bool_decide (a = b) && startswith p' s'
  | String _ _, EmptyString => false
  end.

Definition endswith (p s : string) : bool :=
  startswith (String.rev p) (String.rev s).

(** [sub in s] *)
Fixpoint contains (sub s : string) : bool :=
  startswith sub s ||
  match s with
  | String _ s' => contains sub s'
  | EmptyString => false
  end.

(** [s.replace(c, by)] for a one-character pattern. *)
Fixpoint replace_char (c : ascii) (by_ : string) (s : string) : string :=
  match s with
  | String a s' =>
      if bool_decide (a = c) then by_ +:+ replace_char c by_ s'
      else String a (replace_char c by_ s')
  | EmptyString => EmptyString
  end.

Definition removesuffix (suffix s : string) : string :=
  if endswith suffix s
  then String.substring 0 (String.length s - String.length suffix) s
  else s.

Definition lower_char (c : ascii) : ascii :=
  let n := nat_of_ascii c in
  if (65 <=? n)%nat && (n <=? 90)%nat then ascii_of_nat (n + 32) else c.

Fixpoint str_lower (s : string) : string :=
  match s with
  | String c s' => String (lower_char c) (str_lower s')
  | EmptyString => EmptyString
  end.

(** [sep.join(xs)] *)
Fixpoint join (sep : string) (xs : list string) : string :=
  match xs with
  | [] => ""
  | [x] => x
  | x :: xs' => x +:+ sep +:+ join sep xs'
  end.

(** [s.split(sep)] for a one-character separator. *)
Fixpoint split_on (sep : ascii) (s : string) : list string :=
  match s with
  | EmptyString => [""]
  | String c s' =>
      if bool_decide (c = sep) then "" :: split_on sep s'
      else match split_on sep s' with
           | h :: t => String c h :: t
           | [] => [String c ""]
           end
  end.

(** Iterating a text file: the lines, each keeping its newline (a lone
    carriage return is not taken as a line end). *)
Fixpoint readlines_go (cur : string) (s : string) : list string :=
  match s with
  | EmptyString => if bool_decide (cur = "") then [] else [String.rev cur]
  | String c s' =>
      if bool_decide (c = "010"%char)
      then String.rev (String c cur) :: readlines_go "" s'
      else readlines_go (String c cur) s'
  end.
Definition readlines (s : string) : list string := readlines_go "" s.

(** [int(s)] for a plain decimal literal with an optional sign and
    surrounding white space; anything else is a [ValueError]. *)
Fixpoint digits_value (acc : Z) (s : string) : option Z :=
  match s with
  | EmptyString => Some acc
  | String c s' =>
      if is_digit c
      then digits_value (10 * acc + (Z.of_nat (nat_of_ascii c) - 48)) s'
      else None
  end.

Definition py_int (s : string) : result Z :=
  let bad := Raise (ValueError ("invalid literal for int() with base 10: " +:+ s)) in
  let body (t : string) : option Z :=
    match t with
    | EmptyString => None
    | String _ _ => digits_value 0 t
    end in
  match py_strip s with
  | String "-" t => match body t with Some z => Ok (- z) | None => bad end
  | String "+" t => match body t with Some z => Ok z | None => bad end
  | t => match body t with Some z => Ok z | None => bad end
  end.

(** A value that is an [int] or a [str]: page ids arrive as both. *)
Inductive pyval : Type :=
  | PInt (z : Z)
  | PStr (s : string).

Definition py_str (v : pyval) : string :=
  match v with
  | PInt z => py_str_int z
  | PStr s => s
  end.

(** [v in xs] for a set of [str]: an [int] is equal to no [str]. *)
Definition py_in (v : pyval) (xs : gset string) : bool :=
  match v with
  | PInt _ => false
  | PStr s => bool_decide (s ∈ xs)
  end.

(** ** [pathlib.Path] (POSIX flavour) *)

(** A path is its root (empty, one slash or exactly two) and its parts;
    empty components and [.] components are dropped on construction. *)
Record Path : Type := mkPath { root : string; parts : list string }.

Definition path_root (s : string) : string :=
  if startswith "///" s then "/"
  else if startswith "//" s then "//"
  else if startswith "/" s then "/"
  else "".

Definition keep_part (c : string) : bool :=
  negb (bool_decide (c = "")) && negb (bool_decide (c = ".")).

Definition Path_of (s : string) : Path :=
  mkPath (path_root s) (filter (λ c, keep_part c = true) (split_on "/" s)).

Definition Path_str (p : Path) : string :=
  match root p, parts p with
  | EmptyString, [] => "."
  | r, ps => r +:+ join "/" ps
  end.

(** [p / q] *)
Definition Path_div (p q : Path) : Path :=
  if bool_decide (root q = "") then mkPath (root p) (parts p ++ parts q) else q.

(** [p.parent] *)
Definition Path_parent (p : Path) : Path :=
  mkPath (root p) (removelast (parts p)).


(** [p.stem]: the last part without its final suffix. *)
Fixpoint rfind_go (c : ascii) (i : nat) (found : option nat) (s : string) : option nat :=
  match s with
  | EmptyString => found
  | String a s' => rfind_go c (S i) (if bool_decide (a = c) then Some i else found) s'
  end.

Definition Path_stem (p : Path) : string :=
  let name := List.last (parts p) "" in
  match rfind_go "." 0 None name with
  | Some i =>
      if (0 <? i)%nat && (i <? String.length name - 1)%nat
      then String.substring 0 i name else name
  | None => name
  end.

(** The newline character as a string. *)
Definition nl : string := String "010" "".

(** ** The data model *)

Record Space : Type := mkSpace {
  space_key : string;
  space_name : string;
  space_description : string;
  space_homepage : option Z;
}.

Record Label : Type := mkLabel {
  label_id : string;
  label_name : string;
  label_prefix : string;
}.

(** [Attachment(Document)]: the three [Document] fields come first. *)
Record Attachment : Type := mkAttachment {
  att_title : string;
  att_space : Space;
  att_ancestors : list Z;
  att_id : string;
  att_file_size : Z;
  att_media_type : string;
  att_media_type_description : string;
  att_file_id : string;
  att_collection_name : string;
  att_download_link : string;
  att_comment : string;
}.

(** [Page(Document)] *)
Record Page : Type := mkPage {
  page_title : string;
  page_space : Space;
  page_ancestors : list Z;
  page_id : Z;
  page_body : string;
  page_body_export : string;
  page_editor2 : string;
  page_labels : list Label;
  page_attachments : list Attachment;
}.

(** [ConverterSettings]; [markdown_style] is a plain [str] at run time. *)
Record ConverterSettings : Type := mkSettings {
  markdown_style : string;
  page_path : string;
  attachment_path : string;
  output_root_path : string;
}.

(** ** The parse tree ([bs4]) *)

Inductive attr_value : Type :=
  | AttrStr (s : string)
  | AttrList (l : list string).

#[warnings="-register-all"]
Inductive Node : Type :=
  | NavigableString (s : string)
  | TagNode (name : string) (attrs : list (string * attr_value))
      (children : list Node).

Record Tag : Type := mkTag {
  tag_name : string;
  attrs : list (string * attr_value);
  children : list Node;
}.

Fixpoint assoc {A} (k : string) (l : list (string * A)) : option A :=
  match l with
  | [] => None
  | (k', v) :: l' => if bool_decide (k' = k) then Some v else assoc k l'
  end.

(** [el.get(k)], [el.has_attr(k)], [el[k] = v] *)
Definition el_get (el : Tag) (k : string) : option attr_value := assoc k (attrs el).

Definition has_attr (el : Tag) (k : string) : bool :=
  match el_get el k with Some _ => true | None => false end.

Fixpoint assoc_set {A} (k : string) (v : A) (l : list (string * A)) : list (string * A) :=
  match l with
  | [] => [(k, v)]
  | (k', v') :: l' =>
      if bool_decide (k' = k) then (k, v) :: l' else (k', v') :: assoc_set k v l'
  end.

Definition el_set (el : Tag) (k : string) (v : string) : Tag :=
  mkTag (tag_name el) (assoc_set k (AttrStr v) (attrs el)) (children el).

(** [repr] of a [str] and [str] of an attribute value ([None] included). *)
Definition hex_digit (n : nat) : ascii :=
  if (n <? 10)%nat then ascii_of_nat (48 + n) else ascii_of_nat (87 + n).

Definition backslash : ascii := ascii_of_nat 92.
Definition double_quote : ascii := ascii_of_nat 34.

Definition repr_char (q : ascii) (c : ascii) : string :=
  let n := nat_of_ascii c in
  let esc (x : string) := String backslash x in
  if bool_decide (c = backslash) then esc (String backslash "")
  else if bool_decide (c = q) then esc (String q "")
  else if bool_decide (c = "010"%char) then esc "n"
  else if bool_decide (c = "013"%char) then esc "r"
  else if bool_decide (c = "009"%char) then esc "t"
  else if (n <? 32)%nat || bool_decide (n = 127%nat)
  then esc (String "x" (String (hex_digit (n / 16)) (String (hex_digit (n mod 16)) "")))
  else String c "".

Fixpoint repr_body (q : ascii) (s : string) : string :=
  match s with
  | String c s' => repr_char q c +:+ repr_body q s'
  | EmptyString => EmptyString
  end.

Definition py_repr (s : string) : string :=
  let q := if contains "'" s && negb (contains (String double_quote "") s)
           then double_quote else "'"%char in
  String q (repr_body q s) +:+ String q "".

Definition str_attr (v : option attr_value) : string :=
  match v with
  | None => "None"
  | Some (AttrStr s) => s
  | Some (AttrList l) => "[" +:+ join ", " (py_repr <$> l) +:+ "]"
  end.

(** Truthiness of an attribute value. *)
Definition attr_truthy (v : option attr_value) : bool :=
  match v with
  | None => false
  | Some (AttrStr s) => negb (bool_decide (s = ""))
  | Some (AttrList l) => negb (bool_decide (l = []))
  end.

(** ** The world: files, global settings, console and network trace *)

Inductive Event : Type :=
  | EvGet (url : string)
  | EvSave (path : string)
  | EvProgress (page_id : pyval)
  | EvExportError (page_id : pyval) (e : exn)
  | EvPrint (msg : string).

Record World : Type := mkWorld {
  files : gmap string string;
  converter_settings : ConverterSettings;
  trace : list Event;
}.

Definition M (A : Type) : Type := World → result A * World.

Definition ret {A} (a : A) : M A := λ w, (Ok a, w).
Definition raise {A} (e : exn) : M A := λ w, (Raise e, w).
Definition lift {A} (r : result A) : M A := λ w, (r, w).

Definition bindM {A B} (m : M A) (k : A → M B) : M B :=
  λ w, match m w with
       | (Ok a, w') => k a w'
       | (Raise e, w') => (Raise e, w')
       end.

Notation "'let*' x := m 'in' k" := (bindM m (fun x => k))
  (at level 10, x name, m at level 100, k at level 200).

(** [try: m  except Exception as e: h e]; effects of [m] persist. *)
Definition try_except {A} (m : M A) (h : exn → M A) : M A :=
  λ w, match m w with
       | (Ok a, w') => (Ok a, w')
       | (Raise e, w') => if is_Exception e then h e w' else (Raise e, w')
       end.

(** [try: m  except HTTPError: h] *)
Definition try_except_HTTPError {A} (m : M A) (h : exn → M A) : M A :=
  λ w, match m w with
       | (Ok a, w') => (Ok a, w')
       | (Raise e, w') => if is_HTTPError e then h e w' else (Raise e, w')
       end.

Definition get_settings : M ConverterSettings := λ w, (Ok (converter_settings w), w).

Definition emit (ev : Event) : M unit :=
  λ w, (Ok tt, mkWorld (files w) (converter_settings w) (trace w ++ [ev])).

Definition path_exists (p : string) : M bool :=
  λ w, (Ok (bool_decide (is_Some (files w !! p))), w).

(** Modelled from the spec: [save_file] of [utils/export.py] is the generic
    file-write primitive; it stores the content under the path, replacing
    what was there. *)
Definition save_file (p : string) (content : string) : M unit :=
  λ w, (Ok tt, mkWorld (<[p := content]> (files w)) (converter_settings w)
                  (trace w ++ [EvSave p])).

(** Opening the file in append mode and writing [text]. *)
Definition append_file (p : string) (text : string) : M unit :=
  λ w, (Ok tt, mkWorld (<[p := default "" (files w !! p) +:+ text]> (files w))
                  (converter_settings w) (trace w)).

(** An HTTP response, as far as the module looks at it. *)
Record Response : Type := mkResponse {
  status_code : Z;
  content_type : option string;
  content : string;
}.

Definition raise_for_status (r : Response) : result unit :=
  if (400 <=? status_code r) && (status_code r <? 600)
  then Raise (HTTPError (Some (status_code r)))
  else Ok tt.

(** [page_properties]: values are strings or lists of strings. *)
Inductive prop_value : Type :=
  | PropStr (s : string)
  | PropList (l : list string).

(** ** Regular expressions *)

(** The fragment of [re] the module uses: literals, character classes,
    greedy and lazy repetition of a class, sequence, alternation, capturing
    groups (never nested here, so captures are listed in group order) and
    the end anchor.  Matching is by backtracking, in [re]'s priority order,
    against a continuation. *)
Inductive regex : Type :=
  | RLit (s : string)
  | RSet (p : ascii → bool)
  | RStar (p : ascii → bool)
  | RPlus (p : ascii → bool)
  | RPlusLazy (p : ascii → bool)
  | RCat (r1 r2 : regex)
  | RAlt (r1 r2 : regex)
  | RGroup (r : regex)
  | REnd.

Fixpoint str_drop (n : nat) (s : string) : string :=
  match n, s with
  | S n', String _ s' => str_drop n' s'
  | _, _ => s
  end.

Fixpoint str_take (n : nat) (s : string) : string :=
  match n, s with
  | S n', String c s' => String c (str_take n' s')
  | _, _ => ""
  end.

Fixpoint star_greedy {R} (p : ascii → bool) (s : string) (k : string → option R) : option R :=
  match s with
  | String c s' =>
      if p c
      then match star_greedy p s' k with
           | Some r => Some r
           | None => k s
           end
      else k s
  | EmptyString => k s
  end.

Fixpoint star_lazy {R} (p : ascii → bool) (s : string) (k : string → option R) : option R :=
  match k s with
  | Some r => Some r
  | None =>
      match s with
      | String c s' => if p c then star_lazy p s' k else None
      | EmptyString => None
      end
  end.

Fixpoint rmatch (r : regex) (s : string) (caps : list string)
    (k : string → list string → option (list string)) : option (list string) :=
  match r with
  | RLit l => if startswith l s then k (str_drop (String.length l) s) caps else None
  | RSet p =>
      match s with
      | String c s' => if p c then k s' caps else None
      | EmptyString => None
      end
  | RStar p => star_greedy p s (λ s', k s' caps)
  | RPlus p =>
      match s with
      | String c s' => if p c then star_greedy p s' (λ s'', k s'' caps) else None
      | EmptyString => None
      end
  | RPlusLazy p =>
      match s with
      | String c s' => if p c then star_lazy p s' (λ s'', k s'' caps) else None
      | EmptyString => None
      end
  | RCat r1 r2 => rmatch r1 s caps (λ s' caps', rmatch r2 s' caps' k)
  | RAlt r1 r2 =>
      match rmatch r1 s caps k with
      | Some c => Some c
      | None => rmatch r2 s caps k
      end
  | RGroup r1 =>
      rmatch r1 s caps
        (λ s' caps', k s' (caps' ++ [str_take (String.length s - String.length s') s]))
  | REnd =>
      if bool_decide (s = "") || bool_decide (s = String "010" "") then k s caps else None
  end.

(** [re.match(r, s)] and [re.search(r, s)]: the captured groups. *)
Definition re_match (r : regex) (s : string) : option (list string) :=
  rmatch r s [] (λ _ caps, Some caps).

Fixpoint re_search (r : regex) (s : string) : option (list string) :=
  match re_match r s with
  | Some caps => Some caps
  | None =>
      match s with
      | String _ s' => re_search r s'
      | EmptyString => None
      end
  end.

Definition dot (c : ascii) : bool := negb (bool_decide (c = "010"%char)).
Definition not_char (x : ascii) (c : ascii) : bool := negb (bool_decide (c = x)).

(** [data:([^;]+);base64,(.+)] *)
Definition data_uri_re : regex :=
  RCat (RLit "data:") (RCat (RGroup (RPlus (not_char ";")))
    (RCat (RLit ";base64,") (RGroup (RPlus dot)))).

(** [/wiki/.+?/pages/(\d+)] *)
Definition wiki_pages_re : regex :=
  RCat (RLit "/wiki/") (RCat (RPlusLazy dot) (RCat (RLit "/pages/") (RGroup (RPlus is_digit)))).

(** [/pages/viewpage.action\?pageId=(\d+)]; the dot is unescaped. *)
Definition viewpage_re : regex :=
  RCat (RLit "/pages/viewpage") (RCat (RSet dot)
    (RCat (RLit "action?pageId=") (RGroup (RPlus is_digit)))).

(** [/display/(\w+)/([^/]+)(?:\+|$)] *)
Definition display_re : regex :=
  RCat (RLit "/display/") (RCat (RGroup (RPlus is_word))
    (RCat (RLit "/") (RCat (RGroup (RPlus (not_char "/"))) (RAlt (RLit "+") REnd)))).

(** ** [string.Template.safe_substitute] *)

Definition is_idstart (c : ascii) : bool := is_alpha c || bool_decide (c = "_"%char).
Definition is_idchar (c : ascii) : bool := is_idstart c || is_digit c.

(** The longest prefix in a class, and what follows it. *)
Fixpoint span (p : ascii → bool) (s : string) : string * string :=
  match s with
  | String c s' =>
      if p c then let r := span p s' in (String c r.1, r.2) else ("", s)
  | EmptyString => ("", "")
  end.

(** One match of [Template.pattern] at a delimiter: [s] is the text after
    the [$].  Returns the replacement [safe_substitute] produces and the
    number of characters of [s] the match covers.  The four alternatives:
    escaped [$$]; named [$identifier]; braced [${identifier}]; invalid
    (the bare delimiter, kept).  A name the mapping lacks is kept as
    written. *)
Definition at_dollar (mapping : gmap string string) (s : string) : string * nat :=
  match s with
  | String c s' =>
      if bool_decide (c = "$"%char) then ("$", 1%nat)
      else if is_idstart c then
        let id := (span is_idchar s).1 in
        (default ("$" +:+ id) (mapping !! id), String.length id)
      else if bool_decide (c = "{"%char) then
        let id := (span is_idchar s').1 in
        let rest := (span is_idchar s').2 in
        if startswith "}" rest &&
           match id with String i _ => is_idstart i | EmptyString => false end
        then (default ("${" +:+ id +:+ "}") (mapping !! id), (2 + String.length id)%nat)
        else ("$", 0%nat)
      else ("$", 0%nat)
  | EmptyString => ("$", 0%nat)
  end.

(** [pattern.sub(convert, template)], scanning left to right; [skip]
    counts the characters still covered by the match just replaced. *)
Fixpoint substitute_go (mapping : gmap string string) (skip : nat) (s : string) : string :=
  match s with
  | EmptyString => ""
  | String c s' =>
      match skip with
      | S n => substitute_go mapping n s'
      | O =>
          if bool_decide (c = "$"%char)
          then (at_dollar mapping s').1 +:+ substitute_go mapping (at_dollar mapping s').2 s'
          else String c (substitute_go mapping 0 s')
      end
  end.

Definition safe_substitute (mapping : gmap string string) (template : string) : string :=
  substitute_go mapping 0 template.


(** ** Collaborators of the module *)

(** What [confluence.py] calls but does not define: the environment, the
    remote clients, [utils/export.py], library functions, the HTML parser
    and markdownify's base converter.  [process_tag] and [convert] are the
    base converter's traversal; it calls back into the handlers below, so
    it is taken as given.  The last six fields are the handlers of
    [Page.Converter] that search the parsed export view; they are kept
    abstract. *)
Class Externals : Type := {
  DEBUG : bool;
  confluence_url : string;
  JIRA_COOKIE : option string;
  Page_from_id : string → result Page;
  confluence_cql : string → result (list pyval);
  session_get : string → result Response;
  requests_get : string → option string → result Response;
  sanitize_filename : string → string;
  sanitize_key : string → option string → string;
  guess_extension : string → option string;
  md5_hexdigest : string → string;
  b64decode : string → result string;
  os_path_relpath : string → string → string;
  urlparse_netloc : string → string;
  urlparse_path : string → string;
  os_path_splitext : string → string;
  yaml_dump : gmap string prop_value → nat → string;
  prettify : string → string;
  find_a_by_string : string → string → option Tag;
  md_convert_img : Tag → string → list string → string;
  md_convert_blockquote : Tag → string → list string → string;
  md_convert_div : Tag → string → list string → string;
  md_convert_a : Tag → string → list string → string;
  process_tag : Page → Node → list string → M string;
  convert : Page → string → M (string * gmap string prop_value);
  convert_page_properties : Page → Tag → string → list string → M unit;
  convert_drawio : Page → Tag → string → list string → M string;
  convert_hidden_content : Page → Tag → string → list string → M string;
  convert_toc : Page → Tag → string → list string → M string;
  convert_jira_table : Page → Tag → string → list string → M string;
  convert_column_layout : Page → Tag → string → list string → M string;
}.

(** [x or d] for an optional string. *)
Definition str_or (x : option string) (d : string) : string :=
  match x with
  | Some s => if bool_decide (s = "") then d else s
  | None => d
  end.

Section Model.
Context `{Externals}.

(** ** [Document] *)

(** [Document._get_safe_ancestor_title] *)
Definition _get_safe_ancestor_title (ancestor_id : Z) : result string :=
  match Page_from_id (py_str_int ancestor_id) with
  | Ok p => Ok (page_title p)
  | Raise (HTTPError response) =>
      match response with
      | Some code =>
          if bool_decide (code = 403) then Ok "N/A" else Raise (HTTPError response)
      | None => Raise (AttributeError "'NoneType' object has no attribute 'status_code'")
      end
  | Raise e => Raise e
  end.

(** [Document._template_vars]; the entries are evaluated in order. *)
Definition Document_template_vars (space : Space) (ancestors : list Z)
    : result (gmap string string) :=
  let? homepage_title :=
    match space_homepage space with
    | Some h => let? p := Page_from_id (py_str_int h) in Ok (sanitize_filename (page_title p))
    | None => Ok ""
    end in
  let? titles :=
    mapR (λ a, let? t := _get_safe_ancestor_title a in Ok (sanitize_filename t)) ancestors in
  Ok (list_to_map [
    ("space_key", sanitize_filename (space_key space));
    ("space_name", sanitize_filename (space_name space));
    ("homepage_id", from_option py_str_int "" (space_homepage space));
    ("homepage_title", homepage_title);
    ("ancestor_ids", join "/" (py_str_int <$> ancestors));
    ("ancestor_titles", join "/" titles)
  ]).

(** The path template with every [{] turned into [${], substituted. *)
Definition resolve_template (template : string) (vars : gmap string string) : Path :=
  Path_of (safe_substitute vars (replace_char "{" "${" template)).

(** ** [Attachment] *)

Definition Attachment_extension (a : Attachment) : string :=
  if bool_decide (att_comment a = "draw.io diagram") &&
     bool_decide (att_media_type a = "application/vnd.jgraph.mxfile")
  then ".drawio"
  else if bool_decide (att_comment a = "draw.io preview") &&
          bool_decide (att_media_type a = "image/png")
  then ".drawio.png"
  else str_or (guess_extension (att_media_type a)) "".

Definition Attachment_filename (a : Attachment) : string :=
  att_file_id a +:+ Attachment_extension a.

Definition Attachment_template_vars (a : Attachment) : result (gmap string string) :=
  let? base := Document_template_vars (att_space a) (att_ancestors a) in
  Ok (<["attachment_extension" := Attachment_extension a]>
      (<["attachment_file_id" := sanitize_filename (att_file_id a)]>
       (<["attachment_title" := sanitize_filename (att_title a)]>
        (<["attachment_id" := att_id a]> base)))).

Definition Attachment_export_path (cfg : ConverterSettings) (a : Attachment) : result Path :=
  let? vars := Attachment_template_vars a in
  Ok (resolve_template (attachment_path cfg) vars).

(** [Attachment.export] *)
Definition Attachment_export (a : Attachment) (export_path : string) : M unit :=
  let* cfg := get_settings in
  let* rel := lift (Attachment_export_path cfg a) in
  let filepath := Path_str (Path_div (Path_of export_path) rel) in
  let* present := path_exists filepath in
  if present then ret tt
  else
    let url := confluence_url +:+ att_download_link a in
    let* response :=
      try_except_HTTPError
        (let* _ := emit (EvGet url) in
         let* r := lift (session_get url) in
         let* _ := lift (raise_for_status r) in
         ret (Some r))
        (λ _,
         let* _ := emit (EvPrint ("There is no attachment with title '" +:+ att_title a
                                  +:+ "'. Skipping export.")) in
         ret None) in
    match response with
    | Some r => save_file filepath (content r)
    | None => ret tt
    end.

(** ** [Page] *)

Definition Page_template_vars (p : Page) : result (gmap string string) :=
  let? base := Document_template_vars (page_space p) (page_ancestors p) in
  Ok (<["page_title" := sanitize_filename (page_title p)]>
      (<["page_id" := py_str_int (page_id p)]> base)).

Definition Page_export_path (cfg : ConverterSettings) (p : Page) : result Path :=
  let? vars := Page_template_vars p in
  Ok (resolve_template (page_path cfg) vars).

(** [Page.html] *)
Definition Page_html (cfg : ConverterSettings) (p : Page) : result string :=
  if bool_decide (markdown_style cfg = "GFM")
  then Ok ("<h1>" +:+ page_title p +:+ "</h1>" +:+ page_body p)
  else if bool_decide (markdown_style cfg = "Obsidian")
  then Ok (page_body p)
  else Raise (ValueError ("Invalid markdown style: " +:+ markdown_style cfg)).

(** [next(a for a in self.attachments if a.id == id)] *)
Definition get_attachment_by_id (p : Page) (id : string) : result Attachment :=
  match filter (λ a, att_id a = id) (page_attachments p) with
  | a :: _ => Ok a
  | [] => Raise StopIteration
  end.

Definition get_attachment_by_file_id (p : Page) (file_id : string) : result Attachment :=
  match filter (λ a, att_file_id a = file_id) (page_attachments p) with
  | a :: _ => Ok a
  | [] => Raise StopIteration
  end.

Definition get_attachments_by_title (p : Page) (title : string) : list Attachment :=
  filter (λ a, att_title a = title) (page_attachments p).

(** [Page.get_attachment_from_element].  The method is defined on [Page]
    and reads [self.page], an attribute a [Page] does not have; [None]
    stands for the empty string it returns when an id is missing. *)
Definition get_attachment_from_element (self : Page) (el : Tag) : result (option Attachment) :=
  let file_id := el_get el "data-media-id" in
  if attr_truthy file_id
  then Raise (AttributeError "'Page' object has no attribute 'page'")
  else
    let id := el_get el "data-linked-resource-id" in
    let container_id := el_get el "data-linked-resource-container-id" in
    if negb (attr_truthy id) || negb (attr_truthy container_id) then Ok None
    else
      let? image_container_page := Page_from_id (str_attr container_id) in
      let? attachment := get_attachment_by_id image_container_page (str_attr id) in
      Ok (Some attachment).

(** ** [Page.Converter] *)

Definition macros_to_ignore : list string := ["qc-read-and-understood-signature-box"].
Definition front_matter_indent : nat := 2.

(** [Converter.convert_alert] *)
Definition alert_type_map : list (string * string) :=
  [("info", "IMPORTANT"); ("panel", "NOTE"); ("tip", "TIP");
   ("note", "WARNING"); ("warning", "CAUTION")].

Definition convert_alert (el : Tag) (text : string) (parent_tags : list string)
    : result string :=
  match el_get el "data-macro-name" with
  | None => Raise (KeyError "data-macro-name")
  | Some v =>
      let alert_type := default "NOTE" (assoc (str_attr (Some v)) alert_type_map) in
      let blockquote := md_convert_blockquote el text parent_tags in
      Ok (nl +:+ "> [!" +:+ alert_type +:+ "]" +:+ blockquote)
  end.

(** [el[k] == s] and [el[k] in names] for an attribute the caller has
    checked to be present; a multi-valued attribute equals no string. *)
Definition attr_is (el : Tag) (k : string) (s : string) : bool :=
  match el_get el k with
  | Some (AttrStr v) => bool_decide (v = s)
  | _ => false
  end.

Definition attr_in (el : Tag) (k : string) (names : list string) : bool :=
  existsb (attr_is el k) names.

(** [str] of [el.get(k, d)] with the empty string for [d]. *)
Definition el_str (el : Tag) (k : string) : string :=
  from_option (λ v, str_attr (Some v)) "" (el_get el k).

(** [Converter.convert_div] *)
Definition convert_div (page : Page) (el : Tag) (text : string) (parent_tags : list string)
    : M string :=
  let macro := attr_is el "data-macro-name" in
  let layout :=
    if contains "columnLayout" (el_str el "class")
    then convert_column_layout page el text parent_tags
    else ret (md_convert_div el text parent_tags) in
  if has_attr el "data-macro-name" then
    if attr_in el "data-macro-name" macros_to_ignore then ret ""
    else if attr_in el "data-macro-name" ["panel"; "info"; "note"; "tip"; "warning"]
    then lift (convert_alert el text parent_tags)
    else
      let* _ := if macro "details" then convert_page_properties page el text parent_tags
                else ret tt in
      if macro "drawio" then convert_drawio page el text parent_tags
      else if macro "scroll-ignore" then convert_hidden_content page el text parent_tags
      else if macro "toc" then convert_toc page el text parent_tags
      else if macro "jira" then convert_jira_table page el text parent_tags
      else layout
  else layout.

(** [Converter.convert_user] *)
Definition convert_user (el : Tag) (text : string) (parent_tags : list string) : string :=
  py_strip (removesuffix "(Deactivated)" (removesuffix "(Unlicensed)" text)).

(** [Converter.convert_page_link] *)
Definition convert_page_link (page : Page) (page_id : Z) (el : option Tag) : M string :=
  if bool_decide (page_id = 0)
  then raise (ValueError "Page link does not have valid page_id.")
  else
    let* target := lift (Page_from_id (py_str_int page_id)) in
    let* cfg := get_settings in
    let* target_path := lift (Page_export_path cfg target) in
    let* own_path := lift (Page_export_path cfg page) in
    let relpath := os_path_relpath (Path_str target_path) (Path_str (Path_parent own_path)) in
    let* link_content :=
      match el with
      | None => ret (page_title target)
      | Some e =>
          match children e with
          | NavigableString s :: _ => ret s
          | child :: _ => process_tag page child ["a"]
          | [] => ret "None"
          end
      end in
    ret ("[" +:+ link_content +:+ "](" +:+ replace_char " " "%20" relpath +:+ ")").

(** [Converter.convert_attachment_link]; the empty string the lookup
    returns for a missing id has no [export_path]. *)
Definition convert_attachment_link (page : Page) (el : Tag) (text : string)
    (parent_tags : list string) : M string :=
  let* attachment := lift (get_attachment_from_element page el) in
  match attachment with
  | None => raise (AttributeError "'str' object has no attribute 'export_path'")
  | Some a =>
      let* cfg := get_settings in
      let* a_path := lift (Attachment_export_path cfg a) in
      let* own_path := lift (Page_export_path cfg page) in
      let relpath := os_path_relpath (Path_str a_path) (Path_str (Path_parent own_path)) in
      ret ("[" +:+ att_title a +:+ "](" +:+ replace_char " " "%20" relpath +:+ ")")
  end.

(** [get_page_id_by_space_and_name]: the first hit of the query, or
    [None]; every [Exception] becomes [None]. *)
Definition get_page_id_by_space_and_name (space_key page_name : string) : result (option Z) :=
  let q := String double_quote "" in
  let query := "space.key=" +:+ q +:+ space_key +:+ q +:+ " AND type=page AND title="
               +:+ q +:+ page_name +:+ q in
  let found :=
    let? results := confluence_cql query in
    match results with
    | PInt z :: _ => Ok (Some z)
    | PStr s :: _ => let? z := py_int s in Ok (Some z)
    | [] => Ok None
    end in
  match found with
  | Ok r => Ok r
  | Raise e => if is_Exception e then Ok None else Raise e
  end.

(** [Converter.convert_a], from the page-link test on; the [createpage]
    branch of the caller re-enters here with the editor's element. *)
Definition convert_a_link (page : Page) (el : Tag) (text : string) (parent_tags : list string)
    : M string :=
  let href := el_str el "href" in
  let by_id (digits : string) : M string :=
    let* page_id := lift (py_int digits) in convert_page_link page page_id (Some el) in
  let rest : M string :=
    if contains "attachment" (str_attr (el_get el "data-linked-resource-type"))
    then convert_attachment_link page el text parent_tags
    else match re_search wiki_pages_re href with
    | Some (page_id :: _) => by_id page_id
    | _ =>
    match re_search viewpage_re href with
    | Some (page_id :: _) => by_id page_id
    | _ =>
    match re_search display_re href with
    | Some (space_key :: title :: _) =>
        let page_name := replace_char "+" " " title in
        let* page_id := lift (get_page_id_by_space_and_name space_key page_name) in
        match page_id with
        | Some z =>
            if bool_decide (z = 0)
            then ret ("[" +:+ text +:+ "](" +:+ href +:+ ")")
            else convert_page_link page z (Some el)
        | None => ret ("[" +:+ text +:+ "](" +:+ href +:+ ")")
        end
    | _ =>
        if startswith "#" href
        then ret ("[" +:+ text +:+ "](#" +:+ sanitize_key text (Some "-") +:+ ")")
        else ret (md_convert_a el text parent_tags)
    end end end in
  if contains "page" (str_attr (el_get el "data-linked-resource-type")) then
    let page_id := el_str el "data-linked-resource-id" in
    if negb (bool_decide (page_id = "")) && negb (bool_decide (page_id = "null"))
    then by_id page_id
    else rest
  else rest.

Definition is_user_mention (el : Tag) : bool :=
  contains "user-mention" (str_attr (el_get el "class")).

Definition is_create_link (el : Tag) : bool :=
  contains "createpage.action" (str_attr (el_get el "href")) ||
  contains "createlink" (str_attr (el_get el "class")).

(** [Converter.convert_a].  The element found in the editor markup for
    the same text is handed to [convert_a] again; when it is a create
    link too the search finds it once more and the recursion never ends. *)
Definition convert_a (page : Page) (el : Tag) (text : string) (parent_tags : list string)
    : M string :=
  if is_user_mention el then ret (convert_user el text parent_tags)
  else if is_create_link el then
    match find_a_by_string (page_editor2 page) text with
    | Some fallback =>
        if is_user_mention fallback then ret (convert_user fallback text parent_tags)
        else if is_create_link fallback then raise RecursionError
        else convert_a_link page fallback text parent_tags
    | None => ret ("[[" +:+ text +:+ "]]")
    end
  else convert_a_link page el text parent_tags.

(** [assets_dir.glob] for the hash: the files of the directory whose name
    is the hash, a dot and anything; listed in the order of the file map. *)
Definition glob_hash (dir : string) (hash : string) : M (list string) :=
  λ w,
    let pre := dir +:+ "/" +:+ hash +:+ "." in
    (Ok (filter (λ k, startswith pre k = true ∧
                      contains "/" (str_drop (String.length pre) k) = false)
           (map_to_list (files w)).*1), w).

Definition known_image_extensions : list string :=
  [".jpg"; ".jpeg"; ".png"; ".gif"; ".svg"; ".webp"; ".bmp"; ".tiff"; ".ico"].

(** [parent_tags.remove] of the first occurrence. *)
Fixpoint remove_first (x : string) (l : list string) : list string :=
  match l with
  | [] => []
  | y :: l' => if bool_decide (y = x) then l' else y :: remove_first x l'
  end.

(** The tail shared by both image paths: point a copy of the element at
    the local file and let the base converter render it. *)
Definition render_local_img (page : Page) (output_path : Path) (file_path : string)
    (el : Tag) (text : string) (parent_tags : list string) : M string :=
  let* cfg := get_settings in
  let* own_path := lift (Page_export_path cfg page) in
  let rel_img_path :=
    os_path_relpath file_path (Path_str (Path_div output_path (Path_parent own_path))) in
  let cloned_el := el_set el "src" (replace_char " " "%20" rel_img_path) in
  ret (md_convert_img cloned_el text (remove_first "_inline" parent_tags)).

(** The [data:] branch of [convert_img]; [None] when the pattern does not
    match and control falls through to the download branch. *)
Definition convert_img_base64 (page : Page) (output_path : Path) (assets_dir : Path)
    (src : string) (el : Tag) (text : string) (parent_tags : list string)
    : M (option string) :=
  try_except
    (match re_match data_uri_re src with
     | Some (mime_type :: base64_data :: _) =>
         let extension := str_or (guess_extension mime_type) ".bin" in
         let data_hash := md5_hexdigest base64_data in
         let file_path := Path_str (Path_div assets_dir (Path_of (data_hash +:+ extension))) in
         let* present := path_exists file_path in
         let* saved :=
           if present then ret true
           else try_except
                  (let* image_data := lift (b64decode base64_data) in
                   let* _ := save_file file_path image_data in
                   ret true)
                  (λ _, ret false) in
         if saved
         then let* md := render_local_img page output_path file_path el text parent_tags in
              ret (Some md)
         else ret (Some "")
     | _ => ret None
     end)
    (λ _, ret (Some "")).

(** The download of [convert_img]: the local file path, or [None] when
    the fetch failed. *)
Definition download_img (assets_dir : Path) (src src_hash : string) : M (option string) :=
  try_except
    (let url := if startswith "/" src then confluence_url +:+ src else src in
     let* response :=
       if startswith "jira" (urlparse_netloc url) then
         let* _ := emit (EvGet url) in
         let* r := lift (requests_get url JIRA_COOKIE) in
         let* _ := lift (raise_for_status r) in
         if contains "text/html" (str_lower (default "" (content_type r)))
         then raise (OtherException "HTML response received instead of an image")
         else ret r
       else
         let* _ := emit (EvGet url) in
         let* r := lift (session_get url) in
         let* _ := lift (raise_for_status r) in
         ret r in
     let extension := str_or (guess_extension (default "" (content_type response))) ".bin" in
     let url_extension := str_lower (os_path_splitext (urlparse_path url)) in
     let* extension :=
       if bool_decide (extension = ".bin") then
         if negb (bool_decide (url_extension = "")) &&
            bool_decide (url_extension ∈ known_image_extensions)
         then ret url_extension
         else let* _ := emit (EvPrint ("Error: Could not determine file extension for "
                                       +:+ url +:+ ". Using .bin")) in
              ret extension
       else ret extension in
     let file_path := Path_str (Path_div assets_dir (Path_of (src_hash +:+ extension))) in
     let* _ := save_file file_path (content response) in
     ret (Some file_path))
    (λ _, ret None).

(** [Converter.convert_img].  Directories are not part of [World], so
    [assets_dir.mkdir] leaves no mark. *)
Definition convert_img (page : Page) (el : Tag) (text : string) (parent_tags : list string)
    : M string :=
  let* attachment := lift (get_attachment_from_element page el) in
  match attachment with
  | Some a =>
      let* cfg := get_settings in
      let* a_path := lift (Attachment_export_path cfg a) in
      let* own_path := lift (Page_export_path cfg page) in
      let relpath := os_path_relpath (Path_str a_path) (Path_str (Path_parent own_path)) in
      ret (md_convert_img (el_set el "src" (replace_char " " "%20" relpath)) text
             (remove_first "_inline" parent_tags))
  | None =>
      let src := el_str el "src" in
      if bool_decide (src = "") then ret ""
      else
        let* cfg := get_settings in
        let output_path := Path_of (output_root_path cfg) in
        let assets_dir := Path_div output_path (Path_of "assets") in
        let by_url : M string :=
          let src_hash := md5_hexdigest src in
          let* existing_files := glob_hash (Path_str assets_dir) src_hash in
          let* file_path :=
            match existing_files with
            | f :: _ => ret (Some f)
            | [] => download_img assets_dir src src_hash
            end in
          match file_path with
          | Some f => render_local_img page output_path f el text parent_tags
          | None => ret ""
          end in
        if startswith "data:" src then
          let* r := convert_img_base64 page output_path assets_dir src el text parent_tags in
          match r with
          | Some md => ret md
          | None => by_url
          end
        else by_url
  end.

(** [for x in xs: f(x)] and [[f(x) for x in xs]] in [M]. *)
Fixpoint forM_ {A} (xs : list A) (f : A → M unit) : M unit :=
  match xs with
  | [] => ret tt
  | x :: xs' => let* _ := f x in forM_ xs' f
  end.

Fixpoint mapM {A B} (f : A → M B) (xs : list A) : M (list B) :=
  match xs with
  | [] => ret []
  | x :: xs' => let* y := f x in let* ys := mapM f xs' in ret (y :: ys)
  end.

Definition prop_truthy (v : prop_value) : bool :=
  match v with
  | PropStr s => negb (bool_decide (s = ""))
  | PropList l => negb (bool_decide (l = []))
  end.

(** [Converter.set_page_properties] for one keyword. *)
Definition set_page_property (key : string) (value : prop_value)
    (props : gmap string prop_value) : gmap string prop_value :=
  if prop_truthy value then <[sanitize_key key None := value]> props else props.

(** [Converter.labels] *)
Definition Converter_labels (page : Page) : list string :=
  (λ l, "#" +:+ label_name l) <$> page_labels page.

(** The multi-line [re.sub] of [front_matter]: a line that starts with
    spaces, a dash and a space gets [indent] more spaces after the spaces. *)
Definition indent_item (indent : nat) (line : string) : string :=
  let sp := (span (λ c, bool_decide (c = " "%char)) line).1 in
  let rest := (span (λ c, bool_decide (c = " "%char)) line).2 in
  if startswith "- " rest
  then sp +:+ String.concat "" (replicate indent " ") +:+ rest
  else line.

(** [Converter.front_matter], on the properties the conversion recorded. *)
Definition front_matter (page : Page) (page_properties : gmap string prop_value) : string :=
  let indent := front_matter_indent in
  let props := set_page_property "tags" (PropList (Converter_labels page)) page_properties in
  if bool_decide (size props = 0%nat) then ""
  else
    let yml := py_strip (yaml_dump props indent) in
    let yml := join nl (indent_item indent <$> split_on "010" yml) in
    "---" +:+ nl +:+ yml +:+ nl +:+ "---" +:+ nl.

(** [Converter.breadcrumbs] *)
Definition breadcrumbs (page : Page) : M string :=
  let* links := mapM (λ ancestor, convert_page_link page ancestor None) (page_ancestors page) in
  ret (join " > " links +:+ nl).

(** [Converter.markdown] *)
Definition Converter_markdown (page : Page) : M string :=
  let* cfg := get_settings in
  let* html := lift (Page_html cfg page) in
  let* converted := convert page html in
  let md_body := converted.1 in
  let* cfg := get_settings in
  if bool_decide (markdown_style cfg = "GFM") then
    let fm := front_matter page converted.2 in
    let* bc := breadcrumbs page in
    ret (fm +:+ nl +:+ bc +:+ nl +:+ md_body +:+ nl)
  else if bool_decide (markdown_style cfg = "Obsidian") then
    ret (front_matter page converted.2 +:+ nl +:+ md_body +:+ nl)
  else raise (ValueError ("Invalid markdown style: " +:+ markdown_style cfg)).

(** ** Exporting a page *)

(** [Page.export_body] *)
Definition Page_export_body (page : Page) (export_path : string) : M unit :=
  let* cfg := get_settings in
  let target (suffix : string) : M string :=
    let* own := lift (Page_export_path cfg page) in
    let* own' := lift (Page_export_path cfg page) in
    ret (Path_str (Path_div (Path_div (Path_of export_path) (Path_parent own))
                     (Path_of (Path_stem own' +:+ suffix)))) in
  let* html := lift (Page_html cfg page) in
  let* f1 := target "_body_view.html" in
  let* _ := save_file f1 (prettify html) in
  let* f2 := target "_body_export_view.html" in
  let* _ := save_file f2 (prettify (page_body_export page)) in
  let* f3 := target "_body_editor2.xml" in
  save_file f3 (page_editor2 page).

(** [Page.export_markdown]: the path is computed before the Markdown. *)
Definition Page_export_markdown (page : Page) (export_path : string) : M unit :=
  let* cfg := get_settings in
  let* own := lift (Page_export_path cfg page) in
  let* md := Converter_markdown page in
  save_file (Path_str (Path_div (Path_of export_path) own)) md.

(** [Page.export_attachments] *)
Definition is_referenced (page : Page) (a : Attachment) : bool :=
  (endswith ".drawio" (Attachment_filename a) &&
   contains ("diagramName=" +:+ att_title a) (page_body page))
  || (endswith ".drawio.png" (Attachment_filename a) &&
      contains (replace_char " " "%20" (att_title a)) (page_body_export page))
  || contains (att_file_id a) (page_body page).

Definition Page_export_attachments (page : Page) (export_path : string) : M unit :=
  forM_ (page_attachments page)
    (λ a, if is_referenced page a then Attachment_export a export_path else ret tt).

(** [Page.export] *)
Definition Page_export (page : Page) (export_path : string) : M unit :=
  let* _ := if DEBUG then Page_export_body page export_path else ret tt in
  let* _ := Page_export_markdown page export_path in
  Page_export_attachments page export_path.

Definition set_output_root_path (output_path : string) : M unit :=
  λ w, (Ok tt, mkWorld (files w)
                 (mkSettings (markdown_style (converter_settings w))
                    (page_path (converter_settings w))
                    (attachment_path (converter_settings w)) output_path)
                 (trace w)).

(** [export_page] *)
Definition export_page (page_id : pyval) (output_path : string) : M unit :=
  let* _ := set_output_root_path output_path in
  let* page := lift (Page_from_id (py_str page_id)) in
  Page_export page output_path.

(** ** [export_pages] *)

Definition processed_pages_file (output_path : string) : string :=
  Path_str (Path_div (Path_div (Path_of output_path) (Path_of ".cache"))
              (Path_of "processed_pages.txt")).

(** [{line.strip() for line in f}], the empty set when there is no file. *)
Definition read_processed_pages (file : string) : M (gset string) :=
  λ w,
    match files w !! file with
    | Some text =>
        let processed_pages : gset string := list_to_set (py_strip <$> readlines text) in
        (Ok processed_pages,
         mkWorld (files w) (converter_settings w)
           (trace w ++ [EvPrint ("Found " +:+ py_str_int (Z.of_nat (size processed_pages))
                                 +:+ " previously processed pages")]))
    | None => (Ok ∅, w)
    end.

(** [[page_id for page_id in page_ids if page_id not in processed_pages]] *)
Definition pages_to_process (page_ids : list pyval) (processed_pages : gset string)
    : list pyval :=
  filter (λ page_id, py_in page_id processed_pages = false) page_ids.

(** One round of the loop: export, then append the id to the log; an
    [Exception] on the way is printed and the loop goes on. *)
Definition export_pages_step (output_path : string) (page_id : pyval) : M unit :=
  let* _ := emit (EvProgress page_id) in
  try_except
    (let* _ := export_page page_id output_path in
     append_file (processed_pages_file output_path) (py_str page_id +:+ nl))
    (λ e, emit (EvExportError page_id e)).

Definition export_pages (page_ids : list pyval) (output_path : string) : M unit :=
  let* _ := set_output_root_path output_path in
  let* processed_pages := read_processed_pages (processed_pages_file output_path) in
  let todo := pages_to_process page_ids processed_pages in
  let* _ :=
    if (length todo <? length page_ids)%nat
    then emit (EvPrint ("Skipping " +:+
                        py_str_int (Z.of_nat (length page_ids - length todo))
                        +:+ " already processed pages"))
    else ret tt in
  forM_ todo (export_pages_step output_path).

End Model.

(** ** A small concrete deployment *)

(** One space with four pages and stand-ins for the libraries, used to run
    the definitions on concrete inputs.  Page 4 has page 10 as its
    ancestor; page 7 is forbidden, page 8 fails on the server. *)
Module Demo.

Definition space : Space := mkSpace "DOC" "Docs" "" None.

Definition diagram : Attachment :=
  mkAttachment "arch.png" space [] "att55" 2048 "image/png" "PNG Image"
    "f-55" "contentId-1" "/download/attachments/1/arch.png" "".

Definition mk (id : Z) (title body : string) (ancestors : list Z)
    (atts : list Attachment) : Page :=
  mkPage title space ancestors id body "" "" [] atts.

Definition fetch (id : string) : result Page :=
  if bool_decide (id = "1") then Ok (mk 1 "Home" "<p>home f-55</p>" [] [diagram])
  else if bool_decide (id = "2") then Ok (mk 2 "Guide" "<p>guide</p>" [] [])
  else if bool_decide (id = "3") then Ok (mk 3 "FAQ" "<p>faq</p>" [] [])
  else if bool_decide (id = "4") then Ok (mk 4 "Child" "<p>child</p>" [10] [])
  else if bool_decide (id = "10") then Ok (mk 10 "Parent" "<p>parent</p>" [] [])
  else if bool_decide (id = "7") then Raise (HTTPError (Some 403))
  else if bool_decide (id = "8") then Raise (HTTPError (Some 500))
  else Raise (HTTPError (Some 404)).

Definition mime_table : list (string * string) :=
  [("image/png", ".png"); ("image/jpeg", ".jpg"); ("image/gif", ".gif");
   ("text/html", ".html")].

(** Stand-in for the digest: the hexadecimal spelling of the argument. *)
Fixpoint hex_of (s : string) : string :=
  match s with
  | String c s' =>
      String (hex_digit (nat_of_ascii c / 16))
        (String (hex_digit (nat_of_ascii c mod 16)) (hex_of s'))
  | EmptyString => EmptyString
  end.

(** Stand-in for the decoder: it only checks the padding. *)
Definition decode (s : string) : result string :=
  if bool_decide (String.length s mod 4 = 0)%nat then Ok s
  else Raise (OtherException "Incorrect padding").

Definition get (url : string) : result Response :=
  if contains "/download/" url then Ok (mkResponse 200 (Some "image/png") "PNGDATA")
  else Ok (mkResponse 404 (Some "text/html") "<html>not found</html>").

#[export] Instance externals : Externals := {|
  DEBUG := false;
  confluence_url := "https://wiki.example.org";
  JIRA_COOKIE := None;
  Page_from_id := fetch;
  confluence_cql := λ _, Ok [];
  session_get := get;
  requests_get := λ url _, get url;
  sanitize_filename := λ s, s;
  sanitize_key := λ s _, s;
  guess_extension := λ m, assoc m mime_table;
  md5_hexdigest := hex_of;
  b64decode := decode;
  os_path_relpath := λ p _, p;
  urlparse_netloc := λ _, "wiki.example.org";
  urlparse_path := λ u, u;
  os_path_splitext := λ _, "";
  yaml_dump := λ _ _, "";
  prettify := λ s, s;
  find_a_by_string := λ _ _, None;
  md_convert_img := λ el _ _, "![](" +:+ el_str el "src" +:+ ")";
  md_convert_blockquote := λ _ text _, nl +:+ "> " +:+ text +:+ nl +:+ nl;
  md_convert_div := λ _ text _, text;
  md_convert_a := λ el text _, "[" +:+ text +:+ "](" +:+ el_str el "href" +:+ ")";
  process_tag := λ _ _ _, ret "";
  convert := λ _ html, ret (html, ∅);
  convert_page_properties := λ _ _ _ _, ret tt;
  convert_drawio := λ _ _ _ _, ret "";
  convert_hidden_content := λ _ _ _ _, ret "";
  convert_toc := λ _ _ _ _, ret "";
  convert_jira_table := λ _ _ _ _, ret "";
  convert_column_layout := λ _ _ _ _, ret "";
|}.

Definition settings (style : string) : ConverterSettings :=
  mkSettings style "{space_name}/{page_title}.md"
    "{space_name}/attachments/{attachment_file_id}{attachment_extension}" ".".

Definition world (style : string) : World := mkWorld ∅ (settings style) [].

Definition img (atts : list (string * string)) : Tag :=
  mkTag "img" (prod_map id AttrStr <$> atts) [].

Definition home : Page := mk 1 "Home" "<p>home f-55</p>" [] [diagram].
Definition child : Page := mk 4 "Child" "<p>child</p>" [10] [].
Definition gfm : World := world "GFM".

(** Settings whose page template names a variable that does not exist. *)
Definition team_settings : ConverterSettings :=
  mkSettings "GFM" "{space_name}/{team}/{page_title}.md"
    "{space_name}/attachments/{attachment_id}" ".".

End Demo.

(** * Vocabulary of the properties *)

Section Vocabulary.
Context `{Externals}.

(** [sub] occurs in [s]. *)
Definition occurs (sub s : string) : Prop := ∃ x y, s = x +:+ sub +:+ y.

Definition alert_label (name : string) : string :=
  default "NOTE" (assoc name alert_type_map).

Definition is_save (ev : Event) : bool :=
  match ev with EvSave _ => true | _ => false end.
Definition is_get (ev : Event) : bool :=
  match ev with EvGet _ => true | _ => false end.

Definition count_saves (t : list Event) : nat := length (filter (λ ev, is_save ev = true) t).
Definition count_gets (t : list Event) : nat := length (filter (λ ev, is_get ev = true) t).

Definition with_trace (w : World) (evs : list Event) : World :=
  mkWorld (files w) (converter_settings w) (trace w ++ evs).

Definition style_error (cfg : ConverterSettings) : exn :=
  ValueError ("Invalid markdown style: " +:+ markdown_style cfg).

Definition supported_style (cfg : ConverterSettings) : Prop :=
  markdown_style cfg = "GFM" ∨ markdown_style cfg = "Obsidian".

(** The world once [output_root_path] has been assigned. *)
Definition rooted (w : World) (output_path : string) : World :=
  (set_output_root_path output_path w).2.

Definition errors_of (t : list Event) : list (pyval * exn) :=
  t ≫= λ ev, match ev with EvExportError id e => [(id, e)] | _ => [] end.

Definition progress_of (t : list Event) : list pyval :=
  t ≫= λ ev, match ev with EvProgress id => [id] | _ => [] end.

(** The set [export_pages] reads from the log, and what it prints before
    the loop starts. *)
Definition processed_set (w : World) (output_path : string) : gset string :=
  match files w !! processed_pages_file output_path with
  | Some text => list_to_set (py_strip <$> readlines text)
  | None => ∅
  end.

Definition todo_of (page_ids : list pyval) (w : World) (output_path : string) : list pyval :=
  pages_to_process page_ids (processed_set w output_path).

Definition prelude (page_ids : list pyval) (w : World) (output_path : string) : list Event :=
  match files w !! processed_pages_file output_path with
  | Some _ =>
      [EvPrint ("Found " +:+ py_str_int (Z.of_nat (size (processed_set w output_path)))
                +:+ " previously processed pages")]
  | None => []
  end ++
  if (length (todo_of page_ids w output_path) <? length page_ids)%nat
  then [EvPrint ("Skipping " +:+
                 py_str_int (Z.of_nat (length page_ids
                                       - length (todo_of page_ids w output_path)))
                 +:+ " already processed pages")]
  else [].

(** The world of a run of [export_pages] that is killed right after the
    [n]-th round of its loop. *)
Definition killed_after (n : nat) (page_ids : list pyval) (output_path : string)
    (w : World) : result unit * World :=
  forM_ (take n (todo_of page_ids w output_path)) (export_pages_step output_path)
    (with_trace (rooted w output_path) (prelude page_ids w output_path)).

(** The link [convert_page_link] renders for an ancestor. *)
Definition ancestor_link (cfg : ConverterSettings) (page : Page) (ancestor : Z)
    : result string :=
  if bool_decide (ancestor = 0)
  then Raise (ValueError "Page link does not have valid page_id.")
  else
    let? target := Page_from_id (py_str_int ancestor) in
    let? target_path := Page_export_path cfg target in
    let? own_path := Page_export_path cfg page in
    Ok ("[" +:+ page_title target +:+ "](" +:+
        replace_char " " "%20"
          (os_path_relpath (Path_str target_path) (Path_str (Path_parent own_path)))
        +:+ ")").

Definition assets_dir_of (cfg : ConverterSettings) : Path :=
  Path_div (Path_of (output_root_path cfg)) (Path_of "assets").

(** The file name: digest of the payload, extension of the mime type. *)
Definition data_uri_name (mime payload : string) : string :=
  md5_hexdigest payload +:+ str_or (guess_extension mime) ".bin".

Definition data_uri_file (cfg : ConverterSettings) (mime payload : string) : string :=
  Path_str (Path_div (assets_dir_of cfg) (Path_of (data_uri_name mime payload))).

(** The world after the conversion of a [data:] image. *)
Definition data_uri_world (w : World) (file payload : string) : World :=
  match files w !! file with
  | Some _ => w
  | None =>
      match b64decode payload with
      | Ok data => mkWorld (<[file := data]> (files w)) (converter_settings w)
                     (trace w ++ [EvSave file])
      | Raise _ => w
      end
  end.

(** A name that is one component of a path. *)
Definition is_file_name (n : string) : bool := negb (contains "/" n) && keep_part n.

(** A placeholder name: none of the characters that end a placeholder,
    start another one or separate path components. *)
Definition plain_name (name : string) : bool :=
  negb (contains "$" name) && negb (contains "{" name) &&
  negb (contains "}" name) && negb (contains "/" name).

Definition starts_as_identifier (id : string) : bool :=
  match id with
  | String i _ => is_idstart i
  | EmptyString => false
  end.

Definition document_variables : list string :=
  ["space_key"; "space_name"; "homepage_id"; "homepage_title";
   "ancestor_ids"; "ancestor_titles"].

Definition page_variables : list string :=
  document_variables ++ ["page_id"; "page_title"].

Definition attachment_variables : list string :=
  document_variables ++
  ["attachment_id"; "attachment_title"; "attachment_file_id"; "attachment_extension"].

(** [a] occurs in [s] and [b] occurs somewhere after that occurrence. *)
Fixpoint occurs_after (a b s : string) : bool :=
  (startswith a s && contains b (str_drop (String.length a) s))
  || match s with
     | String _ s' => occurs_after a b s'
     | EmptyString => false
     end.

End Vocabulary.

(** * More of the module *)

Section MoreModel.
Context `{Externals}.

(** ** [Space.pages] and [Space.export] *)

(** [int(v)] for an id that arrives as an [int] or a [str]. *)
Definition int_of (v : pyval) : result Z :=
  match v with
  | PInt z => Ok z
  | PStr s => py_int s
  end.

(** [Space.pages].  The generator of the remote client is given by the
    ids it yields and the exception that ends the iteration, if any. *)
Definition Space_pages
    (get_all_pages_from_space_as_generator : string → list pyval * option exn)
    (space : Space) : result (list Z) :=
  match space_homepage space with
  | None => Ok []
  | Some _ =>
      let page_generator := get_all_pages_from_space_as_generator (space_key space) in
      let? all_pages := mapR int_of page_generator.1 in
      match page_generator.2 with
      | Some e => Raise e
      | None => Ok all_pages
      end
  end.

Definition pages_cache_file (output_path : string) : string :=
  Path_str (Path_div (Path_div (Path_of output_path) (Path_of ".cache"))
              (Path_of "pages.txt")).

(** Opening the file for writing and writing [text]. *)
Definition write_file (p : string) (text : string) : M unit :=
  λ w, (Ok tt, mkWorld (<[p := text]> (files w)) (converter_settings w) (trace w)).

(** The lines [Space.export] writes for a list of ids. *)
Definition id_lines (ids : list pyval) : string :=
  String.concat "" ((λ id, py_str id +:+ nl) <$> ids).

(** The first part of [Space.export]: the ids, from the cache file when
    there is one, else from the remote (and then the cache is written). *)
Definition Space_load_pages
    (get_all_pages_from_space_as_generator : string → list pyval * option exn)
    (space : Space) (export_path : string) : M (list pyval) :=
  let cache_file := pages_cache_file export_path in
  let* cached := path_exists cache_file in
  if cached then
    λ w,
      let lines := filter (λ l, l ≠ "")
                     (py_strip <$> readlines (default "" (files w !! cache_file))) in
      (Ok (PStr <$> lines),
       mkWorld (files w) (converter_settings w)
         (trace w ++ [EvPrint ("Loaded " +:+ py_str_int (Z.of_nat (length lines))
                               +:+ " page IDs from cache file for space "
                               +:+ space_key space)]))
  else
    let* ids := lift (Space_pages get_all_pages_from_space_as_generator space) in
    let all_pages := PInt <$> ids in
    let* _ := write_file cache_file (id_lines all_pages) in
    let* _ := emit (EvPrint ("Saved " +:+ py_str_int (Z.of_nat (length all_pages))
                             +:+ " page IDs to cache file")) in
    ret all_pages.

(** [Space.export] *)
Definition Space_export
    (get_all_pages_from_space_as_generator : string → list pyval * option exn)
    (space : Space) (export_path : string) : M unit :=
  let* all_pages := Space_load_pages get_all_pages_from_space_as_generator space export_path in
  export_pages all_pages export_path.

(** ** [Converter.convert_li] *)

(** [s.replace(old, new, 1)] *)
Fixpoint replace_first (old new s : string) : string :=
  if startswith old s then new +:+ str_drop (String.length old) s
  else match s with
       | String c s' => String c (replace_first old new s')
       | EmptyString => EmptyString
       end.

(** ["checked" in el["class"]]: a token of the class list. *)
Definition class_checked (el : Tag) : bool :=
  match el_get el "class" with
  | Some (AttrList l) => bool_decide ("checked" ∈ l)
  | Some (AttrStr s) => contains "checked" s
  | None => false
  end.

(** [Converter.convert_li]; [md_convert_li] is the base converter's. *)
Definition convert_li (md_convert_li : Tag → string → list string → string)
    (el : Tag) (text : string) (parent_tags : list string) : string :=
  let md := md_convert_li el text parent_tags in
  let bullet := "-" in
  if has_attr el "data-inline-task-id" then
    let is_checked := has_attr el "class" && class_checked el in
    replace_first (bullet +:+ " ")
      (bullet +:+ " " +:+ (if is_checked then "[x]" else "[ ]") +:+ " ") md
  else md.

(** ** Vocabulary of the further properties *)

(** The title an ancestor contributes to [ancestor_titles]. *)
Definition ancestor_title_or_NA (ancestor : Z) : string :=
  match Page_from_id (py_str_int ancestor) with
  | Ok p => page_title p
  | Raise _ => "N/A"
  end.

(** The ancestor can be read, or reading it is forbidden. *)
Definition readable_or_forbidden (ancestor : Z) : Prop :=
  (∃ p, Page_from_id (py_str_int ancestor) = Ok p)
  ∨ Page_from_id (py_str_int ancestor) = Raise (HTTPError (Some 403)).

(** Every character of [s] is in the class [p]. *)
Fixpoint all_chars (p : ascii → bool) (s : string) : bool :=
  match s with
  | String c s' => p c && all_chars p s'
  | EmptyString => true
  end.

Definition not_space (c : ascii) : bool := negb (py_isspace c).

(** A path template cut into literal text and placeholders. *)
Inductive segment : Type :=
  | Text (s : string)
  | Placeholder (name : string).

Definition segment_text (seg : segment) : string :=
  match seg with
  | Text s => s
  | Placeholder name => "{" +:+ name +:+ "}"
  end.

Definition template_of (segs : list segment) : string :=
  String.concat "" (segment_text <$> segs).

(** What a segment becomes: a variable gives its value, a placeholder the
    variables lack stays, with the dollar sign of the rewriting. *)
Definition segment_value (vars : gmap string string) (seg : segment) : string :=
  match seg with
  | Text s => s
  | Placeholder name => default ("${" +:+ name +:+ "}") (vars !! name)
  end.

Definition expansion (vars : gmap string string) (segs : list segment) : string :=
  String.concat "" (segment_value vars <$> segs).

(** An identifier as [string.Template] reads it. *)
Definition is_identifier (name : string) : bool :=
  starts_as_identifier name && all_chars is_idchar name.

(** Literal text has no dollar sign and no opening brace; the name of a
    placeholder is an identifier. *)
Definition well_formed_segment (seg : segment) : bool :=
  match seg with
  | Text s => negb (contains "$" s) && negb (contains "{" s)
  | Placeholder name => is_identifier name
  end.

(** The text is empty or starts outside the identifier characters. *)
Definition ends_identifier (rest : string) : bool :=
  match rest with
  | String c _ => negb (is_idchar c)
  | EmptyString => true
  end.

(** The lines of the text are complete: it is empty or ends with a line
    feed, as a file does to which only whole lines were written. *)
Definition complete_lines (text : string) : bool :=
  bool_decide (text = "") || endswith nl text.

(** What [Space.export] reads from a cache file. *)
Definition cached_ids (text : string) : list string :=
  filter (λ l, l ≠ "") (py_strip <$> readlines text).

(** The log of processed pages, empty when there is none. *)
Definition processed_log (w : World) (output_path : string) : string :=
  default "" (files w !! processed_pages_file output_path).

(** An extension as [mimetypes.guess_extension] documents it: it starts
    with the dot and names no directory. *)
Definition is_extension (ext : string) : bool :=
  startswith "." ext && negb (contains "/" ext).

(** The files [convert_img] finds for an image given by URL. *)
Definition stored_images (w : World) (src : string) : list string :=
  match (glob_hash (Path_str (assets_dir_of (converter_settings w)))
           (md5_hexdigest src) w).1 with
  | Ok found => found
  | Raise _ => []
  end.

(** The check box [convert_li] writes for a task. *)
Definition task_box (el : Tag) : string :=
  if has_attr el "class" && class_checked el then "[x]" else "[ ]".

End MoreModel.

(** ** More of the concrete deployment *)

Module MoreDemo.
Import Demo.

(** A space with a homepage. *)
Definition wiki : Space := mkSpace "DOC" "Docs" "" (Some 1).

(** An attachment whose download the server answers with status 404. *)
Definition lost : Attachment :=
  mkAttachment "lost.png" space [] "att77" 512 "image/png" "PNG Image"
    "f-77" "contentId-1" "/missing/lost.png" "".

(** A page below a readable ancestor and one that is forbidden. *)
Definition deep : Page := mkPage "Deep" wiki [10; 7] 5 "<p>deep</p>" "" "" [] [].

(** The remote listing of a space: the ids as the REST client gives them. *)
Definition listing (key : string) : list pyval * option exn :=
  ([PStr "1"; PInt 2; PStr " 3 "], None).

(** A remote that answers nothing any more. *)
Definition offline (key : string) : list pyval * option exn :=
  ([], Some (HTTPError (Some 500))).

(** The base converter's list item. *)
Definition bullets (el : Tag) (text : string) (parent_tags : list string) : string :=
  "- " +:+ text +:+ nl.

Definition task (class : list string) : Tag :=
  mkTag "li" [("data-inline-task-id", AttrStr "12"); ("class", AttrList class)] [].

Definition link (href : string) : Tag := mkTag "a" [("href", AttrStr href)] [].

(** A page with a label. *)
Definition labelled : Page :=
  mkPage "Draft" space [] 6 "<p>draft</p>" "" "" [mkLabel "31" "draft" "global"] [].

End MoreDemo.

(** * Properties *)

(** ** Strings *)

Lemma app_cons (c : ascii) (s t : string) : String c s +:+ t = String c (s +:+ t).
Proof. reflexivity. Qed.

Lemma app_empty_l (s : string) : "" +:+ s = s.
Proof. reflexivity. Qed.

Lemma app_empty_r (s : string) : s +:+ "" = s.
Proof. induction s as [|c s IH]; [done|]. by rewrite app_cons, IH. Qed.

Lemma app_assoc_s (s t u : string) : (s +:+ t) +:+ u = s +:+ (t +:+ u).
Proof. induction s as [|c s IH]; [done|]. by rewrite !app_cons, IH. Qed.

Lemma length_app_s (s t : string) :
  String.length (s +:+ t) = (String.length s + String.length t)%nat.
Proof. induction s as [|c s IH]; [done|]. rewrite app_cons. simpl. by rewrite IH. Qed.

Lemma occurs_app_l (sub s t : string) : occurs sub s → occurs sub (t +:+ s).
Proof.
  intros (x & y & ->). exists (t +:+ x), y. by rewrite app_assoc_s.
Qed.

Lemma occurs_app_r (sub s t : string) : occurs sub s → occurs sub (s +:+ t).
Proof.
  intros (x & y & ->). exists x, (y +:+ t). by rewrite !app_assoc_s.
Qed.

Lemma occurs_trans (a b c : string) : occurs a b → occurs b c → occurs a c.
Proof.
  intros (x & y & ->) (x' & y' & ->). exists (x' +:+ x), (y +:+ y').
  by rewrite !app_assoc_s.
Qed.

Section Properties.
Context `{Externals}.

(** ** Ancestor titles *)

(** C3.  When the fetch of the ancestor page raises an HTTP error that
    carries a status code, the title lookup returns the literal [N/A] for
    status 403 and raises the very same error for every other status. *)
Theorem safe_ancestor_title_on_http_error (ancestor_id code : Z) :
  Page_from_id (py_str_int ancestor_id) = Raise (HTTPError (Some code)) →
  _get_safe_ancestor_title ancestor_id =
    if bool_decide (code = 403) then Ok "N/A" else Raise (HTTPError (Some code)).
Proof.
  intros Hfetch. unfold _get_safe_ancestor_title. by rewrite Hfetch.
Qed.

(** A fetched ancestor gives its title; errors of other classes pass. *)
Lemma safe_ancestor_title_ok (ancestor_id : Z) (p : Page) :
  Page_from_id (py_str_int ancestor_id) = Ok p →
  _get_safe_ancestor_title ancestor_id = Ok (page_title p).
Proof. intros Hfetch. unfold _get_safe_ancestor_title. by rewrite Hfetch. Qed.

Lemma safe_ancestor_title_other_error (ancestor_id : Z) (e : exn) :
  is_HTTPError e = false →
  Page_from_id (py_str_int ancestor_id) = Raise e →
  _get_safe_ancestor_title ancestor_id = Raise e.
Proof.
  intros He Hfetch. unfold _get_safe_ancestor_title. rewrite Hfetch.
  by destruct e.
Qed.

(** ** Alerts *)

(** C8.  An element whose macro name is [name] converts to the base
    converter's blockquote prefixed with the label the severity mapping
    fixes for [name]; [convert_div] hands the five alert macros to this
    handler; [warning] gives [CAUTION], and a name the mapping lacks gives
    [NOTE]. *)
Theorem alert_macro_label (page : Page) (el : Tag) (text : string)
    (parent_tags : list string) (name : string) (w : World) :
  el_get el "data-macro-name" = Some (AttrStr name) →
  let out := nl +:+ "> [!" +:+ alert_label name +:+ "]" +:+
             md_convert_blockquote el text parent_tags in
  convert_alert el text parent_tags = Ok out
  ∧ (name ∈ ["panel"; "info"; "note"; "tip"; "warning"] →
     convert_div page el text parent_tags w = (Ok out, w))
  ∧ (name = "warning" → alert_label name = "CAUTION")
  ∧ (name ∉ alert_type_map.*1 → alert_label name = "NOTE").
Proof.
  intros Hname out. repeat split.
  - unfold convert_alert. by rewrite Hname.
  - intros Hin. unfold convert_div, has_attr, attr_in, attr_is, convert_alert, lift.
    rewrite Hname. simpl.
    repeat (apply elem_of_cons in Hin as [-> | Hin]; [done|]).
    by apply elem_of_nil in Hin.
  - by intros ->.
  - intros Hnot. unfold alert_label.
    destruct (assoc name alert_type_map) as [l|] eqn:Hl; [|done].
    exfalso. apply Hnot. unfold alert_type_map in *. simpl in *.
    repeat (case_bool_decide; [subst; set_solver|]). done.
Qed.

(** ** Links by space and title *)

Lemma lookup_without_hit (space_key page_name : string) (r : result (list pyval)) :
  r = Ok [] ∨ (∃ e, is_Exception e = true ∧ r = Raise e) →
  (∀ q, confluence_cql q = r) →
  get_page_id_by_space_and_name space_key page_name = Ok None.
Proof.
  intros Hr Hq. unfold get_page_id_by_space_and_name. rewrite Hq.
  destruct Hr as [-> | (e & He & ->)]; simpl; [done|]. by rewrite He.
Qed.

(** C9.  A link that reaches the space-and-title branch of [convert_a]
    (no earlier branch applies, the href matches the [/display/] pattern)
    and whose reverse lookup returns nothing is emitted as a Markdown link
    with the original href; no exception is raised and the world is left
    as it was. *)
Theorem unresolved_display_link_keeps_href (page : Page) (el : Tag) (text : string)
    (parent_tags : list string) (space_key title : string) (w : World) :
  is_user_mention el = false →
  is_create_link el = false →
  contains "page" (str_attr (el_get el "data-linked-resource-type")) = false
    ∨ el_str el "data-linked-resource-id" ∈ [""; "null"] →
  contains "attachment" (str_attr (el_get el "data-linked-resource-type")) = false →
  re_search wiki_pages_re (el_str el "href") = None →
  re_search viewpage_re (el_str el "href") = None →
  re_search display_re (el_str el "href") = Some [space_key; title] →
  get_page_id_by_space_and_name space_key (replace_char "+" " " title) = Ok None →
  convert_a page el text parent_tags w =
    (Ok ("[" +:+ text +:+ "](" +:+ el_str el "href" +:+ ")"), w).
Proof.
  intros Huser Hcreate Hpage Hatt Hwiki Hview Hdisplay Hlookup.
  unfold convert_a. rewrite Huser, Hcreate. unfold convert_a_link.
  assert (Hrest :
    (if contains "page" (str_attr (el_get el "data-linked-resource-type")) then
       if negb (bool_decide (el_str el "data-linked-resource-id" = "")) &&
          negb (bool_decide (el_str el "data-linked-resource-id" = "null"))
       then true else false
     else false) = false).
  { destruct Hpage as [-> | Hid]; [done|].
    destruct (contains "page" _); [|done].
    apply elem_of_cons in Hid as [-> | Hid]; [done|].
    apply elem_of_cons in Hid as [-> | Hid]; [done|]. by apply elem_of_nil in Hid. }
  destruct (contains "page" _).
  - destruct (negb _ && negb _); [done|].
    rewrite Hatt, Hwiki, Hview, Hdisplay. unfold bindM, lift. by rewrite Hlookup.
  - rewrite Hatt, Hwiki, Hview, Hdisplay. unfold bindM, lift. by rewrite Hlookup.
Qed.

(** ** Attachments on disk *)

(** What [Attachment.export] does when the target is not there yet. *)
Lemma Attachment_export_absent (a : Attachment) (export_path : string) (w : World)
    (rel : Path) :
  Attachment_export_path (converter_settings w) a = Ok rel →
  let filepath := Path_str (Path_div (Path_of export_path) rel) in
  let url := confluence_url +:+ att_download_link a in
  let skipped := EvPrint ("There is no attachment with title '" +:+ att_title a
                          +:+ "'. Skipping export.") in
  files w !! filepath = None →
  Attachment_export a export_path w =
    match session_get url with
    | Ok r =>
        match raise_for_status r with
        | Ok _ => (Ok tt, mkWorld (<[filepath := content r]> (files w))
                            (converter_settings w) (trace w ++ [EvGet url; EvSave filepath]))
        | Raise e =>
            if is_HTTPError e then (Ok tt, with_trace w [EvGet url; skipped])
            else (Raise e, with_trace w [EvGet url])
        end
    | Raise e =>
        if is_HTTPError e then (Ok tt, with_trace w [EvGet url; skipped])
        else (Raise e, with_trace w [EvGet url])
    end.
Proof.
  intros Hrel filepath url skipped Habsent.
  unfold Attachment_export, bindM, get_settings, lift, path_exists. rewrite Hrel.
  fold filepath. rewrite Habsent. simpl.
  unfold try_except_HTTPError, bindM, emit, lift, ret, save_file, with_trace. simpl.
  fold url. destruct (session_get url) as [r|e]; simpl.
  - destruct (raise_for_status r) as [[]|e]; simpl.
    + by rewrite <- app_assoc.
    + destruct (is_HTTPError e); simpl; [by rewrite <- app_assoc | done].
  - destruct (is_HTTPError e); simpl; [by rewrite <- app_assoc | done].
Qed.

Lemma Attachment_export_present (a : Attachment) (export_path : string) (w : World)
    (rel : Path) :
  Attachment_export_path (converter_settings w) a = Ok rel →
  is_Some (files w !! Path_str (Path_div (Path_of export_path) rel)) →
  Attachment_export a export_path w = (Ok tt, w).
Proof.
  intros Hrel Hpresent.
  unfold Attachment_export, bindM, get_settings, lift, path_exists. rewrite Hrel.
  by rewrite bool_decide_eq_true_2.
Qed.

Local Ltac count_events :=
  split; [vm_compute; lia | vm_compute; intros; (congruence || lia)].

(** C10.  When the export path of an attachment is already on disk,
    [Attachment.export] returns at once: the world, and so the files and
    the trace of requests and writes, is unchanged.  Hence two exports in
    a row write the file at most once, and when they write it they issue a
    single GET; a second GET happens only after a first one that failed
    and wrote nothing. *)
Theorem attachment_export_at_most_once (a : Attachment) (export_path : string)
    (w : World) (rel : Path) :
  Attachment_export_path (converter_settings w) a = Ok rel →
  (is_Some (files w !! Path_str (Path_div (Path_of export_path) rel)) →
   Attachment_export a export_path w = (Ok tt, w))
  ∧ ∃ evs,
      trace (Attachment_export a export_path (Attachment_export a export_path w).2).2
        = trace w ++ evs
      ∧ (count_saves evs ≤ 1)%nat
      ∧ (count_saves evs = 1%nat → count_gets evs = 1%nat).
Proof.
  intros Hrel. split; [by apply Attachment_export_present|].
  set (filepath := Path_str (Path_div (Path_of export_path) rel)).
  destruct (files w !! filepath) as [old|] eqn:Hfile.
  - rewrite (Attachment_export_present a export_path w rel) by (by rewrite ?Hfile).
    simpl. rewrite (Attachment_export_present a export_path w rel) by (by rewrite ?Hfile).
    exists []. rewrite app_nil_r. split; [done|]. count_events.
  - rewrite (Attachment_export_absent a export_path w rel Hrel Hfile). fold filepath.
    set (url := confluence_url +:+ att_download_link a).
    destruct (session_get url) as [r|e] eqn:Hget.
    + destruct (raise_for_status r) as [[]|e] eqn:Hstatus.
      * simpl. rewrite (Attachment_export_present a export_path _ rel); simpl;
          [|done|by rewrite lookup_insert_eq].
        eexists. split; [done|]. count_events.
      * destruct (is_HTTPError e) eqn:He; simpl.
        -- rewrite (Attachment_export_absent a export_path _ rel); [|done..].
           fold url. rewrite Hget, Hstatus, He. simpl. rewrite <- app_assoc.
           eexists. split; [done|]. count_events.
        -- rewrite (Attachment_export_absent a export_path _ rel); [|done..].
           fold url. rewrite Hget, Hstatus, He. simpl. rewrite <- app_assoc.
           eexists. split; [done|]. count_events.
    + destruct (is_HTTPError e) eqn:He; simpl.
      * rewrite (Attachment_export_absent a export_path _ rel); [|done..].
        fold url. rewrite Hget, He. simpl. rewrite <- app_assoc.
        eexists. split; [done|]. count_events.
      * rewrite (Attachment_export_absent a export_path _ rel); [|done..].
        fold url. rewrite Hget, He. simpl. rewrite <- app_assoc.
        eexists. split; [done|]. count_events.
Qed.

(** ** The output style *)

Lemma Page_html_bad_style (cfg : ConverterSettings) (page : Page) :
  ¬ supported_style cfg → Page_html cfg page = Raise (style_error cfg).
Proof.
  intros Hbad. unfold Page_html.
  case_bool_decide; [by destruct Hbad; left|].
  case_bool_decide; [by destruct Hbad; right|]. done.
Qed.

Lemma Converter_markdown_bad_style (page : Page) (w : World) :
  ¬ supported_style (converter_settings w) →
  Converter_markdown page w = (Raise (style_error (converter_settings w)), w).
Proof.
  intros Hbad. unfold Converter_markdown, bindM, get_settings, lift.
  by rewrite Page_html_bad_style.
Qed.

Lemma export_page_bad_style (page_id : pyval) (output_path : string) (w : World)
    (page : Page) (vars : gmap string string) :
  ¬ supported_style (converter_settings w) →
  Page_from_id (py_str page_id) = Ok page →
  Page_template_vars page = Ok vars →
  export_page page_id output_path w =
    (Raise (style_error (converter_settings w)), rooted w output_path).
Proof.
  intros Hbad Hpage Hvars.
  assert (Hbad' : ¬ supported_style (converter_settings (rooted w output_path))) by done.
  unfold export_page, bindM at 1. simpl. fold (rooted w output_path).
  unfold bindM at 1, lift at 1. rewrite Hpage. unfold Page_export, bindM at 1.
  destruct DEBUG.
  - unfold Page_export_body, bindM, get_settings, lift.
    by rewrite Page_html_bad_style.
  - unfold ret at 1. unfold bindM at 1, Page_export_markdown.
    unfold bindM at 1, get_settings at 1. unfold bindM at 1, lift at 1.
    unfold Page_export_path. rewrite Hvars. simpl.
    unfold bindM at 1. by rewrite Converter_markdown_bad_style.
Qed.

Lemma errors_of_app (t1 t2 : list Event) : errors_of (t1 ++ t2) = errors_of t1 ++ errors_of t2.
Proof. unfold errors_of. by rewrite bind_app. Qed.

Lemma progress_of_app (t1 t2 : list Event) :
  progress_of (t1 ++ t2) = progress_of t1 ++ progress_of t2.
Proof. unfold progress_of. by rewrite bind_app. Qed.

Lemma export_pages_step_bad_style (page_id : pyval) (output_path : string) (w : World)
    (page : Page) (vars : gmap string string) :
  ¬ supported_style (converter_settings w) →
  Page_from_id (py_str page_id) = Ok page →
  Page_template_vars page = Ok vars →
  export_pages_step output_path page_id w =
    (Ok tt, with_trace (rooted w output_path)
              [EvProgress page_id; EvExportError page_id (style_error (converter_settings w))]).
Proof.
  intros Hbad Hpage Hvars.
  unfold export_pages_step, bindM at 1. simpl. unfold try_except, bindM at 1.
  rewrite (export_page_bad_style _ _ _ page vars); [|done..].
  simpl. unfold emit, with_trace, rooted. simpl. by rewrite <- app_assoc.
Qed.

Lemma export_loop_bad_style (todo : list pyval) (output_path : string) (w : World) :
  ¬ supported_style (converter_settings w) →
  (∀ id, id ∈ todo → ∃ page vars,
     Page_from_id (py_str id) = Ok page ∧ Page_template_vars page = Ok vars) →
  ∃ w', forM_ todo (export_pages_step output_path) w = (Ok tt, w')
        ∧ files w' = files w
        ∧ markdown_style (converter_settings w') = markdown_style (converter_settings w)
        ∧ errors_of (trace w') =
            errors_of (trace w) ++ ((λ id, (id, style_error (converter_settings w))) <$> todo).
Proof.
  revert w. induction todo as [|id todo IH]; intros w Hbad Hall.
  - exists w. simpl. by rewrite app_nil_r.
  - destruct (Hall id) as (page & vars & Hpage & Hvars); [by left|].
    simpl. unfold bindM at 1.
    rewrite (export_pages_step_bad_style _ _ _ page vars); [|done..].
    set (w1 := with_trace _ _).
    destruct (IH w1) as (w' & Hrun & Hfiles & Hstyle & Herr).
    { done. }
    { intros id' Hin. apply Hall. by right. }
    exists w'. split_and!; [done|by rewrite Hfiles|by rewrite Hstyle|].
    rewrite Herr. unfold w1, with_trace. simpl.
    rewrite errors_of_app. simpl. by rewrite <- app_assoc.
Qed.

Lemma export_pages_loop (page_ids : list pyval) (output_path : string) (w : World) :
  export_pages page_ids output_path w =
    forM_ (todo_of page_ids w output_path) (export_pages_step output_path)
      (with_trace (rooted w output_path) (prelude page_ids w output_path)).
Proof.
  assert (Hread : ∃ evs,
    read_processed_pages (processed_pages_file output_path) (rooted w output_path) =
      (Ok (processed_set w output_path), with_trace (rooted w output_path) evs)
    ∧ prelude page_ids w output_path = evs ++
        if (length (todo_of page_ids w output_path) <? length page_ids)%nat
        then [EvPrint ("Skipping " +:+
                 py_str_int (Z.of_nat (length page_ids
                                       - length (todo_of page_ids w output_path)))
                 +:+ " already processed pages")]
        else []).
  { unfold read_processed_pages, prelude, rooted. simpl.
    destruct (files w !! processed_pages_file output_path) as [text|] eqn:Hlog.
    - eexists. split; [|reflexivity]. unfold processed_set. by rewrite Hlog.
    - exists []. split; [|done]. unfold with_trace, processed_set. simpl.
      by rewrite Hlog, app_nil_r. }
  destruct Hread as (evs & Hread & ->).
  unfold export_pages, bindM at 1.
  change (set_output_root_path output_path w) with (Ok tt, rooted w output_path).
  cbv beta iota. unfold bindM at 1. rewrite Hread. cbv beta iota.
  fold (todo_of page_ids w output_path). unfold bindM at 1.
  destruct (_ <? _)%nat.
  - unfold emit, with_trace. simpl. by rewrite <- app_assoc.
  - unfold ret. by rewrite app_nil_r.
Qed.

Lemma errors_of_prelude (page_ids : list pyval) (w : World) (output_path : string) :
  errors_of (prelude page_ids w output_path) = [].
Proof.
  unfold prelude. rewrite errors_of_app.
  destruct (files w !! _); destruct (_ <? _)%nat; done.
Qed.

Lemma progress_of_prelude (page_ids : list pyval) (w : World) (output_path : string) :
  progress_of (prelude page_ids w output_path) = [].
Proof.
  unfold prelude. rewrite progress_of_app.
  destruct (files w !! _); destruct (_ <? _)%nat; done.
Qed.

(** C2, as the code has it.  Under a style other than the two supported
    ones [Page.html] and [Converter.markdown] raise the [ValueError], and
    [export_page] hands it to its caller.  [export_pages] catches it like
    any failure of a page: the batch returns normally, writes no file,
    leaves the log of completed pages as it was, and has printed the error
    once for every page it had to process. *)
Theorem invalid_style_is_caught_per_page (page_ids : list pyval) (output_path : string)
    (w : World) :
  ¬ supported_style (converter_settings w) →
  let err := style_error (converter_settings w) in
  (∀ page, Page_html (converter_settings w) page = Raise err)
  ∧ (∀ page, Converter_markdown page w = (Raise err, w))
  ∧ (∀ id page vars,
       Page_from_id (py_str id) = Ok page → Page_template_vars page = Ok vars →
       (export_page id output_path w).1 = Raise err)
  ∧ ((∀ id, id ∈ page_ids → ∃ page vars,
        Page_from_id (py_str id) = Ok page ∧ Page_template_vars page = Ok vars) →
     ∃ w', export_pages page_ids output_path w = (Ok tt, w')
           ∧ files w' = files w
           ∧ errors_of (trace w') =
               errors_of (trace w) ++ ((λ id, (id, err)) <$> todo_of page_ids w output_path)).
Proof.
  intros Hbad err. split_and!.
  - intros page. by apply Page_html_bad_style.
  - intros page. by apply Converter_markdown_bad_style.
  - intros id page vars Hpage Hvars.
    by rewrite (export_page_bad_style _ _ _ page vars).
  - intros Hall. rewrite export_pages_loop.
    set (w0 := with_trace _ _).
    destruct (export_loop_bad_style (todo_of page_ids w output_path) output_path w0)
      as (w' & Hrun & Hfiles & _ & Herr).
    { done. }
    { intros id Hin. apply Hall. unfold todo_of, pages_to_process in Hin.
      by apply list_elem_of_filter in Hin as [_ ?]. }
    exists w'. split_and!; [done|by rewrite Hfiles|].
    rewrite Herr. unfold w0, with_trace. simpl.
    by rewrite errors_of_app, errors_of_prelude, app_nil_r.
Qed.

(** ** Resuming a batch *)

Lemma forM__app {A} (xs ys : list A) (f : A → M unit) (w : World) :
  forM_ (xs ++ ys) f w =
    match forM_ xs f w with
    | (Ok _, w1) => forM_ ys f w1
    | (Raise e, w1) => (Raise e, w1)
    end.
Proof.
  revert w. induction xs as [|x xs IH]; intros w; [done|].
  simpl. unfold bindM. destruct (f x w) as [[[]|e] w1]; [apply IH|done].
Qed.

(** A killed run is a prefix of the full run. *)
Lemma export_pages_through_killed (n : nat) (page_ids : list pyval) (output_path : string)
    (w : World) :
  export_pages page_ids output_path w =
    match killed_after n page_ids output_path w with
    | (Ok _, w1) =>
        forM_ (drop n (todo_of page_ids w output_path)) (export_pages_step output_path) w1
    | (Raise e, w1) => (Raise e, w1)
    end.
Proof.
  rewrite export_pages_loop. unfold killed_after.
  rewrite <- (take_drop n (todo_of page_ids w output_path)) at 1.
  apply forM__app.
Qed.

(** An [int] is filtered by no log; a [str] is filtered by its line. *)
Lemma pages_to_process_ints (page_ids : list pyval) (processed_pages : gset string) :
  Forall (λ id, ∃ z, id = PInt z) page_ids →
  pages_to_process page_ids processed_pages = page_ids.
Proof.
  intros Hints. unfold pages_to_process.
  induction Hints as [|id ids (z & ->) _ IH]; [done|].
  rewrite filter_cons_True by done. by rewrite IH.
Qed.

Lemma pages_to_process_strs (names : list string) (processed_pages : gset string) :
  pages_to_process (PStr <$> names) processed_pages =
    PStr <$> filter (λ s, s ∉ processed_pages) names.
Proof.
  unfold pages_to_process. induction names as [|s names IH]; [done|].
  rewrite fmap_cons. destruct (decide (s ∈ processed_pages)) as [Hin|Hin].
  - rewrite filter_cons_False, (filter_cons_False _ s); [done|by intros []|].
    simpl. by rewrite bool_decide_eq_true_2.
  - rewrite filter_cons_True, (filter_cons_True _ s); [by rewrite fmap_cons, IH|done|].
    simpl. by rewrite bool_decide_eq_false_2.
Qed.

(** The id is appended exactly when its export succeeded. *)
Lemma export_pages_step_appends (output_path : string) (page_id : pyval) (w w1 : World) :
  export_page page_id output_path (with_trace w [EvProgress page_id]) = (Ok tt, w1) →
  export_pages_step output_path page_id w =
    append_file (processed_pages_file output_path) (py_str page_id +:+ nl) w1.
Proof.
  intros Hok. unfold export_pages_step, bindM at 1, emit. fold (with_trace w [EvProgress page_id]).
  unfold try_except, bindM. by rewrite Hok.
Qed.

Lemma export_pages_step_failure (output_path : string) (page_id : pyval) (w w1 : World)
    (e : exn) :
  is_Exception e = true →
  export_page page_id output_path (with_trace w [EvProgress page_id]) = (Raise e, w1) →
  export_pages_step output_path page_id w = (Ok tt, with_trace w1 [EvExportError page_id e]).
Proof.
  intros He Hfail. unfold export_pages_step, bindM at 1, emit.
  fold (with_trace w [EvProgress page_id]).
  unfold try_except, bindM. by rewrite Hfail, He.
Qed.

(** ** Composition of the Markdown document *)

Lemma convert_page_link_ancestor (page : Page) (ancestor : Z) (w : World) :
  convert_page_link page ancestor None w =
    (ancestor_link (converter_settings w) page ancestor, w).
Proof.
  unfold convert_page_link, ancestor_link. case_bool_decide; [done|].
  unfold bindM, lift, get_settings, ret.
  destruct (Page_from_id _) as [target|e]; [|done]. simpl.
  destruct (Page_export_path _ target) as [tp|e]; [|done]. simpl.
  by destruct (Page_export_path _ page) as [own|e].
Qed.

Lemma breadcrumbs_links (page : Page) (w : World) (links : list string) :
  mapR (ancestor_link (converter_settings w) page) (page_ancestors page) = Ok links →
  breadcrumbs page w = (Ok (join " > " links +:+ nl), w).
Proof.
  unfold breadcrumbs. generalize (page_ancestors page). intros ancestors Hlinks.
  assert (Hmap : mapM (λ a, convert_page_link page a None) ancestors w = (Ok links, w)).
  { revert links Hlinks. induction ancestors as [|a ancestors IH]; intros links Hlinks.
    - by injection Hlinks as <-.
    - simpl in *. unfold bindM at 1. rewrite convert_page_link_ancestor.
      destruct (ancestor_link _ page a) as [l|e]; [|done]. simpl in *.
      destruct (mapR _ ancestors) as [ls|e]; [|done]. simpl in *.
      injection Hlinks as <-. unfold bindM. by rewrite (IH ls). }
  unfold bindM. by rewrite Hmap.
Qed.

(** C7, as the code has it.  Under the GFM style the document is the front
    matter, a line of links to the ancestors (each labelled with the
    ancestor's title) joined by [" > "], and then the conversion of the
    body prefixed with an [h1] heading of the page title: the breadcrumb
    line comes before the body.  Under the Obsidian style it is the front
    matter and the conversion of the body alone. *)
Theorem markdown_composition (page : Page) (w w1 : World) (md_body : string)
    (props : gmap string prop_value) :
  converter_settings w1 = converter_settings w →
  (markdown_style (converter_settings w) = "GFM" →
   convert page ("<h1>" +:+ page_title page +:+ "</h1>" +:+ page_body page) w
     = (Ok (md_body, props), w1) →
   ∀ links,
     mapR (ancestor_link (converter_settings w) page) (page_ancestors page) = Ok links →
     Converter_markdown page w =
       (Ok (front_matter page props +:+ nl +:+ (join " > " links +:+ nl) +:+ nl
            +:+ md_body +:+ nl), w1))
  ∧ (markdown_style (converter_settings w) = "Obsidian" →
     convert page (page_body page) w = (Ok (md_body, props), w1) →
     Converter_markdown page w =
       (Ok (front_matter page props +:+ nl +:+ md_body +:+ nl), w1)).
Proof.
  intros Hcfg. split.
  - intros Hstyle Hconv links Hlinks.
    unfold Converter_markdown, bindM at 1, get_settings at 1.
    unfold bindM at 1, lift, Page_html. rewrite Hstyle. simpl.
    unfold bindM at 1. rewrite Hconv. simpl.
    unfold bindM at 1, get_settings. rewrite Hcfg, Hstyle. simpl.
    unfold bindM. rewrite (breadcrumbs_links page w1 links) by (by rewrite Hcfg).
    done.
  - intros Hstyle Hconv.
    unfold Converter_markdown, bindM at 1, get_settings at 1.
    unfold bindM at 1, lift, Page_html. rewrite Hstyle. simpl.
    unfold bindM at 1. rewrite Hconv. simpl.
    unfold bindM at 1, get_settings. rewrite Hcfg, Hstyle. done.
Qed.

(** ** Embedded assets *)

(** A reference to an attachment the container page does not list. *)
Lemma convert_img_missing_attachment (page container : Page) (el : Tag) (text : string)
    (parent_tags : list string) (w : World) :
  attr_truthy (el_get el "data-media-id") = false →
  attr_truthy (el_get el "data-linked-resource-id") = true →
  attr_truthy (el_get el "data-linked-resource-container-id") = true →
  Page_from_id (str_attr (el_get el "data-linked-resource-container-id")) = Ok container →
  (∀ a, a ∈ page_attachments container →
        att_id a ≠ str_attr (el_get el "data-linked-resource-id")) →
  convert_img page el text parent_tags w = (Raise StopIteration, w).
Proof.
  intros Hmedia Hid Hcontainer Hfetch Hnone.
  unfold convert_img, bindM, lift, get_attachment_from_element.
  rewrite Hmedia, Hid, Hcontainer, Hfetch. simpl. unfold get_attachment_by_id.
  destruct (filter _ _) as [|a l] eqn:Hfilter; [done|].
  assert (Hin : a ∈ filter (λ a, att_id a = str_attr (el_get el "data-linked-resource-id"))
                      (page_attachments container)) by (rewrite Hfilter; by left).
  apply list_elem_of_filter in Hin as [Heq Hin]. by destruct (Hnone a Hin).
Qed.

(** A reference by file id. *)
Lemma convert_img_media_id (page : Page) (el : Tag) (text : string)
    (parent_tags : list string) (w : World) :
  attr_truthy (el_get el "data-media-id") = true →
  convert_img page el text parent_tags w =
    (Raise (AttributeError "'Page' object has no attribute 'page'"), w).
Proof.
  intros Hmedia. unfold convert_img, bindM, lift, get_attachment_from_element.
  by rewrite Hmedia.
Qed.

(** A fetch that fails with an [Exception] does yield the empty string. *)
Lemma convert_img_failed_fetch (page : Page) (el : Tag) (text : string)
    (parent_tags : list string) (w : World) (e : exn) :
  let src := el_str el "src" in
  let url := if startswith "/" src then confluence_url +:+ src else src in
  get_attachment_from_element page el = Ok None →
  src ≠ "" →
  startswith "data:" src = false →
  (glob_hash (Path_str (Path_div (Path_of (output_root_path (converter_settings w)))
                          (Path_of "assets"))) (md5_hexdigest src) w).1 = Ok [] →
  startswith "jira" (urlparse_netloc url) = false →
  session_get url = Raise e →
  is_Exception e = true →
  convert_img page el text parent_tags w = (Ok "", with_trace w [EvGet url]).
Proof.
  intros src url Hatt Hsrc Hdata Hglob Hjira Hget He.
  unfold convert_img, bindM at 1, lift at 1. rewrite Hatt. fold src.
  rewrite bool_decide_eq_false_2 by done.
  unfold bindM at 1, get_settings at 1. rewrite Hdata.
  unfold bindM at 1. unfold glob_hash in *. simpl in Hglob. injection Hglob as Hglob.
  rewrite Hglob. unfold bindM at 1, download_img. fold url. unfold try_except.
  unfold bindM at 1. rewrite Hjira. unfold bindM at 1, emit at 1.
  unfold bindM at 1, lift at 1. rewrite Hget. by rewrite He.
Qed.

(** *** Images given as [data:] URIs *)

Lemma render_local_img_world (page : Page) (output_path : Path) (file_path : string)
    (el : Tag) (text : string) (parent_tags : list string) (w : World) :
  (render_local_img page output_path file_path el text parent_tags w).2 = w.
Proof.
  unfold render_local_img, bindM, get_settings, lift, ret.
  by destruct (Page_export_path _ page).
Qed.

Lemma rmatch_literal_prefix (l : string) (r : regex) (s : string) (caps c : list string)
    (k : string → list string → option (list string)) :
  rmatch (RCat (RLit l) r) s caps k = Some c → startswith l s = true.
Proof. cbn [rmatch]. by destruct (startswith l s). Qed.

Lemma data_uri_match_prefix (src : string) (caps : list string) :
  re_match data_uri_re src = Some caps → startswith "data:" src = true.
Proof. apply rmatch_literal_prefix. Qed.

Lemma convert_img_data_uri_world (page : Page) (el : Tag) (text : string)
    (parent_tags : list string) (w : World) (mime payload : string) :
  get_attachment_from_element page el = Ok None →
  re_match data_uri_re (el_str el "src") = Some [mime; payload] →
  (convert_img page el text parent_tags w).2 =
    data_uri_world w (data_uri_file (converter_settings w) mime payload) payload.
Proof.
  intros Hatt Hmatch.
  pose proof (data_uri_match_prefix _ _ Hmatch) as Hdata.
  assert (Hsrc : el_str el "src" ≠ "") by (intros Heq; by rewrite Heq in Hdata).
  unfold convert_img, bindM at 1, lift at 1. rewrite Hatt.
  rewrite bool_decide_eq_false_2 by done.
  unfold bindM at 1, get_settings at 1. rewrite Hdata.
  unfold bindM at 1, convert_img_base64. rewrite Hmatch.
  fold (assets_dir_of (converter_settings w)).
  fold (data_uri_name mime payload).
  fold (data_uri_file (converter_settings w) mime payload).
  set (file := data_uri_file (converter_settings w) mime payload).
  unfold data_uri_world, try_except at 1, bindM at 1, path_exists.
  destruct (files w !! file) as [old|] eqn:Hfile.
  - rewrite bool_decide_eq_true_2 by done. unfold bindM at 1, ret at 1.
    unfold bindM at 1.
    pose proof (render_local_img_world page (Path_of (output_root_path (converter_settings w)))
                  file el text parent_tags w) as Hrender.
    destruct (render_local_img _ _ _ _ _ _ w) as [[md|e] w']; simpl in Hrender; subst w'.
    + done.
    + by destruct (is_Exception e).
  - rewrite bool_decide_eq_false_2 by (by intros [? ?]).
    unfold bindM at 1, try_except at 1, bindM at 1, lift at 1.
    destruct (b64decode payload) as [data|e].
    + unfold bindM at 1, save_file at 1. unfold ret at 1. unfold bindM at 1.
      set (w1 := mkWorld _ _ _).
      pose proof (render_local_img_world page (Path_of (output_root_path (converter_settings w)))
                    file el text parent_tags w1) as Hrender.
      destruct (render_local_img _ _ _ _ _ _ w1) as [[md|e] w']; simpl in Hrender; subst w'.
      * done.
      * by destruct (is_Exception e).
    + destruct (is_Exception e) eqn:He; [done|]. by rewrite He.
Qed.

Lemma contains_char_cons (c a : ascii) (s : string) :
  contains (String c "") (String a s) = bool_decide (c = a) || contains (String c "") s.
Proof. simpl. by rewrite andb_true_r. Qed.

Lemma split_on_absent (c : ascii) (s : string) :
  contains (String c "") s = false → split_on c s = [s].
Proof.
  induction s as [|a s IH]; [done|]. rewrite contains_char_cons.
  intros [Hne Hs]%orb_false_elim. simpl.
  rewrite bool_decide_eq_false_2 by (intros ->; by rewrite bool_decide_eq_true_2 in Hne).
  by rewrite IH.
Qed.

Lemma Path_of_file_name (n : string) : is_file_name n = true → Path_of n = mkPath "" [n].
Proof.
  unfold is_file_name. intros [Hslash Hkeep]%andb_prop.
  apply negb_true_iff in Hslash. unfold Path_of.
  rewrite (split_on_absent _ _ Hslash). rewrite filter_cons_True by done.
  f_equal. destruct n as [|a n]; [done|].
  rewrite contains_char_cons in Hslash. apply orb_false_elim in Hslash as [Hne _].
  unfold path_root. simpl. by rewrite Hne.
Qed.

Lemma join_cons_snoc (sep p : string) (ps : list string) (n : string) :
  join sep (p :: ps ++ [n]) = p +:+ sep +:+ join sep (ps ++ [n]).
Proof. by destruct ps. Qed.

Lemma join_snoc_inj (sep : string) (ps : list string) (n n' : string) :
  join sep (ps ++ [n]) = join sep (ps ++ [n']) → n = n'.
Proof.
  induction ps as [|p ps IH]; [done|].
  rewrite <- !app_comm_cons, !join_cons_snoc. intros Heq.
  apply IH. by do 2 apply (inj (String.app _)) in Heq.
Qed.

Lemma Path_str_in_dir (d : Path) (n : string) :
  is_file_name n = true →
  Path_str (Path_div d (Path_of n)) = root d +:+ join "/" (parts d ++ [n]).
Proof.
  intros Hn. rewrite (Path_of_file_name n Hn). unfold Path_div, Path_str. simpl.
  destruct (root d); [|done]. by destruct (parts d).
Qed.

Lemma Path_str_in_dir_inj (d : Path) (n n' : string) :
  is_file_name n = true → is_file_name n' = true →
  Path_str (Path_div d (Path_of n)) = Path_str (Path_div d (Path_of n')) → n = n'.
Proof.
  intros Hn Hn'. rewrite !Path_str_in_dir by done. intros Heq.
  apply (inj (String.app _)) in Heq. by apply join_snoc_inj in Heq.
Qed.

Lemma app_inj_length (h h' e e' : string) :
  String.length h = String.length h' → h +:+ e = h' +:+ e' → h = h'.
Proof.
  revert h'. induction h as [|c h IH]; intros [|c' h'] Hlen Heq; try done.
  rewrite !app_cons in Heq. injection Heq as -> Heq. f_equal. apply IH; [|done].
  simpl in Hlen. lia.
Qed.

Lemma data_uri_world_settings (w : World) (file payload : string) :
  converter_settings (data_uri_world w file payload) = converter_settings w.
Proof.
  unfold data_uri_world. destruct (files w !! file); [done|].
  by destruct (b64decode payload).
Qed.

Lemma data_uri_world_keeps (w : World) (file payload other : string) :
  is_Some (files w !! other) → is_Some (files (data_uri_world w file payload) !! other).
Proof.
  intros Hother. unfold data_uri_world. destruct (files w !! file) eqn:Hfile; [done|].
  destruct (b64decode payload); [|done]. simpl.
  destruct (decide (file = other)) as [->|Hne].
  - by rewrite lookup_insert_eq.
  - by rewrite lookup_insert_ne.
Qed.

Lemma data_uri_world_has (w : World) (file payload data : string) :
  b64decode payload = Ok data → is_Some (files (data_uri_world w file payload) !! file).
Proof.
  intros Hdata. unfold data_uri_world. destruct (files w !! file) eqn:Hfile.
  - by rewrite Hfile.
  - rewrite Hdata. simpl. by rewrite lookup_insert_eq.
Qed.

(** C6.  For an image whose [src] is a base64 [data:] URI with mime type
    [mime] and payload [payload] (and which names no attachment), the
    local file is [md5(payload)] plus the extension of [mime], [.bin] when
    there is none, in the assets directory.  (1) If that file is absent
    and the payload decodes, the conversion writes the decoded payload
    there and nothing else; (2) if it is present, the conversion leaves
    the world as it is; (3) two conversions of the same element in a row
    write at most one file; (4) a second image whose payload has another
    digest ends up in another file, and after both conversions both files
    exist. *)
Theorem data_uri_image_file (page : Page) (el : Tag) (text : string)
    (parent_tags : list string) (w : World) (mime payload : string) :
  get_attachment_from_element page el = Ok None →
  re_match data_uri_re (el_str el "src") = Some [mime; payload] →
  let file := data_uri_file (converter_settings w) mime payload in
  let w1 := (convert_img page el text parent_tags w).2 in
  let w2 := (convert_img page el text parent_tags w1).2 in
  (∀ data, files w !! file = None → b64decode payload = Ok data →
     files w1 = <[file := data]> (files w) ∧ trace w1 = trace w ++ [EvSave file])
  ∧ (is_Some (files w !! file) → w1 = w)
  ∧ (∃ evs, trace w2 = trace w ++ evs ∧ (count_saves evs ≤ 1)%nat)
  ∧ (∀ el' mime' payload' data data',
       get_attachment_from_element page el' = Ok None →
       re_match data_uri_re (el_str el' "src") = Some [mime'; payload'] →
       md5_hexdigest payload ≠ md5_hexdigest payload' →
       String.length (md5_hexdigest payload) = String.length (md5_hexdigest payload') →
       is_file_name (data_uri_name mime payload) = true →
       is_file_name (data_uri_name mime' payload') = true →
       b64decode payload = Ok data → b64decode payload' = Ok data' →
       let file' := data_uri_file (converter_settings w) mime' payload' in
       let w' := (convert_img page el' text parent_tags w1).2 in
       file ≠ file' ∧ is_Some (files w' !! file) ∧ is_Some (files w' !! file')).
Proof.
  intros Hatt Hmatch file w1 w2.
  assert (Hw1 : w1 = data_uri_world w file payload)
    by (by apply convert_img_data_uri_world).
  assert (Hw2 : w2 = data_uri_world w1 file payload).
  { unfold w2. rewrite (convert_img_data_uri_world _ _ _ _ _ mime payload) by done.
    by rewrite Hw1, data_uri_world_settings. }
  split_and!.
  - intros data Hfile Hdata. rewrite Hw1. unfold data_uri_world. by rewrite Hfile, Hdata.
  - intros [old Hold]. rewrite Hw1. unfold data_uri_world. by rewrite Hold.
  - rewrite Hw2, Hw1. unfold data_uri_world at 2.
    destruct (files w !! file) as [old|] eqn:Hfile.
    + unfold data_uri_world. rewrite Hfile. exists [].
      split; [by rewrite app_nil_r | vm_compute; lia].
    + destruct (b64decode payload) as [data|e] eqn:Hdata.
      * unfold data_uri_world. simpl. rewrite lookup_insert_eq. simpl.
        exists [EvSave file]. split; [done|]. vm_compute. lia.
      * unfold data_uri_world. rewrite Hfile, Hdata. exists [].
        split; [by rewrite app_nil_r | vm_compute; lia].
  - intros el' mime' payload' data data' Hatt' Hmatch' Hdigest Hlen Hname Hname'
      Hdata Hdata' file' w'.
    assert (Hw' : w' = data_uri_world w1 file' payload').
    { unfold w'. rewrite (convert_img_data_uri_world _ _ _ _ _ mime' payload') by done.
      by rewrite Hw1, data_uri_world_settings. }
    split_and!.
    + intros Heq. apply Hdigest. unfold file, file', data_uri_file in Heq.
      apply Path_str_in_dir_inj in Heq; [|done..].
      by apply app_inj_length in Heq.
    + rewrite Hw'. apply data_uri_world_keeps. rewrite Hw1.
      by apply (data_uri_world_has _ _ _ data).
    + rewrite Hw'. by apply (data_uri_world_has _ _ _ data').
Qed.

(** ** Path templates *)

Lemma replace_char_app (c : ascii) (b s t : string) :
  replace_char c b (s +:+ t) = replace_char c b s +:+ replace_char c b t.
Proof.
  induction s as [|a s IH]; [done|]. rewrite app_cons. simpl.
  case_bool_decide; by rewrite IH, ?app_assoc_s.
Qed.

Lemma replace_char_absent (c : ascii) (b s : string) :
  contains (String c "") s = false → replace_char c b s = s.
Proof.
  induction s as [|a s IH]; [done|]. rewrite contains_char_cons.
  intros [Hne Hs]%orb_false_elim. simpl.
  rewrite bool_decide_eq_false_2 by (intros ->; by rewrite bool_decide_eq_true_2 in Hne).
  by rewrite IH.
Qed.

Lemma contains_char_app (c : ascii) (s t : string) :
  contains (String c "") (s +:+ t) = contains (String c "") s || contains (String c "") t.
Proof.
  induction s as [|a s IH]; [done|].
  by rewrite app_cons, !contains_char_cons, IH, orb_assoc.
Qed.

(** Text without a delimiter is copied. *)
Lemma substitute_literal (m : gmap string string) (x y : string) :
  contains "$" x = false →
  substitute_go m 0 (x +:+ y) = x +:+ substitute_go m 0 y.
Proof.
  induction x as [|a x IH]; [done|]. rewrite contains_char_cons.
  intros [Hne Hx]%orb_false_elim. rewrite !app_cons. simpl.
  rewrite bool_decide_eq_false_2
    by (intros ->; by rewrite bool_decide_eq_true_2 in Hne).
  by rewrite IH.
Qed.

(** Skipped text leaves no output. *)
Lemma substitute_skip (m : gmap string string) (k : nat) (x y : string) :
  (k ≤ String.length x)%nat →
  substitute_go m k (x +:+ y) = substitute_go m 0 (str_drop k x +:+ y).
Proof.
  revert x. induction k as [|k IH]; intros x Hk.
  - by destruct x.
  - destruct x as [|a x]; [simpl in Hk; lia|].
    rewrite app_cons. simpl. apply IH. simpl in Hk. lia.
Qed.

Lemma str_drop_all (x : string) : str_drop (String.length x) x = "".
Proof. induction x as [|a x IH]; [done|]. simpl. apply IH. Qed.

Lemma str_drop_length (k : nat) (x : string) :
  (String.length (str_drop k x) ≤ String.length x)%nat.
Proof.
  revert x. induction k as [|k IH]; intros [|a x]; simpl; try lia.
  specialize (IH x). lia.
Qed.

Lemma span_app (p : ascii → bool) (s : string) : (span p s).1 +:+ (span p s).2 = s.
Proof.
  induction s as [|a s IH]; [done|]. simpl. destruct (p a); [|done].
  simpl. by rewrite app_cons, IH.
Qed.

Lemma span_in_class (p : ascii → bool) (c : ascii) (s : string) :
  p c = false → contains (String c "") (span p s).1 = false.
Proof.
  intros Hc. induction s as [|a s IH]; [done|]. simpl. destruct (p a) eqn:Ha; [|done].
  cbn [fst]. rewrite contains_char_cons, IH, orb_false_r.
  apply bool_decide_eq_false_2. intros ->. congruence.
Qed.

(** A span stops at the latest before a character outside the class. *)
Lemma span_before (p : ascii → bool) (x : string) (c : ascii) (y : string) :
  p c = false →
  ∃ x2, x = (span p (x +:+ String c y)).1 +:+ x2
        ∧ (span p (x +:+ String c y)).2 = x2 +:+ String c y.
Proof.
  intros Hc. induction x as [|a x (x2 & Hx & Hrest)].
  - exists "". simpl. by rewrite Hc.
  - rewrite app_cons. simpl. destruct (p a).
    + exists x2. simpl. by rewrite app_cons, <- Hx.
    + by exists (String a x).
Qed.

Lemma first_occurrence_unique (c : ascii) (a a' b b' : string) :
  contains (String c "") a = false → contains (String c "") a' = false →
  a +:+ String c b = a' +:+ String c b' → a = a'.
Proof.
  revert a'. induction a as [|x a IH]; intros [|x' a'] Ha Ha' Heq; try done.
  - rewrite app_cons in Heq. simpl in Heq. injection Heq as <- _.
    rewrite contains_char_cons in Ha'. by rewrite bool_decide_eq_true_2 in Ha'.
  - rewrite app_cons in Heq. simpl in Heq. injection Heq as -> _.
    rewrite contains_char_cons in Ha. by rewrite bool_decide_eq_true_2 in Ha.
  - rewrite !app_cons in Heq. injection Heq as -> Heq.
    rewrite contains_char_cons in Ha, Ha'.
    apply orb_false_elim in Ha as [_ Ha]. apply orb_false_elim in Ha' as [_ Ha'].
    f_equal. by apply IH.
Qed.

Lemma at_dollar_brace (m : gmap string string) (s : string) :
  at_dollar m (String "{" s) =
    if startswith "}" (span is_idchar s).2 && starts_as_identifier (span is_idchar s).1
    then (default ("${" +:+ (span is_idchar s).1 +:+ "}") (m !! (span is_idchar s).1),
          (2 + String.length (span is_idchar s).1)%nat)
    else ("$", 0%nat).
Proof. reflexivity. Qed.

(** The substitution at a placeholder the mapping does not know. *)
Lemma substitute_at_unknown (m : gmap string string) (name post : string) :
  plain_name name = true → m !! name = None →
  substitute_go m 0 ("${" +:+ name +:+ "}" +:+ post) =
    "${" +:+ name +:+ "}" +:+ substitute_go m 0 post.
Proof.
  unfold plain_name.
  intros [[[Hd Ho]%andb_prop Hc]%andb_prop Hs]%andb_prop Hm.
  apply negb_true_iff in Hd, Ho, Hc.
  assert (Hlit : substitute_go m 0 ("{" +:+ name +:+ "}" +:+ post) =
                 "{" +:+ name +:+ "}" +:+ substitute_go m 0 post).
  { rewrite <- (app_assoc_s name), <- (app_assoc_s "{"), substitute_literal.
    - by rewrite !app_assoc_s.
    - by rewrite !contains_char_app, Hd. }
  change ("${" +:+ name +:+ "}" +:+ post)
    with (String "$" (String "{" (name +:+ "}" +:+ post))).
  cbn [substitute_go]. rewrite bool_decide_eq_true_2 by done.
  rewrite at_dollar_brace.
  pose proof (span_app is_idchar (name +:+ "}" +:+ post)) as Hspan.
  pose proof (span_in_class is_idchar "}" (name +:+ "}" +:+ post) eq_refl) as Hclass.
  destruct (span is_idchar (name +:+ "}" +:+ post)) as [id rest]. cbn [fst snd] in *.
  destruct (startswith "}" rest && starts_as_identifier id) eqn:Hbraced; cbn [fst snd].
  - apply andb_prop in Hbraced as [Hrest _].
    destruct rest as [|r rest]; [done|]. simpl in Hrest.
    apply andb_prop in Hrest as [Hr _]. apply bool_decide_eq_true_1 in Hr as <-.
    assert (id = name) as -> by (by eapply first_occurrence_unique).
    rewrite Hm. cbn [default].
    change (2 + String.length name)%nat with (S (S (String.length name))). cbv iota.
    rewrite <- (app_assoc_s name "}" post).
    replace (S (String.length name)) with (String.length (name +:+ "}"))
      by (rewrite length_app_s; simpl; lia).
    rewrite substitute_skip, str_drop_all by done. by rewrite !app_assoc_s.
  - exact (f_equal (String "$") Hlit).
Qed.

(** A match begun before a later delimiter ends before it, except for the
    escape that pairs the two delimiters. *)
Lemma at_dollar_bound (m : gmap string string) (q P : string) :
  (q = "" ∧ at_dollar m (q +:+ String "$" P) = ("$", 1%nat))
  ∨ ((at_dollar m (q +:+ String "$" P)).2 ≤ String.length q)%nat.
Proof.
  destruct q as [|d q]; [by left|]. right. rewrite app_cons.
  destruct (span_before is_idchar (String d q) "$" P eq_refl) as (x2 & Hx & _).
  destruct (span_before is_idchar q "$" P eq_refl) as (y2 & Hy & Hrest).
  assert (Hnamed : (String.length (span is_idchar (String d q +:+ String "$" P)).1
                    ≤ String.length (String d q))%nat).
  { rewrite Hx at 2. rewrite length_app_s. lia. }
  rewrite app_cons in Hnamed.
  unfold at_dollar. case_bool_decide; [simpl; lia|].
  destruct (is_idstart d); [done|].
  case_bool_decide; [|simpl; lia].
  destruct (startswith "}" _ && _) eqn:Hbraced; [|simpl; lia].
  apply andb_prop in Hbraced as [Hclose _]. rewrite Hrest in Hclose.
  destruct y2 as [|c y2]; [done|].
  cbn [snd]. rewrite Hy at 2. simpl. rewrite length_app_s. simpl. lia.
Qed.

Lemma substitute_keeps_unknown (m : gmap string string) (name post : string) :
  plain_name name = true → m !! name = None →
  ∀ (n : nat) (pre : string), (String.length pre ≤ n)%nat →
    occurs ("${" +:+ name +:+ "}")
      (substitute_go m 0 (pre +:+ "${" +:+ name +:+ "}" +:+ post)).
Proof.
  intros Hname Hm.
  assert (Hlit : substitute_go m 0 ("{" +:+ name +:+ "}" +:+ post) =
                 "{" +:+ name +:+ "}" +:+ substitute_go m 0 post).
  { pose proof (substitute_at_unknown m name post Hname Hm) as Hat.
    unfold plain_name in Hname.
    apply andb_prop in Hname as [[[Hd _]%andb_prop _]%andb_prop _].
    apply negb_true_iff in Hd.
    rewrite <- (app_assoc_s name), <- (app_assoc_s "{"), substitute_literal.
    - by rewrite !app_assoc_s.
    - by rewrite !contains_char_app, Hd. }
  induction n as [|n IH]; intros pre Hlen.
  - destruct pre; [|simpl in Hlen; lia]. rewrite app_empty_l.
    rewrite substitute_at_unknown by done.
    exists "", (substitute_go m 0 post). by rewrite app_empty_l, !app_assoc_s.
  - destruct pre as [|c q].
    { apply (IH ""). simpl. lia. }
    rewrite (app_cons c q). cbn [substitute_go]. simpl in Hlen.
    case_bool_decide as Hc.
    + change ("${" +:+ name +:+ "}" +:+ post)
        with (String "$" ("{" +:+ name +:+ "}" +:+ post)).
      destruct (at_dollar_bound m q ("{" +:+ name +:+ "}" +:+ post))
        as [[-> Hat] | Hbound].
      * rewrite Hat. cbn [fst snd]. rewrite app_empty_l. cbn [substitute_go].
        rewrite Hlit. exists "", (substitute_go m 0 post).
        by rewrite app_empty_l, !app_assoc_s.
      * rewrite substitute_skip by done. apply occurs_app_l, IH.
        pose proof (str_drop_length (at_dollar m
          (q +:+ String "$" ("{" +:+ name +:+ "}" +:+ post))).2 q). lia.
    + change (String c ?s) with (String c "" +:+ s). apply occurs_app_l, IH. lia.
Qed.

(** *** From the substituted text to the path *)

Lemma split_on_nonempty (sep : ascii) (s : string) : ∃ h t, split_on sep s = h :: t.
Proof.
  induction s as [|a s (h & t & IH)]; [by eexists _, _|]. simpl.
  case_bool_decide; [by eexists _, _|]. rewrite IH. by eexists _, _.
Qed.

Lemma split_on_head (sep : ascii) (m y : string) :
  contains (String sep "") m = false →
  ∃ h t, split_on sep (m +:+ y) = (m +:+ h) :: t.
Proof.
  induction m as [|a m IH].
  - intros _. rewrite app_empty_l. apply split_on_nonempty.
  - rewrite contains_char_cons. intros [Hne Hm]%orb_false_elim.
    destruct (IH Hm) as (h & t & Hsplit). exists h, t.
    rewrite app_cons. simpl. rewrite Hsplit.
    by rewrite bool_decide_eq_false_2
      by (intros ->; by rewrite bool_decide_eq_true_2 in Hne).
Qed.

Lemma split_on_occurs (sep : ascii) (m s : string) :
  contains (String sep "") m = false → occurs m s →
  ∃ c, c ∈ split_on sep s ∧ occurs m c.
Proof.
  intros Hm (x & y & ->). induction x as [|a x (c & Hin & Hocc)].
  - rewrite app_empty_l. destruct (split_on_head sep m y Hm) as (h & t & ->).
    exists (m +:+ h). split; [by left|]. exists "", h. by rewrite app_empty_l.
  - rewrite app_cons. simpl. case_bool_decide.
    + exists c. split; [by right|done].
    + destruct (split_on sep (x +:+ m +:+ y)) as [|h t]; [by apply elem_of_nil in Hin|].
      apply elem_of_cons in Hin as [-> | Hin].
      * exists (String a h). split; [by left|].
        change (String a h) with (String a "" +:+ h). by apply occurs_app_l.
      * exists c. split; [by right|done].
Qed.

Lemma join_occurs (sep c : string) (ps : list string) : c ∈ ps → occurs c (join sep ps).
Proof.
  induction ps as [|p ps IH]; [by intros ?%elem_of_nil|].
  intros [-> | Hin]%elem_of_cons.
  - destruct ps; [exists "", ""; by rewrite app_empty_l, app_empty_r|].
    exists "", (sep +:+ join sep (s :: ps)). by rewrite app_empty_l.
  - destruct ps as [|p' ps]; [by apply elem_of_nil in Hin|].
    change (join sep (p :: p' :: ps)) with (p +:+ sep +:+ join sep (p' :: ps)).
    by apply occurs_app_l, occurs_app_l, IH.
Qed.

Lemma occurs_length (m c : string) : occurs m c → (String.length m ≤ String.length c)%nat.
Proof. intros (x & y & ->). rewrite !length_app_s. lia. Qed.

(** Text inside one component survives the normalisation of the path. *)
Lemma Path_str_occurs (m s : string) :
  contains "/" m = false → (2 ≤ String.length m)%nat → occurs m s →
  occurs m (Path_str (Path_of s)).
Proof.
  intros Hm Hlen Hocc.
  destruct (split_on_occurs "/" m s Hm Hocc) as (c & Hin & Hc).
  pose proof (occurs_length _ _ Hc) as Hclen.
  assert (Hkeep : keep_part c = true).
  { unfold keep_part. destruct c as [|a [|b c]]; simpl in Hclen; try lia.
    by rewrite !bool_decide_eq_false_2. }
  assert (Hpart : c ∈ parts (Path_of s)).
  { unfold Path_of. simpl. by apply list_elem_of_filter. }
  apply (occurs_trans _ c); [done|]. unfold Path_str.
  destruct (parts (Path_of s)) as [|p ps] eqn:Hparts; [by apply elem_of_nil in Hpart|].
  assert (Hjoin : occurs c (root (Path_of s) +:+ join "/" (p :: ps)))
    by (by apply occurs_app_l, join_occurs).
  by destruct (root (Path_of s)).
Qed.

(** *** The documented variables *)

Local Ltac listed :=
  repeat first [apply list_elem_of_here | apply list_elem_of_further].

Local Ltac fresh_key Hne :=
  repeat (rewrite lookup_insert_ne by (apply not_eq_sym, Hne; listed));
  try apply lookup_empty.

Lemma Document_template_vars_unknown (space : Space) (ancestors : list Z)
    (vars : gmap string string) (name : string) :
  Document_template_vars space ancestors = Ok vars →
  name ∉ document_variables → vars !! name = None.
Proof.
  unfold Document_template_vars. intros Hvars Hname.
  assert (Hne : ∀ k, k ∈ document_variables → name ≠ k) by (by intros k Hk ->).
  destruct (match space_homepage space with Some _ => _ | None => _ end) as [t|e];
    [|done]. simpl in Hvars.
  destruct (mapR _ ancestors) as [ts|e]; [|done]. simpl in Hvars.
  injection Hvars as <-. by fresh_key Hne.
Qed.

Lemma Page_template_vars_unknown (p : Page) (vars : gmap string string) (name : string) :
  Page_template_vars p = Ok vars → name ∉ page_variables → vars !! name = None.
Proof.
  unfold Page_template_vars. intros Hvars Hname.
  assert (Hne : ∀ k, k ∈ page_variables → name ≠ k) by (by intros k Hk ->).
  destruct (Document_template_vars _ _) as [base|e] eqn:Hbase; [|done].
  simpl in Hvars. injection Hvars as <-. fresh_key Hne.
  apply (Document_template_vars_unknown _ _ _ _ Hbase).
  intros Hin. apply Hname, elem_of_app. by left.
Qed.

Lemma Attachment_template_vars_unknown (a : Attachment) (vars : gmap string string)
    (name : string) :
  Attachment_template_vars a = Ok vars → name ∉ attachment_variables → vars !! name = None.
Proof.
  unfold Attachment_template_vars. intros Hvars Hname.
  assert (Hne : ∀ k, k ∈ attachment_variables → name ≠ k) by (by intros k Hk ->).
  destruct (Document_template_vars _ _) as [base|e] eqn:Hbase; [|done].
  simpl in Hvars. injection Hvars as <-. fresh_key Hne.
  apply (Document_template_vars_unknown _ _ _ _ Hbase).
  intros Hin. apply Hname, elem_of_app. by left.
Qed.

Lemma resolve_template_keeps_unknown (vars : gmap string string) (pre name post : string) :
  plain_name name = true → vars !! name = None →
  occurs ("${" +:+ name +:+ "}")
    (Path_str (resolve_template (pre +:+ "{" +:+ name +:+ "}" +:+ post) vars)).
Proof.
  intros Hname Hvars. unfold resolve_template, safe_substitute.
  pose proof Hname as Hplain. unfold plain_name in Hplain.
  apply andb_prop in Hplain as [[[Hd Ho]%andb_prop Hc]%andb_prop Hs].
  apply negb_true_iff in Hd, Ho, Hc, Hs.
  apply Path_str_occurs.
  - change ("${" +:+ name +:+ "}") with ("${" +:+ (name +:+ "}")).
    by rewrite !contains_char_app, Hs.
  - rewrite !app_cons. simpl. lia.
  - rewrite !replace_char_app, (replace_char_absent "{" _ name Ho).
    change (replace_char "{" "${" "{") with "${".
    change (replace_char "{" "${" "}") with "}".
    by apply (substitute_keeps_unknown vars name _ Hname Hvars
                (String.length (replace_char "{" "${" pre))).
Qed.

(** C4.  When the path template holds a placeholder whose name is not one
    of the documented variables, resolving the path raises nothing beyond
    what computing the variables raises, and the text of the placeholder
    is in the returned path exactly as the template has it; it stands
    there right after a dollar sign, the one the rewriting of the braces
    puts before it. *)
Theorem unknown_placeholder_is_kept (cfg : ConverterSettings) (pre name post : string) :
  plain_name name = true →
  (∀ (p : Page) (vars : gmap string string),
     name ∉ page_variables →
     page_path cfg = pre +:+ "{" +:+ name +:+ "}" +:+ post →
     Page_template_vars p = Ok vars →
     ∃ path, Page_export_path cfg p = Ok path
             ∧ occurs ("{" +:+ name +:+ "}") (Path_str path)
             ∧ occurs ("${" +:+ name +:+ "}") (Path_str path))
  ∧ (∀ (a : Attachment) (vars : gmap string string),
       name ∉ attachment_variables →
       attachment_path cfg = pre +:+ "{" +:+ name +:+ "}" +:+ post →
       Attachment_template_vars a = Ok vars →
       ∃ path, Attachment_export_path cfg a = Ok path
               ∧ occurs ("{" +:+ name +:+ "}") (Path_str path)
               ∧ occurs ("${" +:+ name +:+ "}") (Path_str path)).
Proof.
  intros Hname.
  assert (Hbrace : ∀ s, occurs ("${" +:+ name +:+ "}") s → occurs ("{" +:+ name +:+ "}") s).
  { intros s. apply occurs_trans. exists "$", "". by rewrite app_empty_r. }
  split.
  - intros p vars Hunknown Htemplate Hvars.
    unfold Page_export_path. rewrite Hvars, Htemplate. simpl. eexists. split; [done|].
    pose proof (resolve_template_keeps_unknown vars pre name post Hname
                  (Page_template_vars_unknown p vars name Hvars Hunknown)).
    split; [by apply Hbrace|done].
  - intros a vars Hunknown Htemplate Hvars.
    unfold Attachment_export_path. rewrite Hvars, Htemplate. simpl. eexists. split; [done|].
    pose proof (resolve_template_keeps_unknown vars pre name post Hname
                  (Attachment_template_vars_unknown a vars name Hvars Hunknown)).
    split; [by apply Hbrace|done].
Qed.

End Properties.

(** * Further properties *)

Section MoreProperties.
Context `{Externals}.

(** ** The batch never fails on an [Exception] *)




(** ** Downloads of attachments *)

(** X2.  When the download of an attachment that is not on disk yet is
    answered with an HTTP error, by an exception of the session or by a
    4xx or 5xx status, [Attachment.export] returns normally: it has printed
    that the attachment is skipped and written no file.  An exception of
    another class is passed on to the caller. *)
Theorem attachment_export_http_error (a : Attachment) (export_path : string) (w : World)
    (rel : Path) :
  Attachment_export_path (converter_settings w) a = Ok rel →
  files w !! Path_str (Path_div (Path_of export_path) rel) = None →
  let url := confluence_url +:+ att_download_link a in
  let skipped := EvPrint ("There is no attachment with title '" +:+ att_title a
                          +:+ "'. Skipping export.") in
  ((∃ response, session_get url = Raise (HTTPError response))
   ∨ (∃ r, session_get url = Ok r ∧ 400 ≤ status_code r < 600) →
   Attachment_export a export_path w = (Ok tt, with_trace w [EvGet url; skipped]))
  ∧ (∀ e, session_get url = Raise e → is_HTTPError e = false →
     Attachment_export a export_path w = (Raise e, with_trace w [EvGet url])).
Proof.
  intros Hrel Habsent url skipped.
  pose proof (Attachment_export_absent a export_path w rel Hrel Habsent) as Hexport.
  cbv zeta in Hexport. fold url skipped in Hexport. split.
  - intros [[response Hget] | (r & Hget & Hlo & Hhi)]; rewrite Hexport, Hget; [done|].
    unfold raise_for_status.
    by rewrite (proj2 (Z.leb_le _ _) Hlo), (proj2 (Z.ltb_lt _ _) Hhi).
  - intros e Hget He. by rewrite Hexport, Hget, He.
Qed.

(** What one [Attachment.export] adds to the trace and to the files. *)
Lemma Attachment_export_effect (a : Attachment) (export_path : string) (w : World) :
  ∃ evs, trace (Attachment_export a export_path w).2 = trace w ++ evs
         ∧ (∀ url, EvGet url ∈ evs → url = confluence_url +:+ att_download_link a)
         ∧ (∀ f, is_Some (files w !! f) →
                 is_Some (files (Attachment_export a export_path w).2 !! f)).
Proof.
  destruct (Attachment_export_path (converter_settings w) a) as [rel|e] eqn:Hrel.
  - destruct (files w !! Path_str (Path_div (Path_of export_path) rel)) as [old|] eqn:Hfile.
    + rewrite (Attachment_export_present a export_path w rel Hrel) by (by rewrite Hfile).
      exists []. rewrite app_nil_r. split_and!; [done| |done].
      by intros url ?%elem_of_nil.
    + rewrite (Attachment_export_absent a export_path w rel Hrel Hfile).
      set (url := confluence_url +:+ att_download_link a).
      assert (Hone : ∀ (u : string) (ev : Event), EvGet u ∈ [EvGet url; ev] →
                       (∀ x, ev ≠ EvGet x) → u = url).
      { intros u ev Hin Hev. apply elem_of_cons in Hin as [Heq | Hin]; [by injection Heq|].
        apply elem_of_cons in Hin as [Heq | Hin]; [by destruct (Hev u)|].
        by apply elem_of_nil in Hin. }
      assert (Hget : ∀ u : string, EvGet u ∈ [EvGet url] → u = url).
      { intros u Hin. apply elem_of_cons in Hin as [Heq | Hin]; [by injection Heq|].
        by apply elem_of_nil in Hin. }
      destruct (session_get url) as [r|e].
      * destruct (raise_for_status r) as [[]|e].
        -- eexists. split_and!; [done| |].
           ++ intros u Hin. by apply (Hone u _ Hin).
           ++ intros f Hf. simpl.
              destruct (decide (Path_str (Path_div (Path_of export_path) rel) = f)) as [->|Hne].
              ** by rewrite lookup_insert_eq.
              ** by rewrite lookup_insert_ne.
        -- destruct (is_HTTPError e); eexists; (split_and!; [done| |done]).
           ++ intros u Hin. by apply (Hone u _ Hin).
           ++ done.
      * destruct (is_HTTPError e); eexists; (split_and!; [done| |done]).
        -- intros u Hin. by apply (Hone u _ Hin).
        -- done.
  - unfold Attachment_export, bindM, get_settings, lift. rewrite Hrel. simpl.
    exists []. rewrite app_nil_r. split_and!; [done| |done].
    by intros url ?%elem_of_nil.
Qed.

Lemma forM__cons {A} (x : A) (xs : list A) (f : A → M unit) (w : World) :
  forM_ (x :: xs) f w =
    match f x w with
    | (Ok _, w1) => forM_ xs f w1
    | (Raise e, w1) => (Raise e, w1)
    end.
Proof. reflexivity. Qed.

Lemma export_attachments_effect (page : Page) (atts : list Attachment)
    (export_path : string) (w : World) :
  let run := forM_ atts
               (λ a, if is_referenced page a then Attachment_export a export_path
                     else ret tt) w in
  ∃ evs, trace run.2 = trace w ++ evs
         ∧ (∀ url, EvGet url ∈ evs →
              ∃ a, a ∈ atts ∧ is_referenced page a = true
                   ∧ url = confluence_url +:+ att_download_link a)
         ∧ (∀ f, is_Some (files w !! f) → is_Some (files run.2 !! f)).
Proof.
  revert w. induction atts as [|a atts IH]; intros w.
  - exists []. simpl. rewrite app_nil_r. split_and!; [done| |done].
    by intros url ?%elem_of_nil.
  - cbv zeta. rewrite !forM__cons.
    destruct (is_referenced page a) eqn:Href.
    + destruct (Attachment_export_effect a export_path w) as (evs1 & Htrace1 & Hget1 & Hfiles1).
      destruct (Attachment_export a export_path w) as [[[]|e] w1]; simpl in *.
      * destruct (IH w1) as (evs2 & Htrace2 & Hget2 & Hfiles2). cbv zeta in *.
        exists (evs1 ++ evs2). split_and!.
        -- by rewrite Htrace2, Htrace1, <- app_assoc.
        -- intros url [Hin | Hin]%elem_of_app.
           ++ exists a. split_and!; [by left|done|by apply Hget1].
           ++ destruct (Hget2 url Hin) as (a' & Hin' & Href' & Hurl).
              exists a'. split_and!; [by right|done..].
        -- intros f Hf. by apply Hfiles2, Hfiles1.
      * exists evs1. split_and!; [done| |done].
        intros url Hin. exists a. split_and!; [by left|done|by apply Hget1].
    + unfold ret at 1.
      destruct (IH w) as (evs2 & Htrace2 & Hget2 & Hfiles2). cbv zeta in *.
      exists evs2. split_and!; [done| |done].
      intros url Hin. destruct (Hget2 url Hin) as (a' & Hin' & Href' & Hurl).
      exists a'. split_and!; [by right|done..].
Qed.

(** X3.  [Page.export_attachments] requests only attachments the page
    refers to: every GET it issues is for the download link of an
    attachment of the page that the page body names (by file id or as a
    diagram), and it removes no file. *)
Theorem export_attachments_only_referenced (page : Page) (export_path : string) (w : World) :
  ∃ evs, trace (Page_export_attachments page export_path w).2 = trace w ++ evs
         ∧ (∀ url, EvGet url ∈ evs →
              ∃ a, a ∈ page_attachments page ∧ is_referenced page a = true
                   ∧ url = confluence_url +:+ att_download_link a)
         ∧ (∀ f, is_Some (files w !! f) →
                 is_Some (files (Page_export_attachments page export_path w).2 !! f)).
Proof. apply (export_attachments_effect page (page_attachments page)). Qed.

(** ** Links and the characters of their targets *)

Lemma replace_space_free (s : string) : contains " " (replace_char " " "%20" s) = false.
Proof.
  induction s as [|a s IH]; [done|]. simpl. case_bool_decide as Ha.
  - change ("%20" +:+ ?x) with (String "%" (String "2" (String "0" x))).
    by rewrite !contains_char_cons, IH.
  - rewrite contains_char_cons, IH.
    by rewrite bool_decide_eq_false_2 by (by intros <-).
Qed.

(** X4.  A link [convert_page_link] or [convert_attachment_link] emits has
    the form [[label](target)], and the target holds no space: every
    space of the relative path is written [%20]. *)
Theorem link_targets_hold_no_space (page : Page) (w w' : World) (s : string) :
  (∀ page_id el, convert_page_link page page_id el w = (Ok s, w') →
     ∃ label target, s = "[" +:+ label +:+ "](" +:+ target +:+ ")"
                     ∧ contains " " target = false)
  ∧ (∀ el text parent_tags,
       convert_attachment_link page el text parent_tags w = (Ok s, w') →
       ∃ label target, s = "[" +:+ label +:+ "](" +:+ target +:+ ")"
                       ∧ contains " " target = false).
Proof.
  split.
  - intros page_id el. unfold convert_page_link. case_bool_decide; [done|].
    unfold bindM at 1, lift at 1. destruct (Page_from_id _) as [target|e]; [|done].
    unfold bindM at 1, get_settings at 1. unfold bindM at 1, lift at 1.
    destruct (Page_export_path _ target) as [tp|e]; [|done].
    unfold bindM at 1, lift at 1.
    destruct (Page_export_path _ page) as [own|e]; [|done].
    destruct el as [e|]; [destruct (children e) as [|[s0|n atts kids] rest]|];
      unfold bindM; try destruct (process_tag _ _ _ w) as [[label|e0] w1]; try done;
      unfold ret; intros [= <- <-]; eexists _, _; (split; [done|]);
      apply replace_space_free.
  - intros el text parent_tags. unfold convert_attachment_link, bindM at 1, lift at 1.
    destruct (get_attachment_from_element page el) as [[a|]|e]; [|done..].
    unfold bindM at 1, get_settings at 1. unfold bindM at 1, lift at 1.
    destruct (Attachment_export_path _ a) as [ap|e]; [|done].
    unfold bindM at 1, lift at 1.
    destruct (Page_export_path _ page) as [own|e]; [|done].
    unfold ret. intros [= <- <-]. eexists _, _. split; [done|]. apply replace_space_free.
Qed.

(** ** Front matter *)

(** X5.  The front matter is empty exactly when the page has no label and
    the conversion recorded no property; otherwise it is a YAML block
    between two [---] lines. *)
Theorem front_matter_empty_iff (page : Page) (props : gmap string prop_value) :
  (front_matter page props = "" ↔ page_labels page = [] ∧ props = ∅)
  ∧ (front_matter page props ≠ "" →
     ∃ yml, front_matter page props = "---" +:+ nl +:+ yml +:+ nl +:+ "---" +:+ nl).
Proof.
  unfold front_matter, set_page_property, Converter_labels, prop_truthy.
  destruct (page_labels page) as [|l ls] eqn:Hlabels; simpl.
  - case_bool_decide as Hsize.
    + apply map_size_empty_iff in Hsize. split; [|done]. by split.
    + split; [|by eexists]. split; [done|]. intros [_ ->]. by destruct Hsize.
  - rewrite bool_decide_eq_false_2.
    + split; [|by eexists]. split; [done|]. by intros [? _].
    + intros Hsize. apply map_size_empty_iff in Hsize.
      by apply insert_non_empty in Hsize.
Qed.

(** ** Template variables and forbidden pages *)

Lemma safe_titles_resolve (ancestors : list Z) :
  Forall readable_or_forbidden ancestors →
  mapR (λ a, let? t := _get_safe_ancestor_title a in Ok (sanitize_filename t)) ancestors
  = Ok ((λ a, sanitize_filename (ancestor_title_or_NA a)) <$> ancestors).
Proof.
  induction 1 as [|a ancestors Ha _ IH]; [done|].
  simpl. rewrite IH. unfold _get_safe_ancestor_title, ancestor_title_or_NA.
  destruct Ha as [[p ->] | ->]; done.
Qed.

(** X6.  Forbidden ancestors do not stop the resolution of a page's path:
    when every ancestor can be read or is forbidden (status 403) and the
    homepage of the space, if there is one, can be read, the export path
    resolves, and the variable [ancestor_titles] is the titles joined by
    [/] with [N/A] for the forbidden ones.  The homepage has no such
    protection: any error of its fetch, a 403 too, is raised by the path
    resolution. *)
Theorem forbidden_ancestors_resolve (cfg : ConverterSettings) (page : Page) :
  (Forall readable_or_forbidden (page_ancestors page) →
   (∀ h, space_homepage (page_space page) = Some h →
         ∃ p, Page_from_id (py_str_int h) = Ok p) →
   ∃ vars path,
     Page_template_vars page = Ok vars
     ∧ vars !! "ancestor_titles" =
         Some (join "/" ((λ a, sanitize_filename (ancestor_title_or_NA a))
                           <$> page_ancestors page))
     ∧ Page_export_path cfg page = Ok path)
  ∧ (∀ h e, space_homepage (page_space page) = Some h →
            Page_from_id (py_str_int h) = Raise e →
            Page_export_path cfg page = Raise e).
Proof.
  split.
  - intros Hancestors Hhome.
    assert (Hvars : ∃ vars, Page_template_vars page = Ok vars
              ∧ vars !! "ancestor_titles" =
                  Some (join "/" ((λ a, sanitize_filename (ancestor_title_or_NA a))
                                    <$> page_ancestors page))).
    { unfold Page_template_vars, Document_template_vars.
      rewrite (safe_titles_resolve _ Hancestors).
      destruct (space_homepage (page_space page)) as [h|].
      - destruct (Hhome h eq_refl) as [p ->]. simpl. eexists. split; [done|].
        by rewrite !lookup_insert_ne, lookup_insert_eq by done.
      - simpl. eexists. split; [done|].
        by rewrite !lookup_insert_ne, lookup_insert_eq by done. }
    destruct Hvars as (vars & Hvars & Htitles). exists vars. eexists.
    split_and!; [done..|]. unfold Page_export_path. by rewrite Hvars.
  - intros h e Hh Hfetch.
    unfold Page_export_path, Page_template_vars, Document_template_vars.
    by rewrite Hh, Hfetch.
Qed.

(** ** What the patterns capture *)

Lemma startswith_split (l s : string) :
  startswith l s = true → s = l +:+ str_drop (String.length l) s.
Proof.
  revert s. induction l as [|a l IH]; intros [|b s]; try done.
  simpl. intros [Hab Hl]%andb_prop. apply bool_decide_eq_true_1 in Hab as ->.
  rewrite app_cons. f_equal. by apply IH.
Qed.

Lemma star_greedy_sound {R} (p : ascii → bool) (s : string) (k : string → option R) (r : R) :
  star_greedy p s k = Some r →
  ∃ a b, s = a +:+ b ∧ all_chars p a = true ∧ k b = Some r.
Proof.
  induction s as [|c s IH]; simpl.
  - intros Hk. by exists "", "".
  - destruct (p c) eqn:Hc; [|intros Hk; by exists "", (String c s)].
    destruct (star_greedy p s k) as [r'|] eqn:Hrec.
    + intros [= ->]. destruct (IH eq_refl) as (a & b & -> & Ha & Hk).
      exists (String c a), b. simpl. by rewrite Hc.
    + intros Hk. by exists "", (String c s).
Qed.

Lemma star_lazy_sound {R} (p : ascii → bool) (s : string) (k : string → option R) (r : R) :
  star_lazy p s k = Some r →
  ∃ a b, s = a +:+ b ∧ all_chars p a = true ∧ k b = Some r.
Proof.
  induction s as [|c s IH]; simpl.
  - destruct (k "") eqn:Hk; [|done]. intros [= ->]. by exists "", "".
  - destruct (k (String c s)) eqn:Hk.
    + intros [= ->]. by exists "", (String c s).
    + destruct (p c) eqn:Hc; [|done]. intros Hrec.
      destruct (IH Hrec) as (a & b & -> & Ha & Hkb).
      exists (String c a), b. simpl. by rewrite Hc.
Qed.

(** Against a continuation that accepts everything, the greedy star takes
    the longest run. *)
Lemma star_greedy_longest {R} (p : ascii → bool) (s : string) (k : string → option R) :
  (∀ x, is_Some (k x)) → star_greedy p s k = k (span p s).2.
Proof.
  intros Hk. induction s as [|c s IH]; [done|]. simpl.
  destruct (p c); [|done]. simpl. rewrite IH. by destruct (Hk (span p s).2) as [r ->].
Qed.

Lemma span_all_chars (p : ascii → bool) (s : string) : all_chars p (span p s).1 = true.
Proof.
  induction s as [|c s IH]; [done|]. simpl. destruct (p c) eqn:Hc; [|done].
  simpl. by rewrite Hc.
Qed.

Lemma span_stops (p : ascii → bool) (s : string) :
  (span p s).2 = "" ∨ ∃ c r, (span p s).2 = String c r ∧ p c = false.
Proof.
  induction s as [|c s IH]; [by left|]. simpl. destruct (p c) eqn:Hc; [done|].
  right. by exists c, s.
Qed.

Lemma str_take_consumed (x y : string) :
  str_take (String.length (x +:+ y) - String.length y) (x +:+ y) = x.
Proof.
  rewrite length_app_s.
  replace (String.length x + String.length y - String.length y)%nat
    with (String.length x) by lia.
  induction x as [|c x IH]; [by destruct y|]. rewrite app_cons. simpl. by rewrite IH.
Qed.

Lemma all_chars_not_char (c : ascii) (s : string) :
  all_chars (not_char c) s = true → contains (String c "") s = false.
Proof.
  induction s as [|a s IH]; [done|]. simpl. intros [Ha Hs]%andb_prop.
  rewrite andb_true_r, (IH Hs), orb_false_r. unfold not_char in Ha.
  apply negb_true_iff, bool_decide_eq_false_1 in Ha.
  apply bool_decide_eq_false_2. by intros ->.
Qed.

Lemma re_search_sound (r : regex) (s : string) (caps : list string) :
  re_search r s = Some caps → ∃ pre s', s = pre +:+ s' ∧ re_match r s' = Some caps.
Proof.
  induction s as [|c s IH]; simpl.
  - destruct (re_match r "") eqn:Hm; [|done]. intros [= ->]. by exists "", "".
  - destruct (re_match r (String c s)) eqn:Hm.
    + intros [= ->]. by exists "", (String c s).
    + intros Hrec. destruct (IH Hrec) as (pre & s' & -> & Hs').
      by exists (String c pre), s'.
Qed.

Lemma rmatch_cat (r1 r2 : regex) (s : string) (caps : list string)
    (k : string → list string → option (list string)) :
  rmatch (RCat r1 r2) s caps k = rmatch r1 s caps (λ s' caps', rmatch r2 s' caps' k).
Proof. reflexivity. Qed.

Lemma rmatch_lit (l s : string) (caps c : list string)
    (k : string → list string → option (list string)) :
  rmatch (RLit l) s caps k = Some c → ∃ s', s = l +:+ s' ∧ k s' caps = Some c.
Proof.
  cbn [rmatch]. destruct (startswith l s) eqn:Hl; [|done].
  intros Hk. exists (str_drop (String.length l) s). split; [|done].
  by apply startswith_split.
Qed.

(** A capturing group over one or more characters of a class, followed by
    the rest of the pattern. *)
Lemma rmatch_group_plus (p : ascii → bool) (s : string) (caps c : list string)
    (k : string → list string → option (list string)) :
  rmatch (RGroup (RPlus p)) s caps k = Some c →
  ∃ a b, s = a +:+ b ∧ a ≠ "" ∧ all_chars p a = true ∧ k b (caps ++ [a]) = Some c.
Proof.
  cbn [rmatch]. destruct s as [|x s]; [done|]. destruct (p x) eqn:Hx; [|done].
  intros Hstar. apply star_greedy_sound in Hstar as (a & b & -> & Ha & Hk).
  exists (String x a), b. split_and!; [done|done|by simpl; rewrite Hx|].
  by rewrite <- (str_take_consumed (String x a) b).
Qed.

(** The same at the end of the pattern: the group takes the longest run. *)
Lemma rmatch_group_plus_last (p : ascii → bool) (s : string) (caps c : list string) :
  rmatch (RGroup (RPlus p)) s caps (λ _ caps', Some caps') = Some c →
  ∃ a b, s = a +:+ b ∧ a ≠ "" ∧ all_chars p a = true ∧ c = caps ++ [a]
         ∧ (b = "" ∨ ∃ x r, b = String x r ∧ p x = false).
Proof.
  cbn [rmatch]. destruct s as [|x s]; [done|]. destruct (p x) eqn:Hx; [|done].
  rewrite star_greedy_longest by (by eexists).
  pose proof (span_app p s) as Happ. pose proof (span_all_chars p s) as Hall.
  pose proof (span_stops p s) as Hstop.
  destruct (span p s) as [a b]. simpl in *. subst s. intros [= <-].
  exists (String x a), b. split_and!; [done|done|by simpl; rewrite Hx| |done].
  by rewrite <- (str_take_consumed (String x a) b).
Qed.

(** X7.  A [src] the [data:] pattern matches has the form
    [data:<mime>;base64,<payload><tail>] and the two captured groups are
    [mime] and [payload]: the mime type is the non-empty text before the
    first semicolon, and the payload is the non-empty text after the comma
    up to the first line break, or to the end when there is none. *)
Theorem data_uri_pattern_captures (src : string) (caps : list string) :
  re_match data_uri_re src = Some caps →
  ∃ mime payload tail,
    caps = [mime; payload]
    ∧ src = "data:" +:+ mime +:+ ";base64," +:+ payload +:+ tail
    ∧ mime ≠ "" ∧ contains ";" mime = false
    ∧ payload ≠ "" ∧ contains nl payload = false
    ∧ (tail = "" ∨ startswith nl tail = true).
Proof.
  unfold re_match, data_uri_re. rewrite rmatch_cat. intros Hmatch.
  apply rmatch_lit in Hmatch as (s1 & -> & Hmatch). rewrite rmatch_cat in Hmatch.
  apply rmatch_group_plus in Hmatch as (mime & b & -> & Hmime & Hclass & Hmatch).
  rewrite rmatch_cat in Hmatch.
  apply rmatch_lit in Hmatch as (s2 & -> & Hmatch).
  apply rmatch_group_plus_last in Hmatch
    as (payload & tail & -> & Hpayload & Hdot & -> & Htail).
  exists mime, payload, tail. split_and!; [done| |done| |done| |].
  - done.
  - by apply all_chars_not_char.
  - by apply (all_chars_not_char "010").
  - destruct Htail as [-> | (x & r & -> & Hx)]; [by left|right].
    unfold dot in Hx. apply negb_false_iff, bool_decide_eq_true_1 in Hx as ->. done.
Qed.

(** ** Decimal text *)

Lemma rev_app_rev_app (s acc acc' : string) :
  String.rev_app (String.rev_app s acc) acc' = String.rev_app acc (s +:+ acc').
Proof.
  revert acc. induction s as [|c s IH]; intros acc; [done|].
  simpl. by rewrite IH.
Qed.

Lemma rev_involutive_s (s : string) : String.rev (String.rev s) = s.
Proof. unfold String.rev. by rewrite rev_app_rev_app, app_empty_r. Qed.

Lemma all_chars_rev_app (p : ascii → bool) (s acc : string) :
  all_chars p (String.rev_app s acc) = all_chars p s && all_chars p acc.
Proof.
  revert acc. induction s as [|c s IH]; intros acc; [done|].
  simpl. rewrite IH. simpl. by destruct (p c), (all_chars p s).
Qed.

Lemma lstrip_not_space (s : string) : all_chars not_space s = true → lstrip s = s.
Proof.
  destruct s as [|c s]; [done|]. simpl. unfold not_space.
  intros [Hc _]%andb_prop. apply negb_true_iff in Hc. by rewrite Hc.
Qed.

(** Text without white space is its own [strip]. *)
Lemma py_strip_not_space (s : string) : all_chars not_space s = true → py_strip s = s.
Proof.
  intros Hs. unfold py_strip. rewrite (lstrip_not_space s Hs).
  rewrite lstrip_not_space; [apply rev_involutive_s|].
  unfold String.rev. by rewrite all_chars_rev_app, Hs.
Qed.

Lemma all_chars_impl (p q : ascii → bool) (s : string) :
  (∀ c, p c = true → q c = true) → all_chars p s = true → all_chars q s = true.
Proof.
  intros Hpq. induction s as [|c s IH]; [done|]. simpl.
  intros [Hc Hs]%andb_prop. by rewrite (Hpq c Hc), IH.
Qed.

Lemma digit_not_space (c : ascii) : is_digit c = true → not_space c = true.
Proof.
  unfold is_digit, not_space, py_isspace. intros [Hlo Hhi]%andb_prop.
  apply Nat.leb_le in Hlo, Hhi. apply negb_true_iff, orb_false_intro.
  - apply andb_false_intro2, Nat.leb_gt. lia.
  - apply andb_false_intro2, Nat.leb_gt. lia.
Qed.

Lemma digits_value_digits (s : string) (acc : Z) :
  all_chars is_digit s = true → 0 ≤ acc → ∃ z, digits_value acc s = Some z ∧ 0 ≤ z.
Proof.
  revert acc. induction s as [|c s IH]; intros acc; simpl.
  - intros _ Hacc. by exists acc.
  - intros [Hc Hs]%andb_prop Hacc. rewrite Hc. apply IH; [done|].
    unfold is_digit in Hc. apply andb_prop in Hc as [Hlo _]. apply Nat.leb_le in Hlo. lia.
Qed.

(** [int] of a non-empty run of digits is a natural number. *)
Lemma py_int_digits (d : string) :
  d ≠ "" → all_chars is_digit d = true → ∃ z, py_int d = Ok z ∧ 0 ≤ z.
Proof.
  intros Hd Hdigits. unfold py_int.
  rewrite py_strip_not_space by (by apply (all_chars_impl is_digit), Hdigits;
                                   apply digit_not_space).
  destruct (digits_value_digits d 0 Hdigits) as (z & Hz & Hpos); [done|].
  destruct d as [|c d]; [done|]. exists z. split; [|done].
  simpl in Hdigits. apply andb_prop in Hdigits as [Hc _].
  destruct c as [[] [] [] [] [] [] [] []]; try discriminate Hc; by rewrite Hz.
Qed.

(** ** Links that carry a page id *)

Lemma wiki_pages_captures (href : string) (caps : list string) :
  re_search wiki_pages_re href = Some caps →
  ∃ d, caps = [d] ∧ d ≠ "" ∧ all_chars is_digit d = true
       ∧ occurs ("/pages/" +:+ d) href.
Proof.
  intros (pre & s & -> & Hmatch)%re_search_sound. revert Hmatch.
  unfold re_match, wiki_pages_re. rewrite rmatch_cat. intros Hmatch.
  apply rmatch_lit in Hmatch as (s1 & -> & Hmatch). rewrite rmatch_cat in Hmatch.
  cbn [rmatch] in Hmatch. destruct s1 as [|x s1]; [done|].
  destruct (dot x); [|done].
  apply star_lazy_sound in Hmatch as (a & b & -> & _ & Hmatch).
  destruct (startswith "/pages/" b) eqn:Hb; [|done].
  apply startswith_split in Hb.
  apply (rmatch_group_plus_last is_digit _ [] caps) in Hmatch
    as (d & tail & Htail & Hd & Hdigits & -> & _).
  exists d. split_and!; [done..|].
  rewrite Hb, Htail. exists (pre +:+ "/wiki/" +:+ String x a), tail.
  by rewrite !app_assoc_s.
Qed.

Lemma viewpage_captures (href : string) (caps : list string) :
  re_search viewpage_re href = Some caps →
  ∃ d, caps = [d] ∧ d ≠ "" ∧ all_chars is_digit d = true
       ∧ occurs ("pageId=" +:+ d) href.
Proof.
  intros (pre & s & -> & Hmatch)%re_search_sound. revert Hmatch.
  unfold re_match, viewpage_re. rewrite rmatch_cat. intros Hmatch.
  apply rmatch_lit in Hmatch as (s1 & -> & Hmatch). rewrite rmatch_cat in Hmatch.
  cbn [rmatch] in Hmatch. destruct s1 as [|x s1]; [done|].
  destruct (dot x); [|done].
  destruct (startswith "action?pageId=" s1) eqn:Hs1; [|done].
  apply startswith_split in Hs1.
  apply (rmatch_group_plus_last is_digit _ [] caps) in Hmatch
    as (d & tail & Htail & Hd & Hdigits & -> & _).
  exists d. split_and!; [done..|].
  rewrite Hs1, Htail. exists (pre +:+ "/pages/viewpage" +:+ String x "action?"), tail.
  by rewrite !app_assoc_s.
Qed.

(** X8.  A link whose [href] holds [/wiki/.../pages/<digits>] or
    [/pages/viewpage.action?pageId=<digits>], and to which no earlier
    branch of [convert_a] applies, is converted as the link to the page
    with that number: the captured id is a non-empty run of digits, so
    [int] does not fail on it. *)
Theorem page_id_links_resolve (page : Page) (el : Tag) (text : string)
    (parent_tags : list string) (w : World) (caps : list string) :
  is_user_mention el = false →
  is_create_link el = false →
  contains "page" (str_attr (el_get el "data-linked-resource-type")) = false
    ∨ el_str el "data-linked-resource-id" ∈ [""; "null"] →
  contains "attachment" (str_attr (el_get el "data-linked-resource-type")) = false →
  re_search wiki_pages_re (el_str el "href") = Some caps
    ∨ (re_search wiki_pages_re (el_str el "href") = None
       ∧ re_search viewpage_re (el_str el "href") = Some caps) →
  ∃ d z, caps = [d] ∧ py_int d = Ok z ∧ 0 ≤ z
         ∧ (occurs ("/pages/" +:+ d) (el_str el "href")
            ∨ occurs ("pageId=" +:+ d) (el_str el "href"))
         ∧ convert_a page el text parent_tags w = convert_page_link page z (Some el) w.
Proof.
  intros Huser Hcreate Hpage Hatt Hhref.
  assert (Hcaps : ∃ d, caps = [d] ∧ d ≠ "" ∧ all_chars is_digit d = true
            ∧ (occurs ("/pages/" +:+ d) (el_str el "href")
               ∨ occurs ("pageId=" +:+ d) (el_str el "href"))).
  { destruct Hhref as [Hwiki | [_ Hview]].
    - destruct (wiki_pages_captures _ _ Hwiki) as (d & ? & ? & ? & ?). exists d. eauto.
    - destruct (viewpage_captures _ _ Hview) as (d & ? & ? & ? & ?). exists d. eauto. }
  destruct Hcaps as (d & -> & Hd & Hdigits & Hocc).
  destruct (py_int_digits d Hd Hdigits) as (z & Hz & Hpos).
  exists d, z. split_and!; [done..|].
  - unfold convert_a. rewrite Huser, Hcreate. unfold convert_a_link.
    assert (Hrest : ∀ (A : Type) (x y : A),
      (if contains "page" (str_attr (el_get el "data-linked-resource-type")) then
         if negb (bool_decide (el_str el "data-linked-resource-id" = "")) &&
            negb (bool_decide (el_str el "data-linked-resource-id" = "null"))
         then x else y
       else y) = y).
    { intros A x y. destruct Hpage as [-> | Hid]; [done|].
      destruct (contains "page" _); [|done].
      apply elem_of_cons in Hid as [-> | Hid]; [done|].
      apply elem_of_cons in Hid as [-> | Hid]; [done|]. by apply elem_of_nil in Hid. }
    rewrite Hrest, Hatt.
    destruct Hhref as [-> | [-> ->]]; unfold bindM, lift; by rewrite Hz.
Qed.

(** ** Path templates, segment by segment *)

Lemma concat_cons (x : string) (xs : list string) :
  String.concat "" (x :: xs) = x +:+ String.concat "" xs.
Proof. destruct xs; [by rewrite app_empty_r|done]. Qed.

Lemma span_exact (p : ascii → bool) (n rest : string) :
  all_chars p n = true →
  match rest with String c _ => p c = false | EmptyString => True end →
  span p (n +:+ rest) = (n, rest).
Proof.
  intros Hn Hrest. induction n as [|c n IH].
  - rewrite app_empty_l. destruct rest as [|c rest]; [done|]. simpl. by rewrite Hrest.
  - simpl in Hn. apply andb_prop in Hn as [Hc Hn]. rewrite app_cons. simpl.
    by rewrite Hc, (IH Hn).
Qed.

Lemma all_idchars_no (c : ascii) (n : string) :
  is_idchar c = false → all_chars is_idchar n = true → contains (String c "") n = false.
Proof.
  intros Hc. induction n as [|a n IH]; [done|]. simpl.
  intros [Ha Hn]%andb_prop. rewrite andb_true_r, (IH Hn), orb_false_r.
  apply bool_decide_eq_false_2. intros ->. congruence.
Qed.

(** The substitution at a placeholder whose name is an identifier: the
    value of the variable, or the placeholder as it stands. *)
Lemma substitute_at_identifier (m : gmap string string) (name post : string) :
  is_identifier name = true →
  substitute_go m 0 ("${" +:+ name +:+ "}" +:+ post) =
    default ("${" +:+ name +:+ "}") (m !! name) +:+ substitute_go m 0 post.
Proof.
  unfold is_identifier. intros [Hstart Hall]%andb_prop.
  change ("${" +:+ name +:+ "}" +:+ post)
    with (String "$" (String "{" (name +:+ "}" +:+ post))).
  cbn [substitute_go]. rewrite bool_decide_eq_true_2 by done.
  rewrite at_dollar_brace.
  rewrite (span_exact is_idchar name ("}" +:+ post) Hall) by done.
  cbn [fst snd]. rewrite Hstart.
  change (startswith "}" ("}" +:+ post)) with true. cbn [andb fst snd].
  change (2 + String.length name)%nat with (S (S (String.length name))). cbv iota.
  rewrite <- (app_assoc_s name "}" post).
  replace (S (String.length name)) with (String.length (name +:+ "}"))
    by (rewrite length_app_s; simpl; lia).
  by rewrite substitute_skip, str_drop_all by done.
Qed.

Lemma substitute_segment (m : gmap string string) (seg : segment) (rest : string) :
  well_formed_segment seg = true →
  substitute_go m 0 (replace_char "{" "${" (segment_text seg) +:+ rest) =
    segment_value m seg +:+ substitute_go m 0 rest.
Proof.
  destruct seg as [s|name]; simpl.
  - intros [Hd Ho]%andb_prop. apply negb_true_iff in Hd, Ho.
    by rewrite (replace_char_absent "{" _ s Ho), substitute_literal.
  - intros Hname. pose proof Hname as Hid. unfold is_identifier in Hid.
    apply andb_prop in Hid as [_ Hall].
    rewrite !replace_char_app, (replace_char_absent "{" _ name)
      by (by apply all_idchars_no).
    change (replace_char "{" "${" "{") with "${".
    change (replace_char "{" "${" "}") with "}".
    rewrite !app_assoc_s. by apply substitute_at_identifier.
Qed.

(** X9.  A template made of literal text (without dollar sign and opening
    brace) and of placeholders whose names are identifiers resolves
    segment by segment, from left to right: text is copied, a placeholder
    of a variable is replaced by the value of the variable, inserted as it
    is and not scanned again, and a placeholder of no variable stays, with
    a dollar sign before it. *)
Theorem template_resolves_by_segments (vars : gmap string string) (segs : list segment) :
  forallb well_formed_segment segs = true →
  safe_substitute vars (replace_char "{" "${" (template_of segs)) = expansion vars segs.
Proof.
  unfold safe_substitute, template_of, expansion.
  induction segs as [|seg segs IH]; [done|]. cbn [forallb].
  intros [Hseg Hsegs]%andb_prop. rewrite !fmap_cons, !concat_cons, replace_char_app.
  by rewrite substitute_segment, IH.
Qed.

Lemma replace_brace_ends_identifier (rest : string) :
  ends_identifier rest = true → ends_identifier (replace_char "{" "${" rest) = true.
Proof.
  destruct rest as [|c rest]; [done|]. simpl. case_bool_decide; [done|]. done.
Qed.

(** X10.  Two consequences of the dollar sign being the delimiter of
    [string.Template].  A placeholder written right after a dollar sign
    is not substituted, not even for a documented variable: the two
    dollar signs collapse into one and the braces are copied.  And a
    variable is substituted without braces too, when its name follows a
    dollar sign and ends where the identifier characters end. *)
Theorem dollar_sign_in_templates (vars : gmap string string) (name rest : string) :
  (contains "$" name = false → contains "{" name = false →
   safe_substitute vars (replace_char "{" "${" ("$" +:+ "{" +:+ name +:+ "}" +:+ rest)) =
     "${" +:+ name +:+ "}"
     +:+ safe_substitute vars (replace_char "{" "${" rest))
  ∧ (∀ value, is_identifier name = true → vars !! name = Some value →
       ends_identifier rest = true →
       safe_substitute vars (replace_char "{" "${" ("$" +:+ name +:+ rest)) =
         value +:+ safe_substitute vars (replace_char "{" "${" rest)).
Proof.
  unfold safe_substitute. split.
  - intros Hd Ho.
    change ("$" +:+ "{" +:+ name +:+ "}" +:+ rest)
      with (String "$" (String "{" (name +:+ "}" +:+ rest))).
    cbn [replace_char]. rewrite bool_decide_eq_false_2, bool_decide_eq_true_2 by done.
    rewrite replace_char_app, (replace_char_absent "{" _ name Ho), replace_char_app.
    change (replace_char "{" "${" "}") with "}".
    change ("${" +:+ ?x) with (String "$" (String "{" x)).
    cbn [substitute_go]. rewrite !bool_decide_eq_true_2 by done.
    change (at_dollar vars (String "$" ?x)) with ("$", 1%nat). cbn [fst snd].
    rewrite (bool_decide_eq_false_2 ("{"%char = "$"%char)) by done.
    change ("$" +:+ String "{" ?x) with (String "$" (String "{" x)). do 2 f_equal.
    rewrite (substitute_literal vars name) by done.
    by rewrite (substitute_literal vars "}").
  - intros value Hname Hvalue Hrest. pose proof Hname as Hid. unfold is_identifier in Hid.
    apply andb_prop in Hid as [Hstart Hall].
    change ("$" +:+ name +:+ rest) with (String "$" (name +:+ rest)).
    cbn [replace_char]. rewrite bool_decide_eq_false_2 by done.
    rewrite replace_char_app, (replace_char_absent "{" _ name)
      by (by apply all_idchars_no).
    cbn [substitute_go]. rewrite bool_decide_eq_true_2 by done.
    apply replace_brace_ends_identifier in Hrest.
    assert (Hspan : span is_idchar (name +:+ replace_char "{" "${" rest)
                    = (name, replace_char "{" "${" rest)).
    { apply span_exact; [done|]. destruct (replace_char "{" "${" rest); [done|].
      simpl in Hrest. by apply negb_true_iff. }
    destruct name as [|c name]; [done|]. simpl in Hstart.
    rewrite app_cons in *. unfold at_dollar.
    assert (c ≠ "$"%char) by (intros ->; done).
    rewrite bool_decide_eq_false_2, Hstart, Hspan by done. cbn [fst snd].
    rewrite Hvalue. cbn [default].
    rewrite <- (app_cons c name). by rewrite substitute_skip, str_drop_all by done.
Qed.

(** ** Lines written and read back *)

Lemma rev_app_app (s acc : string) : String.rev_app s acc = String.rev s +:+ acc.
Proof.
  unfold String.rev. revert acc. induction s as [|c s IH]; intros acc; [done|].
  simpl. rewrite (IH (String c acc)), (IH (String c "")). by rewrite app_assoc_s.
Qed.

Lemma not_space_nl (c : ascii) : not_space c = true → c ≠ "010"%char.
Proof. by intros Hc ->. Qed.

(** A line without white space, then the rest. *)
Lemma readlines_go_line (cur s rest : string) :
  all_chars not_space s = true →
  readlines_go cur (s +:+ nl +:+ rest) =
    (String.rev cur +:+ s +:+ nl) :: readlines_go "" rest.
Proof.
  revert cur. induction s as [|c s IH]; intros cur.
  - intros _. rewrite !app_empty_l. unfold nl. rewrite app_cons, app_empty_l. simpl.
    unfold String.rev at 1. simpl. by rewrite rev_app_app.
  - simpl. intros [Hc Hs]%andb_prop. rewrite app_cons. simpl.
    rewrite bool_decide_eq_false_2 by (by apply not_space_nl).
    rewrite (IH _ Hs). unfold String.rev at 1. simpl.
    by rewrite rev_app_app, app_assoc_s.
Qed.

(** Reading goes on after a text of complete lines as from the start. *)
Lemma readlines_go_complete (cur text rest : string) :
  readlines_go cur ((text +:+ nl) +:+ rest) =
    readlines_go cur (text +:+ nl) ++ readlines_go "" rest.
Proof.
  revert cur. induction text as [|c text IH]; intros cur.
  - rewrite app_empty_l. unfold nl. by rewrite app_cons, app_empty_l.
  - rewrite !app_cons. simpl. case_bool_decide.
    + by rewrite (IH "").
    + by rewrite IH.
Qed.

Lemma endswith_nl (text : string) : endswith nl text = true → ∃ t, text = t +:+ nl.
Proof.
  unfold endswith. destruct (String.rev text) as [|c r] eqn:Hrev; [done|]. simpl.
  rewrite andb_true_r. intros Hc%bool_decide_eq_true. subst c.
  exists (String.rev r). rewrite <- (rev_involutive_s text), Hrev.
  unfold String.rev at 1. simpl. by rewrite rev_app_app.
Qed.

Lemma rev_snoc (s : string) (c : ascii) :
  String.rev (s +:+ String c "") = String c (String.rev s).
Proof.
  unfold String.rev.
  assert (Hacc : ∀ acc, String.rev_app (s +:+ String c "") acc
                        = String c (String.rev_app s acc)); [|apply Hacc].
  induction s as [|a s IH]; intros acc; [done|].
  rewrite app_cons. simpl. by rewrite IH.
Qed.

(** A line without white space is what [strip] leaves of it. *)
Lemma py_strip_line (s : string) : all_chars not_space s = true → py_strip (s +:+ nl) = s.
Proof.
  intros Hs. destruct s as [|c s]; [done|]. unfold py_strip.
  pose proof Hs as Hc. simpl in Hc. apply andb_prop in Hc as [Hc _].
  unfold not_space in Hc. apply negb_true_iff in Hc.
  rewrite app_cons. cbn [lstrip]. rewrite Hc, <- app_cons. unfold nl.
  rewrite rev_snoc. cbn [lstrip].
  change (py_isspace "010") with true. cbv iota.
  rewrite lstrip_not_space; [apply rev_involutive_s|].
  unfold String.rev. by rewrite all_chars_rev_app, Hs.
Qed.

Lemma complete_lines_snoc (text : string) : complete_lines (text +:+ nl) = true.
Proof.
  unfold complete_lines, endswith, nl. rewrite rev_snoc. simpl.
  apply orb_true_r.
Qed.

Lemma readlines_append (text s : string) :
  complete_lines text = true → all_chars not_space s = true →
  py_strip <$> readlines (text +:+ s +:+ nl) = (py_strip <$> readlines text) ++ [s]
  ∧ complete_lines (text +:+ s +:+ nl) = true.
Proof.
  intros Htext Hs. split; [|by rewrite <- app_assoc_s; apply complete_lines_snoc].
  assert (Hone : py_strip <$> readlines (s +:+ nl) = [s]).
  { unfold readlines. pose proof (readlines_go_line "" s "" Hs) as Hgo.
    rewrite app_empty_r in Hgo. rewrite Hgo. simpl.
    by rewrite app_empty_l, py_strip_line. }
  unfold complete_lines in Htext. apply orb_prop in Htext as [Hempty|Hends].
  - apply bool_decide_eq_true in Hempty. subst text. by rewrite app_empty_l.
  - apply endswith_nl in Hends as [t ->]. unfold readlines in *.
    by rewrite readlines_go_complete, fmap_app, Hone.
Qed.

(** The decimal text of an integer is not empty and holds no white space. *)
Lemma string_of_uint_not_space (d : Decimal.uint) :
  all_chars not_space (NilEmpty.string_of_uint d) = true.
Proof. induction d; simpl; by rewrite ?IHd. Qed.

Lemma py_str_int_not_space (z : Z) :
  py_str_int z ≠ "" ∧ all_chars not_space (py_str_int z) = true.
Proof.
  unfold py_str_int, NilZero.string_of_int, NilZero.string_of_uint.
  destruct (Z.to_int z) as [d|d]; destruct d; simpl;
    by rewrite ?string_of_uint_not_space.
Qed.

Lemma cached_ids_lines (names : list string) :
  Forall (λ s, s ≠ "" ∧ all_chars not_space s = true) names →
  cached_ids (String.concat "" ((λ s, s +:+ nl) <$> names)) = names.
Proof.
  unfold cached_ids, readlines. induction 1 as [|s names [Hne Hs] _ IH]; [done|].
  rewrite fmap_cons, concat_cons, app_assoc_s, readlines_go_line by done.
  rewrite fmap_cons, app_empty_l, py_strip_line, filter_cons_True by done.
  by rewrite IH.
Qed.

(** X11.  The cache of page ids of a space, written and read back.  With
    no cache file, [Space.export] asks the remote, works with the ids as
    integers and writes them to the cache, one decimal line each.  Every
    later call, whatever the remote would answer then, works with the
    same ids in the same order, as strings. *)
Theorem space_cache_round_trip
    (remote later_remote : string → list pyval * option exn)
    (space : Space) (export_path : string) (ids : list Z) (w : World) :
  files w !! pages_cache_file export_path = None →
  Space_pages remote space = Ok ids →
  ∃ w1,
    Space_load_pages remote space export_path w = (Ok (PInt <$> ids), w1)
    ∧ files w1 = <[pages_cache_file export_path := id_lines (PInt <$> ids)]> (files w)
    ∧ ∀ w2, files w2 !! pages_cache_file export_path
              = files w1 !! pages_cache_file export_path →
        (Space_load_pages later_remote space export_path w2).1
          = Ok (PStr <$> (py_str_int <$> ids)).
Proof.
  intros Hnone Hids. eexists. split_and!.
  - unfold Space_load_pages, bindM at 1, path_exists. rewrite Hnone.
    rewrite bool_decide_eq_false_2 by (by intros [? ?]).
    unfold bindM, lift. rewrite Hids. reflexivity.
  - done.
  - intros w2 Hsame. cbn [files] in Hsame. rewrite lookup_insert_eq in Hsame.
    unfold Space_load_pages, bindM at 1, path_exists. rewrite Hsame.
    rewrite bool_decide_eq_true_2 by done. cbn [fst]. rewrite Hsame. cbn [default].
    do 2 f_equal. fold (cached_ids (id_lines (PInt <$> ids))).
    unfold id_lines. rewrite <- list_fmap_compose.
    etrans; [|apply (cached_ids_lines (py_str_int <$> ids))].
    + by rewrite <- list_fmap_compose.
    + apply Forall_fmap, Forall_forall. intros z _. apply py_str_int_not_space.
Qed.

Lemma Space_load_pages_cached
    (remote : string → list pyval * option exn)
    (space : Space) (export_path text : string) (w : World) :
  files w !! pages_cache_file export_path = Some text →
  ∃ evs, Space_load_pages remote space export_path w =
           (Ok (PStr <$> cached_ids text), with_trace w evs).
Proof.
  intros Hcache. eexists. unfold Space_load_pages, bindM, path_exists. cbv zeta.
  rewrite Hcache, bool_decide_eq_true_2 by done. cbv beta iota.
  rewrite Hcache. reflexivity.
Qed.

Lemma Space_load_pages_fresh
    (remote : string → list pyval * option exn)
    (space : Space) (export_path : string) (w : World) :
  files w !! pages_cache_file export_path = None →
  Space_load_pages remote space export_path w =
    match Space_pages remote space with
    | Ok ids =>
        (Ok (PInt <$> ids),
         with_trace
           (mkWorld (<[pages_cache_file export_path := id_lines (PInt <$> ids)]> (files w))
              (converter_settings w) (trace w))
           [EvPrint ("Saved " +:+ py_str_int (Z.of_nat (length (PInt <$> ids)))
                     +:+ " page IDs to cache file")])
    | Raise e => (Raise e, w)
    end.
Proof.
  intros Hcache. unfold Space_load_pages, bindM, path_exists. cbv zeta.
  rewrite Hcache, bool_decide_eq_false_2 by (by intros [? ?]).
  unfold lift. by destruct (Space_pages remote space).
Qed.

(** X12.  Which pages an export of a space attempts.  Without a cache
    file the ids are integers, which no line of the log equals: every page
    of the space is attempted, whatever the log of processed pages holds
    (and an exception of the remote leaves everything as it was).  With a
    cache file the remote is not asked, the ids are the lines of the
    cache, and those the log lists are left out. *)
Theorem space_export_pages
    (remote : string → list pyval * option exn)
    (space : Space) (export_path : string) (w : World) :
  match files w !! pages_cache_file export_path with
  | None =>
      match Space_pages remote space with
      | Ok ids =>
          ∃ w1,
            files w1 = <[pages_cache_file export_path := id_lines (PInt <$> ids)]> (files w)
            ∧ Space_export remote space export_path w =
                forM_ (PInt <$> ids) (export_pages_step export_path) w1
      | Raise e => Space_export remote space export_path w = (Raise e, w)
      end
  | Some text =>
      ∃ w1,
        files w1 = files w
        ∧ Space_export remote space export_path w =
            forM_ (PStr <$> filter (λ s, s ∉ processed_set w export_path) (cached_ids text))
              (export_pages_step export_path) w1
  end.
Proof.
  unfold Space_export, bindM.
  destruct (files w !! pages_cache_file export_path) as [text|] eqn:Hcache.
  - destruct (Space_load_pages_cached remote space export_path text w Hcache)
      as (evs & ->).
    rewrite export_pages_loop. unfold todo_of at 1. rewrite pages_to_process_strs.
    change (processed_set (with_trace w evs) export_path)
      with (processed_set w export_path).
    eexists. split; [|reflexivity]. done.
  - rewrite (Space_load_pages_fresh remote space export_path w Hcache).
    destruct (Space_pages remote space) as [ids|e]; [|done].
    rewrite export_pages_loop. unfold todo_of at 1.
    rewrite pages_to_process_ints
      by (apply Forall_fmap, Forall_forall; intros z _; by exists z).
    eexists. split; [|reflexivity]. done.
Qed.

(** ** The log of processed pages *)

Lemma processed_set_log (w : World) (output_path : string) :
  processed_set w output_path =
    list_to_set (py_strip <$> readlines (processed_log w output_path)).
Proof.
  unfold processed_set, processed_log.
  by destruct (files w !! processed_pages_file output_path).
Qed.

Lemma py_in_union (id : pyval) (S T : gset string) :
  py_in id (S ∪ T) = py_in id S || py_in id T.
Proof.
  destruct id as [z|s]; [done|]. simpl.
  destruct (decide (s ∈ S)) as [HS|HS], (decide (s ∈ T)) as [HT|HT].
  - rewrite !bool_decide_eq_true_2; [done..|]. apply elem_of_union. by left.
  - rewrite (bool_decide_eq_true_2 (s ∈ S)), bool_decide_eq_true_2; [done| |done].
    apply elem_of_union. by left.
  - rewrite (bool_decide_eq_true_2 (s ∈ T)), bool_decide_eq_true_2, orb_true_r;
      [done| |done].
    apply elem_of_union. by right.
  - rewrite !bool_decide_eq_false_2; [done..|]. by intros [?|?]%elem_of_union.
Qed.

Lemma pages_to_process_union (page_ids : list pyval) (S T : gset string) :
  pages_to_process page_ids (S ∪ T) = pages_to_process (pages_to_process page_ids S) T.
Proof.
  unfold pages_to_process. rewrite list_filter_filter. apply list_filter_iff.
  intros id. rewrite py_in_union. by destruct (py_in id S), (py_in id T); intuition.
Qed.

(** X13.  The log of processed pages, written and read back.  When the
    export of a page succeeds, the step of the loop succeeds and appends
    the id as one line.  If the log held complete lines and the id holds
    no white space, the log holds complete lines again, the set the next
    run reads from it has grown by the text of the id and by nothing
    else, and the next run leaves out what it left out before and the ids
    that are this text (an integer id is no text, so it is not left
    out). *)
Theorem exported_page_is_logged (output_path : string) (page_id : pyval) (w : World) :
  let exported := export_page page_id output_path (with_trace w [EvProgress page_id]) in
  let logged := (export_pages_step output_path page_id w).2 in
  exported.1 = Ok tt →
  all_chars not_space (py_str page_id) = true →
  complete_lines (processed_log exported.2 output_path) = true →
  (export_pages_step output_path page_id w).1 = Ok tt
  ∧ processed_log logged output_path =
      processed_log exported.2 output_path +:+ py_str page_id +:+ nl
  ∧ complete_lines (processed_log logged output_path) = true
  ∧ processed_set logged output_path =
      processed_set exported.2 output_path ∪ {[py_str page_id]}
  ∧ ∀ page_ids,
      todo_of page_ids logged output_path =
        pages_to_process (todo_of page_ids exported.2 output_path) {[py_str page_id]}.
Proof.
  intros exported logged Hok Hid Hlog.
  destruct exported as [r w1] eqn:Hexported. simpl in Hok. subst r. cbn [snd] in *.
  pose proof (export_pages_step_appends output_path page_id w w1 Hexported) as Hstep.
  assert (Hlogged : processed_log logged output_path =
                    processed_log w1 output_path +:+ py_str page_id +:+ nl).
  { unfold logged. rewrite Hstep. unfold append_file, processed_log. cbn [snd files].
    by rewrite lookup_insert_eq. }
  destruct (readlines_append (processed_log w1 output_path) (py_str page_id) Hlog Hid)
    as [Hread Hcomplete].
  assert (Hset : processed_set logged output_path =
                 processed_set w1 output_path ∪ {[py_str page_id]}).
  { rewrite !processed_set_log, Hlogged, Hread, list_to_set_app_L. simpl.
    by rewrite (right_id_L ∅ (∪)). }
  split_and!.
  - by rewrite Hstep.
  - done.
  - by rewrite Hlogged.
  - done.
  - intros page_ids. unfold todo_of. by rewrite Hset, pages_to_process_union.
Qed.

(** ** Images given by URL *)

Lemma join_snoc (sep : string) (ps : list string) (n : string) :
  ps ≠ [] → join sep (ps ++ [n]) = join sep ps +:+ sep +:+ n.
Proof.
  induction ps as [|p ps IH]; [done|]. intros _.
  destruct ps as [|q ps]; [done|].
  change (join sep ((p :: q :: ps) ++ [n])) with (p +:+ sep +:+ join sep ((q :: ps) ++ [n])).
  rewrite IH by done. change (join sep (p :: q :: ps)) with (p +:+ sep +:+ join sep (q :: ps)).
  by rewrite !app_assoc_s.
Qed.

Lemma Path_str_in_assets (cfg : ConverterSettings) (n : string) :
  is_file_name n = true →
  Path_str (Path_div (assets_dir_of cfg) (Path_of n)) =
    Path_str (assets_dir_of cfg) +:+ "/" +:+ n.
Proof.
  intros Hn. rewrite Path_str_in_dir by done.
  assert (Hassets : assets_dir_of cfg =
                    mkPath (root (Path_of (output_root_path cfg)))
                      (parts (Path_of (output_root_path cfg)) ++ ["assets"])).
  { unfold assets_dir_of. by rewrite (Path_of_file_name "assets"). }
  rewrite Hassets. cbn [root parts].
  rewrite join_snoc by (by destruct (parts (Path_of (output_root_path cfg)))).
  unfold Path_str. cbn [root parts]. rewrite <- app_assoc_s.
  destruct (root (Path_of (output_root_path cfg))); [|done].
  by destruct (parts (Path_of (output_root_path cfg))).
Qed.

Lemma startswith_app (p x : string) : startswith p (p +:+ x) = true.
Proof.
  induction p as [|a p IH]; [done|]. rewrite app_cons. simpl.
  by rewrite bool_decide_eq_true_2, IH.
Qed.

Lemma str_drop_app (p x : string) : str_drop (String.length p) (p +:+ x) = x.
Proof. induction p as [|a p IH]; [by destruct x|]. by rewrite app_cons. Qed.

(** A file of the digest with an extension is found by the glob. *)
Lemma glob_hash_finds (dir hash ext : string) (w : World) :
  is_extension ext = true →
  is_Some (files w !! (dir +:+ "/" +:+ hash +:+ ext)) →
  ∃ found, (glob_hash dir hash w).1 = Ok found ∧ found ≠ [].
Proof.
  unfold is_extension. intros [Hdot Hslash]%andb_prop [content Hfile].
  apply negb_true_iff in Hslash. destruct ext as [|c e]; [done|].
  simpl in Hdot. rewrite andb_true_r in Hdot. apply bool_decide_eq_true in Hdot.
  subst c. eexists. split; [reflexivity|]. intros Hnone.
  assert (Hin : dir +:+ "/" +:+ hash +:+ String "." e ∈
                filter (λ k, startswith (dir +:+ "/" +:+ hash +:+ ".") k = true ∧
                             contains "/" (str_drop (String.length
                                                      (dir +:+ "/" +:+ hash +:+ ".")) k)
                             = false)
                  (map_to_list (files w)).*1); [|by rewrite Hnone in Hin; inversion Hin].
  apply list_elem_of_filter. split.
  - rewrite contains_char_cons in Hslash.
    apply orb_false_elim in Hslash as [_ Hslash].
    change (String "." e) with ("." +:+ e).
    rewrite <- !app_assoc_s. by rewrite startswith_app, str_drop_app.
  - apply list_elem_of_fmap. exists (dir +:+ "/" +:+ hash +:+ String "." e, content).
    split; [done|]. by apply elem_of_map_to_list.
Qed.

(** With a file of the digest in place the conversion touches nothing. *)
Lemma convert_img_stored (page : Page) (el : Tag) (text : string)
    (parent_tags : list string) (w : World) :
  get_attachment_from_element page el = Ok None →
  el_str el "src" ≠ "" →
  startswith "data:" (el_str el "src") = false →
  stored_images w (el_str el "src") ≠ [] →
  (convert_img page el text parent_tags w).2 = w.
Proof.
  intros Hatt Hsrc Hdata Hstored.
  unfold convert_img, bindM at 1, lift at 1. rewrite Hatt.
  rewrite bool_decide_eq_false_2 by done.
  unfold bindM at 1, get_settings at 1. rewrite Hdata.
  unfold stored_images, assets_dir_of in Hstored. unfold bindM at 1.
  destruct (glob_hash _ _ w) as [[found|e] w'] eqn:Hglob;
    [|by unfold glob_hash in Hglob].
  assert (w' = w) as -> by (unfold glob_hash in Hglob; congruence).
  cbn [fst] in Hstored. destruct found as [|f found]; [done|].
  unfold bindM at 1, ret at 1. apply render_local_img_world.
Qed.

Lemma known_image_extensions_ok (ext : string) :
  ext ∈ known_image_extensions → is_extension ext = true.
Proof.
  revert ext. apply Forall_forall. unfold known_image_extensions.
  by repeat constructor.
Qed.

Lemma str_or_extension (mime : string) :
  (∀ mime ext, guess_extension mime = Some ext → ext ≠ "" → is_extension ext = true) →
  is_extension (str_or (guess_extension mime) ".bin") = true.
Proof.
  intros Hguess. unfold str_or. destruct (guess_extension mime) as [ext|] eqn:Hext; [|done].
  case_bool_decide; [done|]. by apply (Hguess mime).
Qed.

(** What a download that gives a file has done: the file is the digest
    with an extension, and it is the one file written. *)
Lemma download_img_some (assets_dir : Path) (src src_hash file : string) (w wd : World) :
  (∀ mime ext, guess_extension mime = Some ext → ext ≠ "" → is_extension ext = true) →
  download_img assets_dir src src_hash w = (Ok (Some file), wd) →
  ∃ ext content,
    is_extension ext = true
    ∧ file = Path_str (Path_div assets_dir (Path_of (src_hash +:+ ext)))
    ∧ files wd = <[file := content]> (files w)
    ∧ converter_settings wd = converter_settings w.
Proof.
  intros Hguess Hdl.
  unfold download_img, try_except, bindM, emit, lift, raise, ret, save_file in Hdl.
  repeat case_match; simplify_eq.
  all: do 2 eexists; split_and!; [|reflexivity|reflexivity|reflexivity].
  all: first
    [ by apply str_or_extension
    | match goal with
      | Hx : _ && bool_decide (_ ∈ known_image_extensions) = true |- _ =>
          apply andb_prop in Hx as [_ Hx%bool_decide_eq_true];
          by apply known_image_extensions_ok
      end ].
Qed.

(** A download that gives no file has written none. *)
Lemma download_img_files (assets_dir : Path) (src src_hash : string) (w wd : World)
    (r : result (option string)) :
  download_img assets_dir src src_hash w = (r, wd) →
  (∃ file, r = Ok (Some file)) ∨ files wd = files w.
Proof.
  intros Hdl.
  unfold download_img, try_except, bindM, emit, lift, raise, ret, save_file in Hdl.
  repeat case_match; simplify_eq; first [by right | left; by eexists].
Qed.

Lemma file_name_of_digest (hash ext : string) :
  hash ≠ "" → contains "/" hash = false → is_extension ext = true →
  is_file_name (hash +:+ ext) = true.
Proof.
  unfold is_extension, is_file_name, keep_part.
  intros Hne Hhash [Hdot Hslash]%andb_prop. apply negb_true_iff in Hslash.
  rewrite contains_char_app, Hhash, Hslash. simpl.
  destruct hash as [|c hash]; [done|]. rewrite app_cons.
  rewrite bool_decide_eq_false_2 by done. simpl. apply negb_true_iff, bool_decide_eq_false_2.
  intros Heq. injection Heq as _ Heq. destruct hash; [|done].
  rewrite app_empty_l in Heq. by subst ext.
Qed.

(** Without a file of the digest the world is the one of the download. *)
Lemma convert_img_download_world (page : Page) (el : Tag) (text : string)
    (parent_tags : list string) (w : World) :
  get_attachment_from_element page el = Ok None →
  el_str el "src" ≠ "" →
  startswith "data:" (el_str el "src") = false →
  stored_images w (el_str el "src") = [] →
  (convert_img page el text parent_tags w).2 =
    (download_img (assets_dir_of (converter_settings w)) (el_str el "src")
       (md5_hexdigest (el_str el "src")) w).2.
Proof.
  intros Hatt Hsrc Hdata Hnone.
  unfold convert_img, bindM at 1, lift at 1. rewrite Hatt.
  rewrite bool_decide_eq_false_2 by done.
  unfold bindM at 1, get_settings at 1. rewrite Hdata.
  unfold stored_images, assets_dir_of in Hnone. unfold bindM at 1.
  destruct (glob_hash _ _ w) as [[found|e] w'] eqn:Hglob;
    [|by unfold glob_hash in Hglob].
  assert (w' = w) as -> by (unfold glob_hash in Hglob; congruence).
  cbn [fst] in Hnone. subst found. unfold bindM at 1.
  fold (assets_dir_of (converter_settings w)).
  destruct (download_img _ _ _ w) as [[[file|]|e] wd]; [|done..].
  apply render_local_img_world.
Qed.

(** X14.  An image given by URL is stored once.  The image has no
    attachment behind it, its [src] is not empty and no [data:] URI, the
    digest of the [src] is a file name, and guessed extensions start with
    the dot.  Then: (1) with a file of the digest in the assets
    directory, under any extension, the conversion sends no request and
    writes nothing; (2) without one the conversion either writes nothing
    (the fetch failed) or leaves a file of the digest behind; (3) from
    then on converting the image again changes nothing. *)
Theorem url_image_is_stored_once (page : Page) (el : Tag) (text : string)
    (parent_tags : list string) (w : World) :
  let src := el_str el "src" in
  let w1 := (convert_img page el text parent_tags w).2 in
  get_attachment_from_element page el = Ok None →
  src ≠ "" →
  startswith "data:" src = false →
  md5_hexdigest src ≠ "" →
  contains "/" (md5_hexdigest src) = false →
  (∀ mime ext, guess_extension mime = Some ext → ext ≠ "" → is_extension ext = true) →
  (stored_images w src ≠ [] → w1 = w)
  ∧ (files w1 = files w ∨ stored_images w1 src ≠ [])
  ∧ (stored_images w1 src ≠ [] → (convert_img page el text parent_tags w1).2 = w1).
Proof.
  intros src w1 Hatt Hsrc Hdata Hhash Hslash Hguess.
  split_and!; [by apply convert_img_stored| |by apply convert_img_stored].
  destruct (decide (stored_images w src = [])) as [Hnone|Hstored];
    [|left; unfold w1; by rewrite convert_img_stored].
  unfold w1. rewrite convert_img_download_world by done. fold src.
  destruct (download_img _ _ _ w) as [r wd] eqn:Hdl. cbn [snd].
  destruct (download_img_files _ _ _ _ _ _ Hdl) as [[file ->]|Hsame]; [|by left].
  right.
  destruct (download_img_some _ _ _ _ _ _ Hguess Hdl)
    as (ext & content & Hext & Hfile & Hfiles & Hcfg).
  rewrite Path_str_in_assets in Hfile by (by apply file_name_of_digest).
  unfold stored_images. rewrite Hcfg.
  destruct (glob_hash_finds (Path_str (assets_dir_of (converter_settings w)))
              (md5_hexdigest src) ext wd Hext) as (found & -> & Hfound); [|done].
  rewrite Hfiles, <- Hfile. by rewrite lookup_insert_eq.
Qed.

(** ** Task lists *)

Lemma replace_first_eq (old new s : string) :
  replace_first old new s =
    if startswith old s then new +:+ str_drop (String.length old) s
    else match s with
         | String c s' => String c (replace_first old new s')
         | EmptyString => EmptyString
         end.
Proof. by destruct s. Qed.

Lemma replace_first_absent (old new s : string) :
  contains old s = false → replace_first old new s = s.
Proof.
  induction s as [|c s IH]; rewrite replace_first_eq; simpl.
  - by intros [-> _]%orb_false_elim.
  - intros [-> Hs]%orb_false_elim. by rewrite IH.
Qed.

(** Only the first bullet is replaced. *)
Lemma replace_first_bullet (new pre post : string) :
  contains "- " pre = false →
  replace_first "- " new (pre +:+ "- " +:+ post) = pre +:+ new +:+ post.
Proof.
  induction pre as [|c pre IH]; [done|].
  intros Hc. cbn [contains] in Hc. apply orb_false_elim in Hc as [Hstart Hpre].
  rewrite app_cons, replace_first_eq, (IH Hpre).
  assert (startswith "- " (String c (pre +:+ "- " +:+ post)) = false) as ->;
    [|by rewrite !app_cons].
  cbn [startswith] in *. destruct (bool_decide ("-"%char = c)); [|done].
  destruct pre as [|d pre]; [done|]. rewrite app_cons. cbn [andb] in *.
  by destruct (bool_decide (" "%char = d)).
Qed.

(** X15.  Task lists.  The item of a Confluence task gets the check box
    of a GitHub task list behind its first bullet and nowhere else:
    bullets further down in the text of the item stay as they are.  The
    box is ticked when the class of the element holds [checked].  A task
    whose text has no bullet, and an item that is no task, are returned
    as the base converter renders them. *)
Theorem task_item_gets_one_check_box
    (md_convert_li : Tag → string → list string → string)
    (el : Tag) (text : string) (parent_tags : list string) (pre post : string) :
  let md := md_convert_li el text parent_tags in
  (has_attr el "data-inline-task-id" = true →
   md = pre +:+ "- " +:+ post → contains "- " pre = false →
   convert_li md_convert_li el text parent_tags =
     pre +:+ "- " +:+ task_box el +:+ " " +:+ post)
  ∧ (has_attr el "data-inline-task-id" = true → contains "- " md = false →
     convert_li md_convert_li el text parent_tags = md)
  ∧ (has_attr el "data-inline-task-id" = false →
     convert_li md_convert_li el text parent_tags = md).
Proof.
  intros md. unfold convert_li. fold md. split_and!.
  - intros -> -> Hpre. rewrite replace_first_bullet by done.
    unfold task_box. by rewrite !app_assoc_s.
  - intros -> Hmd. by apply replace_first_absent.
  - by intros ->.
Qed.

End MoreProperties.

(** * The properties on the concrete deployment *)

Import Demo.

(** C1.  The ids are [int]s, as the signature of [export_pages] says.  A
    first run over [1, 2, 3] is killed right after the second round: the
    log holds the lines 1 and 2.  The second run over [1, 2, 3] filters
    nothing, because the set read from the log holds strings: it exports
    pages 1 and 2 again before it reaches page 3. *)
Theorem rerun_with_int_ids_repeats_pages :
  let page_ids := [PInt 1; PInt 2; PInt 3] in
  let killed := (killed_after 2 page_ids "out" gfm).2 in
  let rerun := (export_pages page_ids "out" killed).2 in
  files killed !! processed_pages_file "out" = Some ("1" +:+ nl +:+ "2" +:+ nl)
  ∧ todo_of page_ids killed "out" = [PInt 1; PInt 2; PInt 3]
  ∧ progress_of (trace rerun) = progress_of (trace killed) ++ [PInt 1; PInt 2; PInt 3].
Proof. by vm_compute. Qed.

(** With the same ids as strings the second run exports page 3 only. *)
Example rerun_with_str_ids_resumes :
  let page_ids := [PStr "1"; PStr "2"; PStr "3"] in
  let killed := (killed_after 2 page_ids "out" gfm).2 in
  let rerun := (export_pages page_ids "out" killed).2 in
  todo_of page_ids killed "out" = [PStr "3"]
  ∧ progress_of (trace rerun) = progress_of (trace killed) ++ [PStr "3"].
Proof. by vm_compute. Qed.

(** C2, counterexample.  Under the style [HTML] a batch over two pages
    is not aborted by the first page: [export_pages] returns normally
    after it has tried both pages and printed the error for each. *)
Lemma invalid_style_does_not_abort_batch :
  let run := export_pages [PInt 1; PInt 2] "out" (world "HTML") in
  run.1 = Ok tt
  ∧ progress_of (trace run.2) = [PInt 1; PInt 2]
  ∧ errors_of (trace run.2) =
      [(PInt 1, ValueError "Invalid markdown style: HTML");
       (PInt 2, ValueError "Invalid markdown style: HTML")].
Proof. by vm_compute. Qed.

Lemma invalid_style_is_caught_per_page_witness :
  ¬ supported_style (converter_settings (world "HTML"))
  ∧ ∃ w', export_pages [PInt 1; PInt 2] "out" (world "HTML") = (Ok tt, w')
          ∧ files w' = files (world "HTML")
          ∧ errors_of (trace w') =
              [(PInt 1, ValueError "Invalid markdown style: HTML");
               (PInt 2, ValueError "Invalid markdown style: HTML")].
Proof.
  assert (Hbad : ¬ supported_style (converter_settings (world "HTML")))
    by (intros [Hs | Hs]; discriminate Hs).
  split; [exact Hbad|].
  destruct (invalid_style_is_caught_per_page [PInt 1; PInt 2] "out" (world "HTML") Hbad)
    as (_ & _ & _ & Hbatch).
  apply Hbatch. intros id Hin.
  apply elem_of_cons in Hin as [-> | Hin]; [by eexists _, _|].
  apply elem_of_cons in Hin as [-> | Hin]; [by eexists _, _|].
  by apply elem_of_nil in Hin.
Defined.

Lemma safe_ancestor_title_on_http_error_witness :
  _get_safe_ancestor_title 7 = Ok "N/A"
  ∧ _get_safe_ancestor_title 8 = Raise (HTTPError (Some 500)).
Proof.
  split.
  - exact (safe_ancestor_title_on_http_error 7 403 eq_refl).
  - exact (safe_ancestor_title_on_http_error 8 500 eq_refl).
Defined.

Lemma unknown_placeholder_is_kept_witness :
  plain_name "team" = true
  ∧ ("team" ∉ page_variables)
  ∧ ∃ path, Page_export_path team_settings home = Ok path
            ∧ occurs "{team}" (Path_str path)
            ∧ occurs "${team}" (Path_str path).
Proof.
  assert (Hunknown : "team" ∉ page_variables).
  { intros Hin. repeat (apply elem_of_cons in Hin as [Heq | Hin]; [discriminate Heq|]).
    by apply elem_of_nil in Hin. }
  split; [reflexivity|]. split; [exact Hunknown|].
  destruct (unknown_placeholder_is_kept team_settings "{space_name}/" "team"
              "/{page_title}.md" eq_refl) as [Hpage _].
  destruct (Page_template_vars home) as [vars|e] eqn:Hvars; [|discriminate Hvars].
  exact (Hpage home vars Hunknown eq_refl Hvars).
Defined.

Example unknown_placeholder_path :
  Page_export_path team_settings home = Ok (mkPath "" ["Docs"; "${team}"; "Home.md"]).
Proof. by vm_compute. Qed.

(** C5.  The image names attachment [att99] of page 1, which lists only
    [att55]: the lookup raises [StopIteration] and [convert_img] lets it
    through instead of returning the empty string. *)
Theorem missing_attachment_reference_raises :
  convert_img home
    (img [("data-linked-resource-id", "att99");
          ("data-linked-resource-container-id", "1");
          ("src", "/download/attachments/1/other.png")]) "" [] gfm
  = (Raise StopIteration, gfm).
Proof. by vm_compute. Qed.

(** The same for a reference by file id, whatever the page lists. *)
Example media_id_reference_raises :
  convert_img home (img [("data-media-id", "f-55")]) "" [] gfm
  = (Raise (AttributeError "'Page' object has no attribute 'page'"), gfm).
Proof. by vm_compute. Qed.

(** A download that fails is dropped without an exception. *)
Example failed_download_is_dropped :
  (convert_img home (img [("src", "/images/icons/missing.png")]) "" [] gfm).1 = Ok "".
Proof. by vm_compute. Qed.

Lemma data_uri_image_file_witness :
  let el := img [("src", "data:image/png;base64,AAAA")] in
  let el' := img [("src", "data:image/png;base64,BBBB")] in
  let w1 := (convert_img home el "" [] gfm).2 in
  let w2 := (convert_img home el "" [] w1).2 in
  let w' := (convert_img home el' "" [] w1).2 in
  (files w1 = {["assets/41414141.png" := "AAAA"]}
   ∧ trace w1 = [EvSave "assets/41414141.png"])
  ∧ (∃ evs, trace w2 = trace gfm ++ evs ∧ (count_saves evs ≤ 1)%nat)
  ∧ "assets/41414141.png" ≠ "assets/42424242.png"
  ∧ is_Some (files w' !! "assets/41414141.png")
  ∧ is_Some (files w' !! "assets/42424242.png").
Proof.
  intros el el' w1 w2 w'.
  destruct (data_uri_image_file home el "" [] gfm "image/png" "AAAA" eq_refl eq_refl)
    as (Hwrite & _ & Htwice & Hother).
  split; [exact (Hwrite "AAAA" eq_refl eq_refl)|].
  split; [exact Htwice|].
  refine (Hother el' "image/png" "BBBB" "AAAA" "BBBB" eq_refl eq_refl _ eq_refl
            eq_refl eq_refl eq_refl eq_refl).
  intros Heq. discriminate Heq.
Defined.

(** C7, counterexample.  Page 4 under the GFM style: the breadcrumb line
    stands before the converted body, and nothing but the final newline
    follows the body. *)
Lemma breadcrumbs_come_before_body :
  let out := nl +:+ "[Parent](Docs/Parent.md)" +:+ nl +:+ nl
             +:+ "<h1>Child</h1><p>child</p>" +:+ nl in
  Converter_markdown child gfm = (Ok out, gfm)
  ∧ occurs_after "[Parent](Docs/Parent.md)" "<h1>Child</h1><p>child</p>" out = true
  ∧ occurs_after "<h1>Child</h1><p>child</p>" "[Parent](Docs/Parent.md)" out = false
  ∧ occurs_after "<h1>Child</h1><p>child</p>" "Parent" out = false.
Proof. by vm_compute. Qed.

Lemma markdown_composition_witness :
  Converter_markdown child gfm =
    (Ok (nl +:+ ("[Parent](Docs/Parent.md)" +:+ nl) +:+ nl
         +:+ "<h1>Child</h1><p>child</p>" +:+ nl), gfm)
  ∧ Converter_markdown child (world "Obsidian") =
      (Ok (nl +:+ "<p>child</p>" +:+ nl), world "Obsidian").
Proof.
  split.
  - destruct (markdown_composition child gfm gfm "<h1>Child</h1><p>child</p>" ∅ eq_refl)
      as [Hgfm _].
    exact (Hgfm eq_refl eq_refl ["[Parent](Docs/Parent.md)"] eq_refl).
  - destruct (markdown_composition child (world "Obsidian") (world "Obsidian")
                "<p>child</p>" ∅ eq_refl) as [_ Hobsidian].
    exact (Hobsidian eq_refl eq_refl).
Defined.

Lemma alert_macro_label_witness :
  let el := mkTag "div" [("data-macro-name", AttrStr "warning")] [] in
  convert_div home el "careful" [] gfm =
    (Ok (nl +:+ "> [!CAUTION]" +:+ nl +:+ "> careful" +:+ nl +:+ nl), gfm)
  ∧ convert_alert (mkTag "div" [("data-macro-name", AttrStr "expand")] []) "more" []
    = Ok (nl +:+ "> [!NOTE]" +:+ nl +:+ "> more" +:+ nl +:+ nl).
Proof.
  intros el. split.
  - destruct (alert_macro_label home el "careful" [] "warning" gfm eq_refl)
      as (_ & Hdiv & _).
    apply Hdiv. repeat first [apply list_elem_of_here | apply list_elem_of_further].
  - exact (proj1 (alert_macro_label home
                    (mkTag "div" [("data-macro-name", AttrStr "expand")] [])
                    "more" [] "expand" gfm eq_refl)).
Defined.

Lemma unresolved_display_link_keeps_href_witness :
  convert_a home (mkTag "a" [("href", AttrStr "/display/DOC/Missing+Page")] [])
    "Missing Page" [] gfm
  = (Ok "[Missing Page](/display/DOC/Missing+Page)", gfm).
Proof.
  exact (unresolved_display_link_keeps_href home
           (mkTag "a" [("href", AttrStr "/display/DOC/Missing+Page")] [])
           "Missing Page" [] "DOC" "Missing+Page" gfm
           eq_refl eq_refl (or_introl eq_refl) eq_refl eq_refl eq_refl eq_refl eq_refl).
Defined.

Lemma attachment_export_at_most_once_witness :
  let rel := mkPath "" ["Docs"; "attachments"; "f-55.png"] in
  let w1 := (Attachment_export diagram "out" gfm).2 in
  Attachment_export_path (converter_settings gfm) diagram = Ok rel
  ∧ is_Some (files w1 !! "out/Docs/attachments/f-55.png")
  ∧ Attachment_export diagram "out" w1 = (Ok tt, w1)
  ∧ ∃ evs,
      trace (Attachment_export diagram "out" (Attachment_export diagram "out" gfm).2).2
        = trace gfm ++ evs
      ∧ (count_saves evs ≤ 1)%nat
      ∧ (count_saves evs = 1%nat → count_gets evs = 1%nat).
Proof.
  intros rel w1.
  assert (Hpresent : is_Some (files w1 !! "out/Docs/attachments/f-55.png"))
    by (by eexists; vm_compute).
  split; [reflexivity|]. split; [exact Hpresent|]. split.
  - exact (proj1 (attachment_export_at_most_once diagram "out" w1 rel eq_refl) Hpresent).
  - exact (proj2 (attachment_export_at_most_once diagram "out" gfm rel eq_refl)).
Defined.

(** * Further properties on the concrete deployment *)

Import MoreDemo.

Lemma attachment_export_http_error_witness :
  Attachment_export lost "out" gfm =
    (Ok tt,
     with_trace gfm
       [EvGet "https://wiki.example.org/missing/lost.png";
        EvPrint "There is no attachment with title 'lost.png'. Skipping export."]).
Proof.
  assert (Hpath : Attachment_export_path (converter_settings gfm) lost =
                  Ok (mkPath "" ["Docs"; "attachments"; "f-77.png"])) by (by vm_compute).
  destruct (attachment_export_http_error lost "out" gfm _ Hpath eq_refl)
    as [Hskipped _].
  apply Hskipped. right. eexists. split; [reflexivity|]. simpl. lia.
Defined.

Lemma link_targets_hold_no_space_witness :
  convert_page_link child 10 None gfm = (Ok "[Parent](Docs/Parent.md)", gfm)
  ∧ ∃ label target,
      "[Parent](Docs/Parent.md)" = "[" +:+ label +:+ "](" +:+ target +:+ ")"
      ∧ contains " " target = false.
Proof.
  split; [reflexivity|].
  destruct (link_targets_hold_no_space child gfm gfm "[Parent](Docs/Parent.md)")
    as [Hpage _].
  exact (Hpage 10 None eq_refl).
Defined.

Lemma front_matter_empty_iff_witness :
  front_matter home ∅ = ""
  ∧ ∃ yml, front_matter labelled ∅ = "---" +:+ nl +:+ yml +:+ nl +:+ "---" +:+ nl.
Proof.
  split.
  - destruct (front_matter_empty_iff home ∅) as [[_ Hempty] _].
    apply Hempty. split; reflexivity.
  - destruct (front_matter_empty_iff labelled ∅) as [[Hlabels _] Hfenced].
    apply Hfenced. intros Heq. apply Hlabels in Heq as [Heq _]. discriminate Heq.
Defined.

Lemma forbidden_ancestors_resolve_witness :
  ∃ vars path,
    Page_template_vars deep = Ok vars
    ∧ vars !! "ancestor_titles" = Some "Parent/N/A"
    ∧ Page_export_path (converter_settings gfm) deep = Ok path.
Proof.
  destruct (forbidden_ancestors_resolve (converter_settings gfm) deep) as [Hresolve _].
  assert (Hancestors : Forall readable_or_forbidden (page_ancestors deep)).
  { apply Forall_cons. split; [left; by eexists|].
    apply Forall_cons. split; [right; reflexivity|]. constructor. }
  assert (Hhome : ∀ h, space_homepage (page_space deep) = Some h →
                       ∃ p, Page_from_id (py_str_int h) = Ok p).
  { intros h [= <-]. by eexists. }
  destruct (Hresolve Hancestors Hhome) as (vars & path & Hvars & Htitles & Hpath).
  exists vars, path. split_and!; [exact Hvars| |exact Hpath].
  rewrite Htitles. by vm_compute.
Defined.

Lemma data_uri_pattern_captures_witness :
  ∃ mime payload tail,
    ["image/png"; "QUJD"] = [mime; payload]
    ∧ "data:image/png;base64,QUJD" = "data:" +:+ mime +:+ ";base64," +:+ payload +:+ tail
    ∧ mime ≠ "" ∧ contains ";" mime = false
    ∧ payload ≠ "" ∧ contains nl payload = false
    ∧ (tail = "" ∨ startswith nl tail = true).
Proof.
  exact (data_uri_pattern_captures "data:image/png;base64,QUJD" ["image/png"; "QUJD"]
           eq_refl).
Defined.

Lemma page_id_links_resolve_witness :
  let el := link "/wiki/spaces/DOC/pages/4/Child" in
  ∃ d z, ["4"] = [d] ∧ py_int d = Ok z ∧ 0 ≤ z
         ∧ (occurs ("/pages/" +:+ d) (el_str el "href")
            ∨ occurs ("pageId=" +:+ d) (el_str el "href"))
         ∧ convert_a child el "Child" [] gfm = convert_page_link child z (Some el) gfm.
Proof.
  exact (page_id_links_resolve child (link "/wiki/spaces/DOC/pages/4/Child") "Child" []
           gfm ["4"] eq_refl eq_refl (or_introl eq_refl) eq_refl (or_introl eq_refl)).
Defined.

Lemma template_resolves_by_segments_witness :
  safe_substitute {["space_key" := "DOC"]}
    (replace_char "{" "${" "a/{space_key}/{team}.md") = "a/DOC/${team}.md".
Proof.
  exact (template_resolves_by_segments {["space_key" := "DOC"]}
           [Text "a/"; Placeholder "space_key"; Text "/"; Placeholder "team"; Text ".md"]
           eq_refl).
Defined.

Lemma dollar_sign_in_templates_witness :
  let vars : gmap string string := {["page_title" := "Home"]} in
  safe_substitute vars (replace_char "{" "${" "${page_title}.md") =
    "${page_title}" +:+ safe_substitute vars (replace_char "{" "${" ".md")
  ∧ safe_substitute vars (replace_char "{" "${" "$page_title.md") =
      "Home" +:+ safe_substitute vars (replace_char "{" "${" ".md").
Proof.
  destruct (dollar_sign_in_templates {["page_title" := "Home"]} "page_title" ".md")
    as [Hescaped Hbare].
  split; [exact (Hescaped eq_refl eq_refl)|exact (Hbare "Home" eq_refl eq_refl eq_refl)].
Defined.

Lemma space_cache_round_trip_witness :
  ∃ w1,
    Space_load_pages listing wiki "out" gfm = (Ok [PInt 1; PInt 2; PInt 3], w1)
    ∧ files w1 = <[pages_cache_file "out" := id_lines [PInt 1; PInt 2; PInt 3]]> (files gfm)
    ∧ ∀ w2, files w2 !! pages_cache_file "out" = files w1 !! pages_cache_file "out" →
        (Space_load_pages offline wiki "out" w2).1 = Ok [PStr "1"; PStr "2"; PStr "3"].
Proof.
  exact (space_cache_round_trip listing offline wiki "out" [1; 2; 3] gfm eq_refl eq_refl).
Defined.

Lemma exported_page_is_logged_witness :
  let exported := export_page (PStr "2") "out" (with_trace gfm [EvProgress (PStr "2")]) in
  let logged := (export_pages_step "out" (PStr "2") gfm).2 in
  (export_pages_step "out" (PStr "2") gfm).1 = Ok tt
  ∧ processed_log logged "out" = processed_log exported.2 "out" +:+ "2" +:+ nl
  ∧ complete_lines (processed_log logged "out") = true
  ∧ processed_set logged "out" = processed_set exported.2 "out" ∪ {["2"]}
  ∧ ∀ page_ids,
      todo_of page_ids logged "out" =
        pages_to_process (todo_of page_ids exported.2 "out") {["2"]}.
Proof.
  apply (exported_page_is_logged "out" (PStr "2") gfm); by vm_compute.
Defined.

Lemma url_image_is_stored_once_witness :
  let el := img [("src", "/download/icons/smile.png")] in
  let w1 := (convert_img home el "" [] gfm).2 in
  (stored_images gfm "/download/icons/smile.png" ≠ [] → w1 = gfm)
  ∧ (files w1 = files gfm ∨ stored_images w1 "/download/icons/smile.png" ≠ [])
  ∧ (stored_images w1 "/download/icons/smile.png" ≠ [] →
     (convert_img home el "" [] w1).2 = w1).
Proof.
  apply (url_image_is_stored_once home (img [("src", "/download/icons/smile.png")])
           "" [] gfm); try reflexivity; try discriminate.
  intros mime ext Hguess _. simpl in Hguess. unfold assoc, mime_table in Hguess.
  repeat case_bool_decide; simplify_eq; reflexivity.
Defined.

Lemma task_item_gets_one_check_box_witness :
  convert_li bullets (task ["checked"]) "buy - milk" [] = "- [x] buy - milk" +:+ nl
  ∧ convert_li bullets (task ["open"]) "buy - milk" [] = "- [ ] buy - milk" +:+ nl.
Proof.
  split.
  - destruct (task_item_gets_one_check_box bullets (task ["checked"]) "buy - milk" []
                "" ("buy - milk" +:+ nl)) as [Hbox _].
    exact (Hbox eq_refl eq_refl eq_refl).
  - destruct (task_item_gets_one_check_box bullets (task ["open"]) "buy - milk" []
                "" ("buy - milk" +:+ nl)) as [Hbox _].
    exact (Hbox eq_refl eq_refl eq_refl).
Defined.
